(** * ama-tyc-service: the consent-request (TyC) lifecycle

    A shallow embedding of the route handlers of [src/tycRoutes.js] and of
    the second copy of that module that lives in [src/internalAuth.js]
    (below the [requireInternalSecret] middleware).

    - [src/tycRoutes.js] is the module [src/server.js] mounts.  Its read,
      accept and sweep handlers work on the in-memory [Map] only; creation
      also inserts a row in the [tyc_solicitudes] table.
    - the copy in [src/internalAuth.js] reads through to the table on a
      cache miss and writes state changes back.

    [sendWebhook], the creation handler and the sweep handler are textually
    the same in both files and are embedded once; the read and the accept
    handlers are embedded per file, in [Module TycRoutes] and
    [Module InternalAuth].

    Modelling conventions.
    - An ISO-8601 timestamp string is represented by the epoch milliseconds
      it denotes ([new Date(s).getTime()]); [toISOString] and [new Date] are
      inverse to each other on valid dates.
    - A handler is a function in a state monad over [World]: the in-memory
      [Map], the table, the HTTP posts issued through axios, the console and
      a script of upcoming [pool.query] faults (a query that throws).
    - The clock readings, the random bytes and the request data a handler
      consumes are explicit arguments.
    - Whether a post handed to axios resolves or rejects (network error,
      timeout, status outside 2xx) is scripted in the world, like the query
      faults.  [sendWebhook] logs the outcome when the post settles; the
      sweep awaits that, and the other handlers log nothing after the call,
      so the line is appended to the console at the call. *)

From Stdlib Require Import ZArith List String Ascii Bool Lia DecimalString.
Import ListNotations.

Local Open Scope string_scope.
Local Open Scope Z_scope.
Local Open Scope list_scope.

(* ------------------------------------------------------------------ *)
(** ** JavaScript values *)

Definition Instant := Z.

#[local] Set Warnings "-register-all".

Inductive json : Type :=
| JNull
| JBool (b : bool)
| JNum (n : Z)
| JStr (s : string)
| JDate (t : Instant)
| JObj (fields : list (string * json)).

(** [!s] is true for the empty string only. *)
Definition truthy (s : string) : bool := negb (String.eqb s "").

(** [a || b] on values that are a string, [null] or [undefined]. *)
Definition js_or (a b : option string) : option string :=
  match a with
  | Some s => if truthy s then Some s else b
  | None => b
  end.

Definition or_default (a : option string) (d : string) : string :=
  match js_or a None with
  | Some s => s
  | None => d
  end.

Definition json_truthy (j : json) : bool :=
  match j with
  | JNull => false
  | JBool b => b
  | JNum n => negb (n =? 0)
  | JStr s => truthy s
  | JDate _ => true
  | JObj _ => true
  end.

(** [j || {}] *)
Definition or_empty_object (j : json) : json :=
  if json_truthy j then j else JObj [].

Definition json_of_opt_instant (t : option Instant) : json :=
  match t with
  | Some t => JDate t
  | None => JNull
  end.

Definition json_of_opt_string (s : option string) : json :=
  match s with
  | Some s => JStr s
  | None => JNull
  end.

Fixpoint assoc {V : Type} (k : string) (l : list (string * V)) : option V :=
  match l with
  | [] => None
  | (k', v) :: l' => if String.eqb k' k then Some v else assoc k l'
  end.

(** Property access on an object literal. *)
Definition field (k : string) (j : json) : option json :=
  match j with
  | JObj fs => assoc k fs
  | _ => None
  end.

Definition keys (j : json) : list string :=
  match j with
  | JObj fs => map fst fs
  | _ => []
  end.

(** The largest time value of a [Date]; [toISOString] throws a RangeError
    beyond it. *)
Definition MAX_TIME : Z := 8640000000000000.

Definition valid_date (t : Z) : bool := Z.abs t <=? MAX_TIME.

Definition decimal (n : Z) : string := NilZero.string_of_int (Z.to_int n).

(* ------------------------------------------------------------------ *)
(** ** The platform: node's [crypto], [JSON] and [String.prototype.trim] *)

Class Platform : Type := {
  (** [crypto.createHash('sha256').update(s).digest('hex')] *)
  createHash_sha256_hex : string -> string;
  (** [crypto.createHmac('sha256', key).update(msg).digest('hex')] *)
  createHmac_sha256_hex : string -> string -> string;
  (** [JSON.stringify] *)
  JSON_stringify : json -> string;
  (** [s.trim()]: [s] without the white space and line terminators of
      ECMAScript (U+0009 to U+000D, U+0020, U+00A0, U+FEFF, the space
      separators, U+2028, U+2029) at either end *)
  String_trim : string -> string
}.

(** [process.env] *)
Record Env : Type := {
  WEBHOOK_SECRET : option string;
  TYC_BASE_URL : option string;
  PORT : option string;
  INTERNAL_API_SECRET : option string
}.

(* ------------------------------------------------------------------ *)
(** ** The request record *)

Inductive Estado : Type := CREADA | ABIERTA | ACEPTADA | EXPIRADA.

Definition Estado_eqb (a b : Estado) : bool :=
  match a, b with
  | CREADA, CREADA | ABIERTA, ABIERTA
  | ACEPTADA, ACEPTADA | EXPIRADA, EXPIRADA => true
  | _, _ => false
  end.

(** [STATES] *)
Definition STATES (e : Estado) : string :=
  match e with
  | CREADA => "CREADA"
  | ABIERTA => "ABIERTA"
  | ACEPTADA => "ACEPTADA"
  | EXPIRADA => "EXPIRADA"
  end.

Record Solicitud : Type := {
  tycSolicitudId : string;
  preclienteId : string;
  canal : string;
  token : string;
  estado : Estado;
  createdAt : Instant;
  expiresAt : Instant;
  webhookUrl : option string;
  metadata : json;
  openedAt : option Instant;
  acceptedAt : option Instant;
  acceptedIp : option string;
  acceptedUserAgent : option string
}.

(** [solicitud.estado = e] *)
Definition set_estado (e : Estado) (s : Solicitud) : Solicitud :=
  {| tycSolicitudId := tycSolicitudId s; preclienteId := preclienteId s;
     canal := canal s; token := token s; estado := e;
     createdAt := createdAt s; expiresAt := expiresAt s;
     webhookUrl := webhookUrl s; metadata := metadata s;
     openedAt := openedAt s; acceptedAt := acceptedAt s;
     acceptedIp := acceptedIp s; acceptedUserAgent := acceptedUserAgent s |}.

(** [solicitud.openedAt = t] *)
Definition set_openedAt (t : Instant) (s : Solicitud) : Solicitud :=
  {| tycSolicitudId := tycSolicitudId s; preclienteId := preclienteId s;
     canal := canal s; token := token s; estado := estado s;
     createdAt := createdAt s; expiresAt := expiresAt s;
     webhookUrl := webhookUrl s; metadata := metadata s;
     openedAt := Some t; acceptedAt := acceptedAt s;
     acceptedIp := acceptedIp s; acceptedUserAgent := acceptedUserAgent s |}.

(** [solicitud.acceptedAt = t; solicitud.acceptedIp = ip;
     solicitud.acceptedUserAgent = ua] *)
Definition set_accepted (t : Instant) (ip ua : option string)
    (s : Solicitud) : Solicitud :=
  {| tycSolicitudId := tycSolicitudId s; preclienteId := preclienteId s;
     canal := canal s; token := token s; estado := estado s;
     createdAt := createdAt s; expiresAt := expiresAt s;
     webhookUrl := webhookUrl s; metadata := metadata s;
     openedAt := openedAt s; acceptedAt := Some t;
     acceptedIp := ip; acceptedUserAgent := ua |}.

Definition set_metadata (m : json) (s : Solicitud) : Solicitud :=
  {| tycSolicitudId := tycSolicitudId s; preclienteId := preclienteId s;
     canal := canal s; token := token s; estado := estado s;
     createdAt := createdAt s; expiresAt := expiresAt s;
     webhookUrl := webhookUrl s; metadata := m;
     openedAt := openedAt s; acceptedAt := acceptedAt s;
     acceptedIp := acceptedIp s; acceptedUserAgent := acceptedUserAgent s |}.

(** [expira < ahora] *)
Definition vencida (ahora : Instant) (s : Solicitud) : bool :=
  expiresAt s <? ahora.

(* ------------------------------------------------------------------ *)
(** ** The in-memory [Map], in insertion order *)

Definition Map_get {V : Type} (k : string) (m : list (string * V))
    : option V := assoc k m.

(** [Map.prototype.set]: an existing key keeps its position. *)
Fixpoint Map_set {V : Type} (k : string) (v : V) (m : list (string * V))
    : list (string * V) :=
  match m with
  | [] => [(k, v)]
  | (k', v') :: m' =>
      if String.eqb k' k then (k, v) :: m' else (k', v') :: Map_set k v m'
  end.

Definition Map_keys {V : Type} (m : list (string * V)) : list string :=
  map fst m.

Definition Map_delete {V : Type} (k : string) (m : list (string * V))
    : list (string * V) :=
  filter (fun e => negb (String.eqb (fst e) k)) m.

(* ------------------------------------------------------------------ *)
(** ** The [tyc_solicitudes] table and the queries the handlers send *)

Module Sql.

Record row : Type := {
  tyc_solicitud_id : string;
  precliente_id : string;
  token : string;
  token_hash : string;
  canal : string;
  webhook_url : option string;
  metadata : json;
  estado : Estado;
  created_at : Instant;
  expires_at : Instant;
  opened_at : option Instant;
  accepted_at : option Instant;
  accepted_ip : option string
}.

Definition table := list row.

(** [INSERT INTO tyc_solicitudes (...) VALUES ($1, ..., $10)] *)
Definition insert (r : row) (t : table) : table := t ++ [r].

(** [SELECT ... FROM tyc_solicitudes WHERE token = $1 LIMIT 1] *)
Definition select_by_token (tok : string) (t : table) : option row :=
  find (fun r => String.eqb (token r) tok) t.

Definition with_estado (e : Estado) (r : row) : row :=
  {| tyc_solicitud_id := tyc_solicitud_id r; precliente_id := precliente_id r;
     token := token r; token_hash := token_hash r; canal := canal r;
     webhook_url := webhook_url r; metadata := metadata r; estado := e;
     created_at := created_at r; expires_at := expires_at r;
     opened_at := opened_at r; accepted_at := accepted_at r;
     accepted_ip := accepted_ip r |}.

(** [UPDATE tyc_solicitudes SET estado = $2 WHERE token = $1] *)
Definition update_estado (tok : string) (e : Estado) (t : table) : table :=
  map (fun r => if String.eqb (token r) tok then with_estado e r else r) t.

Definition opened (now : Instant) (r : row) : row :=
  {| tyc_solicitud_id := tyc_solicitud_id r; precliente_id := precliente_id r;
     token := token r; token_hash := token_hash r; canal := canal r;
     webhook_url := webhook_url r; metadata := metadata r;
     estado := if Estado_eqb (estado r) CREADA then ABIERTA else estado r;
     created_at := created_at r; expires_at := expires_at r;
     opened_at := match opened_at r with Some t => Some t | None => Some now end;
     accepted_at := accepted_at r; accepted_ip := accepted_ip r |}.

(** [UPDATE tyc_solicitudes
     SET opened_at = COALESCE(opened_at, NOW()),
         estado = CASE WHEN estado = $2 THEN $3 ELSE estado END
     WHERE token = $1], sent with [$2 = CREADA] and [$3 = ABIERTA] *)
Definition update_opened (tok : string) (now : Instant) (t : table) : table :=
  map (fun r => if String.eqb (token r) tok then opened now r else r) t.

Definition accepted (now : Instant) (ip : option string) (r : row) : row :=
  {| tyc_solicitud_id := tyc_solicitud_id r; precliente_id := precliente_id r;
     token := token r; token_hash := token_hash r; canal := canal r;
     webhook_url := webhook_url r; metadata := metadata r;
     estado := ACEPTADA;
     created_at := created_at r; expires_at := expires_at r;
     opened_at := opened_at r; accepted_at := Some now;
     accepted_ip := ip |}.

(** The [WHERE] clause of the acceptance update:
    [token = $1 AND accepted_at IS NULL] *)
Definition accept_matches (tok : string) (r : row) : bool :=
  String.eqb (token r) tok &&
  match accepted_at r with None => true | Some _ => false end.

(** [UPDATE tyc_solicitudes
     SET accepted_at = NOW(), accepted_ip = $2, estado = $3
     WHERE token = $1 AND accepted_at IS NULL
     RETURNING accepted_at]: the [accepted_at] of every updated row, and
    the table after the update. *)
Definition update_accepted (tok : string) (ip : option string)
    (now : Instant) (t : table) : list Instant * table :=
  (map (fun _ => now) (filter (accept_matches tok) t),
   map (fun r => if accept_matches tok r then accepted now ip r else r) t).

End Sql.

(* ------------------------------------------------------------------ *)
(** ** The world a handler runs in *)

(** [axios.post(url, data, { headers, timeout })] *)
Record HttpPost : Type := {
  url : string;
  data : json;
  content_type : string;
  x_ama_signature : string;
  x_ama_event : string;
  timeout : Z
}.

Inductive LogLine : Type :=
| LogInfo (msg : string)
| LogWarn (msg : string)
| LogError (msg : string).

Record World : Type := {
  (** the module-level [Map] *)
  solicitudesTyC : list (string * Solicitud);
  (** the table behind [pool] *)
  tyc_solicitudes : Sql.table;
  (** the posts handed to axios, oldest first *)
  outbox : list HttpPost;
  console : list LogLine;
  (** for each upcoming [pool.query], whether it throws; a query beyond the
      script succeeds *)
  pool_faults : list bool;
  (** for each upcoming [axios.post], whether its promise rejects; a post
      beyond the script resolves *)
  axios_faults : list bool
}.

(** What [res.send] is given: a fixed piece of markup, or the consent page
    with the values interpolated in its template ([already_accepted] is the
    [ALREADY_ACCEPTED] flag, which only the template of
    [src/internalAuth.js] has). *)
Inductive Page : Type :=
| Markup (html : string)
| ConsentPage (precliente : string) (expira : Instant) (token : string)
    (already_accepted : option bool).

Inductive Response : Type :=
| Json (status : Z) (body : json)
| Html (status : Z) (page : Page).

Definition status_of (r : Response) : Z :=
  match r with
  | Json s _ => s
  | Html s _ => s
  end.

(** A state monad over [World]. *)
Definition M (A : Type) : Type := World -> A * World.

Definition ret {A : Type} (a : A) : M A := fun w => (a, w).

Definition bind {A B : Type} (m : M A) (k : A -> M B) : M B :=
  fun w => let (a, w') := m w in k a w'.

Declare Scope handler_scope.
Delimit Scope handler_scope with handler.
Notation "x <- m ;; k" := (bind m (fun x => k))
  (at level 61, m at next level, right associativity) : handler_scope.
Notation "m ;; k" := (bind m (fun _ => k))
  (at level 61, right associativity) : handler_scope.
Local Open Scope handler_scope.

Definition with_cache (c : list (string * Solicitud)) (w : World) : World :=
  {| solicitudesTyC := c; tyc_solicitudes := tyc_solicitudes w;
     outbox := outbox w; console := console w;
     pool_faults := pool_faults w; axios_faults := axios_faults w |}.

Definition with_table (t : Sql.table) (w : World) : World :=
  {| solicitudesTyC := solicitudesTyC w; tyc_solicitudes := t;
     outbox := outbox w; console := console w;
     pool_faults := pool_faults w; axios_faults := axios_faults w |}.

Definition with_outbox (o : list HttpPost) (w : World) : World :=
  {| solicitudesTyC := solicitudesTyC w;
     tyc_solicitudes := tyc_solicitudes w;
     outbox := o; console := console w;
     pool_faults := pool_faults w; axios_faults := axios_faults w |}.

Definition with_console (c : list LogLine) (w : World) : World :=
  {| solicitudesTyC := solicitudesTyC w;
     tyc_solicitudes := tyc_solicitudes w;
     outbox := outbox w; console := c;
     pool_faults := pool_faults w; axios_faults := axios_faults w |}.

Definition with_faults (f : list bool) (w : World) : World :=
  {| solicitudesTyC := solicitudesTyC w;
     tyc_solicitudes := tyc_solicitudes w;
     outbox := outbox w; console := console w;
     pool_faults := f; axios_faults := axios_faults w |}.

Definition with_axios_faults (f : list bool) (w : World) : World :=
  {| solicitudesTyC := solicitudesTyC w;
     tyc_solicitudes := tyc_solicitudes w;
     outbox := outbox w; console := console w;
     pool_faults := pool_faults w; axios_faults := f |}.

(** [solicitudesTyC.set(k, s)] *)
Definition cache_set (k : string) (s : Solicitud) : M unit := fun w =>
  (tt, with_cache (Map_set k s (solicitudesTyC w)) w).

(** [solicitudesTyC.get(k)] *)
Definition cache_get (k : string) : M (option Solicitud) := fun w =>
  (Map_get k (solicitudesTyC w), w).

(** [Array.from(solicitudesTyC.keys())] *)
Definition cache_keys : M (list string) := fun w =>
  (Map_keys (solicitudesTyC w), w).

(** Whether the next [axios.post] rejects. *)
Definition next_post_fails (w : World) : bool :=
  match axios_faults w with
  | fault :: _ => fault
  | [] => false
  end.

(** [await axios.post(url, data, config)] inside a [try]: the post is
    issued; the result is [true] when its promise resolves, [false] when
    it rejects and control passes to the [catch]. *)
Definition axios_post (p : HttpPost) : M bool := fun w =>
  (negb (next_post_fails w),
   with_axios_faults (tl (axios_faults w)) (with_outbox (outbox w ++ [p]) w)).

Definition log (l : LogLine) : M unit := fun w =>
  (tt, with_console (console w ++ [l]) w).

(** Whether the next [pool.query] throws. *)
Definition next_query_fails (w : World) : bool :=
  match pool_faults w with
  | fault :: _ => fault
  | [] => false
  end.

(** [await pool.query(q)]: [None] when the query throws, in which case the
    table is left as it was. *)
Definition pool_query {A : Type} (q : Sql.table -> A * Sql.table)
    : M (option A) := fun w =>
  let w' := with_faults (tl (pool_faults w)) w in
  if next_query_fails w then (None, w')
  else let (a, t') := q (tyc_solicitudes w) in (Some a, with_table t' w').

(** [try { await pool.query(q) } catch (err) { console.error(line, err) }]:
    a write whose failure is only logged. *)
Definition try_query (q : Sql.table -> Sql.table) (line : string) : M unit :=
  updated <- pool_query (fun t => (tt, q t)) ;;
  match updated with
  | None => log (LogError line)
  | Some _ => ret tt
  end.

(* ------------------------------------------------------------------ *)
(** ** Code shared by both copies of the routes module *)

Section Shared.

Context {platform : Platform}.
Variable env : Env.

(** The object literal [payload] of [sendWebhook]. *)
Definition payload (solicitud : Solicitud) (evento : string) : json :=
  JObj [ ("evento", JStr evento);
         ("preclienteId", JStr (preclienteId solicitud));
         ("tycSolicitudId", JStr (tycSolicitudId solicitud));
         ("estado", JStr (STATES (estado solicitud)));
         ("createdAt", JDate (createdAt solicitud));
         ("expiresAt", JDate (expiresAt solicitud));
         ("openedAt", json_of_opt_instant (openedAt solicitud));
         ("acceptedAt", json_of_opt_instant (acceptedAt solicitud)) ].

(** [process.env.WEBHOOK_SECRET || 'default_secret'] *)
Definition webhook_secret : string :=
  or_default (WEBHOOK_SECRET env) "default_secret".

(** The post [sendWebhook] hands to axios for a record with a webhook URL. *)
Definition webhook_post (webhook : string) (solicitud : Solicitud)
    (evento : string) : HttpPost :=
  let secret := webhook_secret in
  let bodyStr := JSON_stringify (payload solicitud evento) in
  let signature := createHmac_sha256_hex secret bodyStr in
  {| url := webhook;
     data := payload solicitud evento;
     content_type := "application/json";
     x_ama_signature := signature;
     x_ama_event := evento;
     timeout := 5000 |}.

(** The template literal logged once the post has resolved. *)
Definition webhook_enviado (solicitud : Solicitud) (evento : string)
    : string :=
  String.append "🔔 Webhook enviado a n8n ("
    (String.append evento
       (String.append ") para preclienteId=" (preclienteId solicitud))).

(** [sendWebhook(solicitud, evento)].  The second argument of
    [console.error], [err.message], is not recorded. *)
Definition sendWebhook (solicitud : Solicitud) (evento : string) : M unit :=
  match js_or (webhookUrl solicitud) None with
  | None =>
      log (LogWarn
        "⚠️ No hay webhookUrl configurado en la solicitud, no se envía nada.")
  | Some webhook =>
      resolved <- axios_post (webhook_post webhook solicitud evento) ;;
      if resolved then log (LogInfo (webhook_enviado solicitud evento))
      else log (LogError "❌ Error enviando webhook TyC:")
  end.

(** The posts a call of [sendWebhook] hands to axios: one, or none when
    the record has no webhook URL. *)
Definition dispatch (s : Solicitud) (evento : string) : list HttpPost :=
  match js_or (webhookUrl s) None with
  | Some webhook => [webhook_post webhook s evento]
  | None => []
  end.

(** The body of [POST /api/tyc/solicitudes], after [express.json()]. *)
Record CreateBody : Type := {
  b_preclienteId : option string;
  b_canal : option string;
  (** [Some n] when the field is a JSON number whose value is the integer
      [n]; a body whose [ttlMinutos] is a number that is not an integer is
      outside this type *)
  b_ttlMinutos : option Z;
  b_webhookUrl : option string;
  (** [JNull] when the field is absent *)
  b_metadata : json
}.

Definition empty_body : CreateBody :=
  {| b_preclienteId := None; b_canal := None; b_ttlMinutos := None;
     b_webhookUrl := None; b_metadata := JNull |}.

(** [typeof ttlMinutos === 'number' && ttlMinutos > 0 ? ttlMinutos : 60] *)
Definition ttl_of (body : CreateBody) : Z :=
  match b_ttlMinutos body with
  | Some n => if 0 <? n then n else 60
  | None => 60
  end.

Definition error_json (status : Z) (msg : string) : Response :=
  Json status (JObj [("ok", JBool false); ("error", JStr msg)]).

(** The object literal [solicitud] of the creation handler. *)
Definition nueva_solicitud (body : CreateBody) (precliente webhook : string)
    (ahora date_now : Instant) (token : string) : Solicitud :=
  {| tycSolicitudId := String.append "TYC-" (decimal date_now);
     preclienteId := precliente;
     canal := or_default (b_canal body) "WHATSAPP";
     token := token;
     estado := CREADA;
     createdAt := ahora;
     expiresAt := ahora + ttl_of body * 60 * 1000;
     webhookUrl := Some webhook;
     metadata := or_empty_object (b_metadata body);
     openedAt := None;
     acceptedAt := None;
     acceptedIp := None;
     acceptedUserAgent := None |}.

(** The ten values of the [INSERT]; the columns it does not name are
    [NULL]. *)
Definition insert_values (solicitud : Solicitud) (tokenHash : string)
    : Sql.row :=
  {| Sql.tyc_solicitud_id := tycSolicitudId solicitud;
     Sql.precliente_id := preclienteId solicitud;
     Sql.token := token solicitud;
     Sql.token_hash := tokenHash;
     Sql.canal := canal solicitud;
     Sql.webhook_url := webhookUrl solicitud;
     Sql.metadata := metadata solicitud;
     Sql.estado := estado solicitud;
     Sql.created_at := createdAt solicitud;
     Sql.expires_at := expiresAt solicitud;
     Sql.opened_at := None;
     Sql.accepted_at := None;
     Sql.accepted_ip := None |}.

(** The link sent back to the caller. *)
Definition link_of (token : string) : string :=
  let baseUrl :=
    or_default (TYC_BASE_URL env)
      (String.append "http://localhost:" (or_default (PORT env) "3002")) in
  String.append baseUrl (String.append "/tyc/" token).

Definition created_json (solicitud : Solicitud) : Response :=
  Json 200
    (JObj [ ("ok", JBool true);
            ("tycSolicitudId", JStr (tycSolicitudId solicitud));
            ("preclienteId", JStr (preclienteId solicitud));
            ("url", JStr (link_of (token solicitud)));
            ("token", JStr (token solicitud));
            ("expiresAt", JDate (expiresAt solicitud)) ]).

(** [POST /api/tyc/solicitudes].  [ahora] is [new Date()], [date_now] the
    later [Date.now()], [random_hex] is
    [crypto.randomBytes(16).toString('hex')]. *)
Definition post_solicitudes (req_body : option CreateBody)
    (ahora date_now : Instant) (random_hex : string) : M Response :=
  let body := match req_body with Some b => b | None => empty_body end in
  match js_or (b_preclienteId body) None with
  | None => ret (error_json 400 "preclienteId es obligatorio")
  | Some precliente =>
  match js_or (b_webhookUrl body) None with
  | None =>
      ret (error_json 400
             "webhookUrl es obligatorio (a dónde avisaremos a n8n)")
  | Some webhook =>
      let ttl := ttl_of body in
      let expires := ahora + ttl * 60 * 1000 in
      let token := random_hex in
      let tokenHash := createHash_sha256_hex token in
      if negb (valid_date expires) then
        (* [expiresAt.toISOString()] throws; the outer [catch] answers *)
        log (LogError "[TyC] Error inesperado en /api/tyc/solicitudes:") ;;
        ret (error_json 500 "Error inesperado creando la solicitud de TyC")
      else
        let solicitud :=
          nueva_solicitud body precliente webhook ahora date_now token in
        inserted <- pool_query (fun t =>
          (tt, Sql.insert (insert_values solicitud tokenHash) t)) ;;
        match inserted with
        | None =>
            log (LogError "[TyC] Error guardando solicitud en BD:") ;;
            ret (error_json 500
                   "Error guardando la solicitud de TyC en la base de datos")
        | Some _ =>
            cache_set token solicitud ;;
            ret (created_json solicitud)
        end
  end
  end.

(** The guard of the sweep: [CREADA] or [ABIERTA], and [expira < ahora]. *)
Definition sweepable (ahora : Instant) (s : Solicitud) : bool :=
  (Estado_eqb (estado s) CREADA || Estado_eqb (estado s) ABIERTA)
  && vencida ahora s.

(** The [for (const token of tokens)] loop of the sweep. *)
Fixpoint sweep_loop (ahora : Instant) (tokens : list string)
    (contador : Z) : M Z :=
  match tokens with
  | [] => ret contador
  | token :: rest =>
      found <- cache_get token ;;
      match found with
      | None => sweep_loop ahora rest contador
      | Some solicitud =>
          if sweepable ahora solicitud then
            let solicitud' := set_estado EXPIRADA solicitud in
            cache_set token solicitud' ;;
            sendWebhook solicitud' "TYC_EXPIRADA" ;;
            sweep_loop ahora rest (contador + 1)
          else sweep_loop ahora rest contador
      end
  end.

(** The handler of [POST /api/tyc/cron/check-expired]. *)
Definition check_expired (ahora : Instant) : M Response :=
  tokens <- cache_keys ;;
  contador <- sweep_loop ahora tokens 0 ;;
  ret (Json 200 (JObj [("ok", JBool true); ("expiradas", JNum contador)])).

(** [requireInternalSecret]: [None] stands for [next()]. *)
Definition requireInternalSecret (x_internal_secret : option string)
    : M (option Response) :=
  match js_or (INTERNAL_API_SECRET env) None with
  | None =>
      log (LogError
        "❌ INTERNAL_API_SECRET no está configurada en las variables de entorno.") ;;
      ret (Some (error_json 500
             "INTERNAL_API_SECRET no está configurada en el servidor"))
  | Some configuredSecret =>
      match js_or x_internal_secret None with
      | Some incoming =>
          if String.eqb incoming configuredSecret then ret None
          else
            log (LogWarn
              "⚠️ Intento de acceso no autorizado a endpoint interno.") ;;
            ret (Some (error_json 401 "No autorizado"))
      | None =>
          log (LogWarn
            "⚠️ Intento de acceso no autorizado a endpoint interno.") ;;
          ret (Some (error_json 401 "No autorizado"))
      end
  end.

(** [router.post('/api/tyc/cron/check-expired', requireInternalSecret, ...)] *)
Definition post_check_expired (x_internal_secret : option string)
    (ahora : Instant) : M Response :=
  gate <- requireInternalSecret x_internal_secret ;;
  match gate with
  | Some refusal => ret refusal
  | None => check_expired ahora
  end.

End Shared.

(** What the accept handlers read from [req]. *)
Record AcceptRequest : Type := {
  x_forwarded_for : option string;
  user_agent : option string;
  req_ip : option string;
  remoteAddress : option string
}.

Definition enlace_invalido : Page :=
  Markup "<h1>Enlace inválido</h1><p>Esta URL no existe o ya no es válida.</p>".

Definition enlace_expirado : Page :=
  Markup "<h1>Enlace expirado</h1><p>Esta URL ya no está disponible. Solicita una nueva.</p>".

Definition url_expirada : Response :=
  error_json 410 "La URL ya expiró. Solicita una nueva.".

(* ------------------------------------------------------------------ *)
(** ** [src/tycRoutes.js]: the read and accept handlers *)

Module TycRoutes.
Section Handlers.

Context {platform : Platform}.
Variable env : Env.

(** [GET /tyc/:token].  [ahora] is [new Date()], [now_iso] the later
    [nowIso()]. *)
Definition get_tyc (token : string) (ahora now_iso : Instant) : M Response :=
  found <- cache_get token ;;
  match found with
  | None => ret (Html 404 enlace_invalido)
  | Some solicitud =>
      if vencida ahora solicitud
         && negb (Estado_eqb (estado solicitud) ACEPTADA) then
        let solicitud' := set_estado EXPIRADA solicitud in
        cache_set token solicitud' ;;
        sendWebhook env solicitud' "TYC_EXPIRADA" ;;
        ret (Html 410 enlace_expirado)
      else
        solicitud' <-
          (if Estado_eqb (estado solicitud) CREADA then
             let abierta := set_openedAt now_iso (set_estado ABIERTA solicitud) in
             cache_set token abierta ;; ret abierta
           else ret solicitud) ;;
        ret (Html 200
               (ConsentPage (preclienteId solicitud') (expiresAt solicitud')
                  token None))
  end.

(** [POST /api/tyc/:token/aceptar] *)
Definition post_aceptar (token : string) (req : AcceptRequest)
    (ahora now_iso : Instant) : M Response :=
  found <- cache_get token ;;
  match found with
  | None => ret (error_json 404 "Solicitud no encontrada")
  | Some solicitud =>
      if vencida ahora solicitud
         && negb (Estado_eqb (estado solicitud) ACEPTADA) then
        let solicitud' := set_estado EXPIRADA solicitud in
        cache_set token solicitud' ;;
        sendWebhook env solicitud' "TYC_EXPIRADA" ;;
        ret url_expirada
      else if Estado_eqb (estado solicitud) ACEPTADA then
        ret (Json 200
               (JObj [ ("ok", JBool true);
                       ("mensaje",
                        JStr "Esta solicitud ya había sido aceptada previamente.");
                       ("preclienteId", JStr (preclienteId solicitud));
                       ("tycSolicitudId", JStr (tycSolicitudId solicitud)) ]))
      else
        let aceptada :=
          set_accepted now_iso
            (js_or (x_forwarded_for req) (js_or (remoteAddress req) None))
            (js_or (user_agent req) None)
            (set_estado ACEPTADA solicitud) in
        cache_set token aceptada ;;
        log (LogInfo "✅ Solicitud TyC aceptada:") ;;
        sendWebhook env aceptada "TYC_ACEPTADA" ;;
        ret (Json 200
               (JObj [ ("ok", JBool true);
                       ("mensaje", JStr "Aceptación registrada");
                       ("preclienteId", JStr (preclienteId aceptada));
                       ("tycSolicitudId", JStr (tycSolicitudId aceptada)) ]))
  end.

End Handlers.
End TycRoutes.

(* ------------------------------------------------------------------ *)
(** ** [src/internalAuth.js]: the read and accept handlers *)

Module InternalAuth.

(** [s.split(',')[0]] *)
Fixpoint before_comma (s : string) : string :=
  match s with
  | EmptyString => EmptyString
  | String c rest =>
      if Ascii.eqb c "," then EmptyString else String c (before_comma rest)
  end.

(** [getClientIp(req)]; the header is a single string. *)
Definition getClientIp {platform : Platform} (req : AcceptRequest)
    : option string :=
  let ip :=
    match js_or (x_forwarded_for req) None with
    | Some xf => Some (String_trim (before_comma xf))
    | None => None
    end in
  let ip := js_or ip (js_or (req_ip req) (js_or (remoteAddress req) None)) in
  match ip with
  | Some a =>
      if String.prefix "::ffff:" a
      then Some (String.substring 7 (String.length a - 7) a)
      else Some a
  | None => None
  end.

(** The object both handlers rebuild from a table row on a cache miss. *)
Definition rehydrate (row : Sql.row) : Solicitud :=
  {| tycSolicitudId := Sql.tyc_solicitud_id row;
     preclienteId := Sql.precliente_id row;
     canal := Sql.canal row;
     token := Sql.token row;
     estado := Sql.estado row;
     createdAt := Sql.created_at row;
     expiresAt := Sql.expires_at row;
     webhookUrl := Sql.webhook_url row;
     metadata := or_empty_object (Sql.metadata row);
     openedAt := Sql.opened_at row;
     acceptedAt := Sql.accepted_at row;
     acceptedIp := js_or (Sql.accepted_ip row) None;
     acceptedUserAgent := None |}.

Definition error_interno_page : Page :=
  Markup "<h1>Error</h1><p>Error interno.</p>".

Section Handlers.

Context {platform : Platform}.
Variable env : Env.

(** The expiry branch both handlers share in shape: only a record that was
    not yet [EXPIRADA] is changed, written back and announced. *)
Definition expirar (token : string) (solicitud : Solicitud)
    (log_line : string) : M unit :=
  let yaEstabaExpirada := Estado_eqb (estado solicitud) EXPIRADA in
  if negb yaEstabaExpirada then
    let solicitud' := set_estado EXPIRADA solicitud in
    cache_set token solicitud' ;;
    try_query (Sql.update_estado token EXPIRADA) log_line ;;
    sendWebhook env solicitud' "TYC_EXPIRADA"
  else ret tt.

(** [GET /tyc/:token].  [ahora] is [new Date()], [now_iso] the later
    [nowIso()], [db_now] the table's [NOW()]. *)
Definition get_tyc (token : string) (ahora now_iso db_now : Instant)
    : M Response :=
  let continue (solicitud : Solicitud) : M Response :=
    if vencida ahora solicitud
       && negb (Estado_eqb (estado solicitud) ACEPTADA) then
      expirar token solicitud
        "[TyC] Error actualizando estado EXPIRADA en BD:" ;;
      ret (Html 410 enlace_expirado)
    else
      solicitud' <-
        (if Estado_eqb (estado solicitud) CREADA then
           let abierta := set_openedAt now_iso (set_estado ABIERTA solicitud) in
           cache_set token abierta ;; ret abierta
         else ret solicitud) ;;
      try_query (Sql.update_opened token db_now)
        "[TyC] Error actualizando opened_at/estado en BD:" ;;
      ret (Html 200
             (ConsentPage (preclienteId solicitud') (expiresAt solicitud')
                token (Some (Estado_eqb (estado solicitud') ACEPTADA))))
  in
  found <- cache_get token ;;
  match found with
  | Some solicitud => continue solicitud
  | None =>
      r <- pool_query (fun t => (Sql.select_by_token token t, t)) ;;
      match r with
      | None =>
          log (LogError "[TyC] Error consultando BD en GET /tyc/:token:") ;;
          ret (Html 500 error_interno_page)
      | Some None => ret (Html 404 enlace_invalido)
      | Some (Some row) =>
          let solicitud := rehydrate row in
          cache_set token solicitud ;;
          continue solicitud
      end
  end.

(** [POST /api/tyc/:token/aceptar] *)
Definition post_aceptar (token : string) (req : AcceptRequest)
    (ahora now_iso db_now : Instant) : M Response :=
  let error_interno : M Response :=
    log (LogError "[TyC] Error en POST /api/tyc/:token/aceptar:") ;;
    ret (error_json 500 "Error interno") in
  let continue (solicitud : Solicitud) : M Response :=
    if vencida ahora solicitud
       && negb (Estado_eqb (estado solicitud) ACEPTADA) then
      expirar token solicitud
        "[TyC] Error actualizando EXPIRADA en BD (POST /aceptar):" ;;
      ret url_expirada
    else if Estado_eqb (estado solicitud) ACEPTADA
            || match acceptedAt solicitud with Some _ => true | None => false end
    then
      ret (Json 200
             (JObj [ ("ok", JBool true);
                     ("mensaje",
                      JStr "Esta solicitud ya había sido aceptada previamente.");
                     ("preclienteId", JStr (preclienteId solicitud));
                     ("tycSolicitudId", JStr (tycSolicitudId solicitud));
                     ("acceptedAt",
                      json_of_opt_instant (acceptedAt solicitud)) ]))
    else
      let ip := getClientIp req in
      let ua := js_or (user_agent req) None in
      upd <- pool_query (Sql.update_accepted token ip db_now) ;;
      match upd with
      | None => error_interno
      | Some rows =>
          let acceptedAtIso :=
            match rows with
            | accepted_at :: _ => accepted_at
            | [] => now_iso
            end in
          let aceptada :=
            set_accepted acceptedAtIso ip ua (set_estado ACEPTADA solicitud) in
          cache_set token aceptada ;;
          log (LogInfo "✅ Solicitud TyC aceptada:") ;;
          sendWebhook env aceptada "TYC_ACEPTADA" ;;
          ret (Json 200
                 (JObj [ ("ok", JBool true);
                         ("mensaje", JStr "Aceptación registrada");
                         ("preclienteId", JStr (preclienteId aceptada));
                         ("tycSolicitudId", JStr (tycSolicitudId aceptada));
                         ("acceptedAt",
                          json_of_opt_instant (acceptedAt aceptada));
                         ("acceptedIp",
                          json_of_opt_string (acceptedIp aceptada)) ]))
      end
  in
  found <- cache_get token ;;
  match found with
  | Some solicitud => continue solicitud
  | None =>
      r <- pool_query (fun t => (Sql.select_by_token token t, t)) ;;
      match r with
      | None => error_interno
      | Some None => ret (error_json 404 "Solicitud no encontrada")
      | Some (Some row) =>
          let solicitud := rehydrate row in
          cache_set token solicitud ;;
          continue solicitud
      end
  end.

End Handlers.
End InternalAuth.

(* ------------------------------------------------------------------ *)
(** ** Vocabulary of the statements *)

(** What one pass of the sweep does to an entry of the [Map]. *)
Definition sweep_entry (ahora : Instant) (e : string * Solicitud)
    : string * Solicitud :=
  (fst e, if sweepable ahora (snd e) then set_estado EXPIRADA (snd e)
          else snd e).

Definition sweep_count (ahora : Instant) (m : list (string * Solicitud)) : Z :=
  Z.of_nat (List.length (filter (fun e => sweepable ahora (snd e)) m)).

(** The posts of a sweep over [m], in the order of the [Map]. *)
Definition sweep_posts {platform : Platform} (env : Env) (ahora : Instant)
    (m : list (string * Solicitud)) : list HttpPost :=
  flat_map (fun e =>
    if sweepable ahora (snd e)
    then dispatch env (set_estado EXPIRADA (snd e)) "TYC_EXPIRADA"
    else []) m.

(** A [Map] holds each key once. *)
Definition Map_wf {V : Type} (m : list (string * V)) : Prop :=
  NoDup (Map_keys m).

(** Every row of the table with this token has this state. *)
Definition stored_estado (tok : string) (e : Estado) (t : Sql.table) : Prop :=
  forall r, In r t -> Sql.token r = tok -> Sql.estado r = e.

(** The world a cache miss leaves behind once the row has been read and
    turned into a record. *)
Definition rehydrated (tok : string) (row : Sql.row) (w : World) : World :=
  with_cache (Map_set tok (InternalAuth.rehydrate row) (solicitudesTyC w))
    (with_faults (tl (pool_faults w)) w).

(** An attempt to use a link: the read or the accept operation. *)
Inductive Attempt : Type :=
| Read
| Accept (req : AcceptRequest).

Definition T_attempt {platform : Platform} (env : Env) (a : Attempt)
    (token : string) (ahora now_iso : Instant) : M Response :=
  match a with
  | Read => TycRoutes.get_tyc env token ahora now_iso
  | Accept req => TycRoutes.post_aceptar env token req ahora now_iso
  end.

Definition I_attempt {platform : Platform} (env : Env) (a : Attempt)
    (token : string) (ahora now_iso db_now : Instant) : M Response :=
  match a with
  | Read => InternalAuth.get_tyc env token ahora now_iso db_now
  | Accept req => InternalAuth.post_aceptar env token req ahora now_iso db_now
  end.

(** The answer to an attempt on an expired link. *)
Definition expired_answer (a : Attempt) : Response :=
  match a with
  | Read => Html 410 enlace_expirado
  | Accept _ => url_expirada
  end.

(** The answer to an attempt on an unknown token. *)
Definition not_found_answer (a : Attempt) : Response :=
  match a with
  | Read => Html 404 enlace_invalido
  | Accept _ => error_json 404 "Solicitud no encontrada"
  end.

(** The line logged when the write of [EXPIRADA] fails. *)
Definition expiry_log_line (a : Attempt) : string :=
  match a with
  | Read => "[TyC] Error actualizando estado EXPIRADA en BD:"
  | Accept _ => "[TyC] Error actualizando EXPIRADA en BD (POST /aceptar):"
  end.

(** What the queries of the handlers may do to a row: the identifiers, the
    token and its hash, the channel, the webhook URL, the metadata and the
    two dates of creation stay, and an [opened_at] or [accepted_at] that is
    set stays as it is.  [estado] and [accepted_ip] are not constrained. *)
Definition row_advances (r r' : Sql.row) : Prop :=
  Sql.tyc_solicitud_id r' = Sql.tyc_solicitud_id r
  /\ Sql.precliente_id r' = Sql.precliente_id r
  /\ Sql.token r' = Sql.token r
  /\ Sql.token_hash r' = Sql.token_hash r
  /\ Sql.canal r' = Sql.canal r
  /\ Sql.webhook_url r' = Sql.webhook_url r
  /\ Sql.metadata r' = Sql.metadata r
  /\ Sql.created_at r' = Sql.created_at r
  /\ Sql.expires_at r' = Sql.expires_at r
  /\ (forall t, Sql.opened_at r = Some t -> Sql.opened_at r' = Some t)
  /\ (forall t, Sql.accepted_at r = Some t -> Sql.accepted_at r' = Some t).

(** The fields of a record no handler assigns. *)
Definition same_request (s s' : Solicitud) : Prop :=
  tycSolicitudId s' = tycSolicitudId s
  /\ preclienteId s' = preclienteId s
  /\ canal s' = canal s
  /\ token s' = token s
  /\ createdAt s' = createdAt s
  /\ expiresAt s' = expiresAt s
  /\ webhookUrl s' = webhookUrl s
  /\ metadata s' = metadata s.

(** What an operation on [tok] may do to a row of the table: nothing to
    the row of another token, and to a row of [tok] only what
    [row_advances] allows. *)
Definition row_step (tok : string) (r r' : Sql.row) : Prop :=
  row_advances r r' /\ (Sql.token r <> tok -> r' = r).

Definition body_of (r : Response) : json :=
  match r with
  | Json _ b => b
  | Html _ _ => JNull
  end.

(** The count in the answer of the sweep. *)
Definition expiradas_of (r : Response) : Z :=
  match field "expiradas" (body_of r) with
  | Some (JNum n) => n
  | _ => 0
  end.

(** An expiry notice: the event is ["TYC_EXPIRADA"], in the header and in
    the payload, and the payload says [EXPIRADA]. *)
Definition expiry_notice (p : HttpPost) : Prop :=
  x_ama_event p = "TYC_EXPIRADA"
  /\ field "evento" (data p) = Some (JStr "TYC_EXPIRADA")
  /\ field "estado" (data p) = Some (JStr "EXPIRADA").

(** How far a request has come: created, opened, done. *)
Definition estado_rank (e : Estado) : Z :=
  match e with
  | CREADA => 0
  | ABIERTA => 1
  | ACEPTADA | EXPIRADA => 2
  end.

(* ------------------------------------------------------------------ *)
(** ** A platform and worlds to run the handlers on *)

Module Examples.

Definition dquote : string := String (ascii_of_nat 34) EmptyString.

Definition quoted (s : string) : string :=
  String.append dquote (String.append s dquote).

(** A plain serializer (no escaping), enough to run the handlers. *)
Fixpoint show_json (j : json) : string :=
  match j with
  | JNull => "null"
  | JBool true => "true"
  | JBool false => "false"
  | JNum n => decimal n
  | JStr s => quoted s
  | JDate t => quoted (decimal t)
  | JObj fs =>
      let fix members (l : list (string * json)) : string :=
        match l with
        | [] => ""
        | (k, v) :: rest =>
            String.append (quoted k)
              (String.append ":"
                 (String.append (show_json v)
                    (match rest with
                     | [] => ""
                     | _ => String.append "," (members rest)
                     end)))
        end in
      String.append "{" (String.append (members fs) "}")
  end.

(** The white space of ASCII: the space, and U+0009 to U+000D. *)
Definition is_space (c : ascii) : bool :=
  let n := nat_of_ascii c in
  (Nat.eqb n 32 || (Nat.leb 9 n && Nat.leb n 13))%bool.

Fixpoint trim_start (s : string) : string :=
  match s with
  | EmptyString => EmptyString
  | String c rest => if is_space c then trim_start rest else s
  end.

Fixpoint trim_end (s : string) : string :=
  match s with
  | EmptyString => EmptyString
  | String c rest =>
      match trim_end rest with
      | EmptyString => if is_space c then EmptyString else String c EmptyString
      | kept => String c kept
      end
  end.

(** [trim] on strings whose white space is ASCII, enough for the headers
    below. *)
Definition trim (s : string) : string := trim_end (trim_start s).

(** Digests are tagged strings here, not real SHA-256 output, and [trim]
    knows the white space of ASCII only. *)
Definition tagged_platform : Platform :=
  {| createHash_sha256_hex := fun s => String.append "sha256:" s;
     createHmac_sha256_hex := fun key msg =>
       String.append "hmac-sha256:"
         (String.append key (String.append ":" msg));
     JSON_stringify := show_json;
     String_trim := trim |}.

Definition env0 : Env :=
  {| WEBHOOK_SECRET := None; TYC_BASE_URL := None; PORT := None;
     INTERNAL_API_SECRET := Some "s3cr3t" |}.

Definition env1 : Env :=
  {| WEBHOOK_SECRET := Some "k1"; TYC_BASE_URL := Some "https://tyc.example";
     PORT := None; INTERNAL_API_SECRET := Some "s3cr3t" |}.

(** A request created at time 1000 that expires at time 61000. *)
Definition creada : Solicitud :=
  {| tycSolicitudId := "TYC-1000"; preclienteId := "P-1";
     canal := "WHATSAPP"; token := "t1"; estado := CREADA;
     createdAt := 1000; expiresAt := 61000;
     webhookUrl := Some "https://n8n.example/hook";
     metadata := JObj [("plan", JStr "basic")];
     openedAt := None; acceptedAt := None; acceptedIp := None;
     acceptedUserAgent := None |}.

Definition abierta : Solicitud :=
  set_openedAt 2000 (set_estado ABIERTA creada).

Definition aceptada : Solicitud :=
  set_accepted 3000 (Some "10.0.0.7") (Some "curl/8")
    (set_estado ACEPTADA abierta).

Definition sin_webhook : Solicitud :=
  {| tycSolicitudId := "TYC-1000"; preclienteId := "P-1";
     canal := "WHATSAPP"; token := "t1"; estado := CREADA;
     createdAt := 1000; expiresAt := 61000;
     webhookUrl := None;
     metadata := JObj [];
     openedAt := None; acceptedAt := None; acceptedIp := None;
     acceptedUserAgent := None |}.

(** The row the creation handler inserts for [creada]. *)
Definition fila_creada : Sql.row :=
  {| Sql.tyc_solicitud_id := "TYC-1000"; Sql.precliente_id := "P-1";
     Sql.token := "t1"; Sql.token_hash := "sha256:t1";
     Sql.canal := "WHATSAPP";
     Sql.webhook_url := Some "https://n8n.example/hook";
     Sql.metadata := JObj [("plan", JStr "basic")];
     Sql.estado := CREADA; Sql.created_at := 1000; Sql.expires_at := 61000;
     Sql.opened_at := None; Sql.accepted_at := None;
     Sql.accepted_ip := None |}.

Definition fila_aceptada : Sql.row :=
  Sql.accepted 3000 (Some "10.0.0.7") (Sql.opened 2000 fila_creada).

Definition empty_world : World :=
  {| solicitudesTyC := []; tyc_solicitudes := []; outbox := [];
     console := []; pool_faults := []; axios_faults := [] |}.

(** The world right after [creada] was created. *)
Definition w_creada : World :=
  {| solicitudesTyC := [("t1", creada)]; tyc_solicitudes := [fila_creada];
     outbox := []; console := []; pool_faults := []; axios_faults := [] |}.

(** The same request after a restart: the row is there, the [Map] is
    empty. *)
Definition w_restarted : World :=
  {| solicitudesTyC := []; tyc_solicitudes := [fila_creada];
     outbox := []; console := []; pool_faults := []; axios_faults := [] |}.

(** The request accepted, in the [Map] and in the table. *)
Definition w_aceptada : World :=
  {| solicitudesTyC := [("t1", aceptada)];
     tyc_solicitudes := [fila_aceptada];
     outbox := []; console := []; pool_faults := []; axios_faults := [] |}.

Definition browser : AcceptRequest :=
  {| x_forwarded_for := Some "203.0.113.9, 10.0.0.1";
     user_agent := Some "Mozilla/5.0";
     req_ip := Some "::ffff:10.0.0.1";
     remoteAddress := Some "::ffff:10.0.0.1" |}.

Definition body0 : CreateBody :=
  {| b_preclienteId := Some "P-1"; b_canal := None; b_ttlMinutos := Some 1;
     b_webhookUrl := Some "https://n8n.example/hook";
     b_metadata := JObj [("plan", JStr "basic")] |}.

End Examples.

(* ------------------------------------------------------------------ *)
(** ** The [Map] *)

Section MapFacts.

Context {V : Type}.
Implicit Types (m : list (string * V)) (k : string) (v : V).

Lemma Map_get_set_same m k v : Map_get k (Map_set k v m) = Some v.
Proof.
  unfold Map_get.
  induction m as [|[k' v'] m IH]; simpl.
  - now rewrite String.eqb_refl.
  - destruct (String.eqb k' k) eqn:E; simpl.
    + now rewrite String.eqb_refl.
    + now rewrite E.
Qed.

Lemma Map_get_set_other m k k' v :
  k' <> k -> Map_get k' (Map_set k v m) = Map_get k' m.
Proof.
  intros Hk. unfold Map_get.
  induction m as [|[k0 v0] m IH]; simpl.
  - destruct (String.eqb k k') eqn:E; [|reflexivity].
    apply String.eqb_eq in E. congruence.
  - destruct (String.eqb k0 k) eqn:E; simpl.
    + apply String.eqb_eq in E. subst k0.
      destruct (String.eqb k k') eqn:E'; [|reflexivity].
      apply String.eqb_eq in E'. congruence.
    + now rewrite IH.
Qed.

(** Setting the value a key already has leaves the [Map] as it is. *)
Lemma Map_set_same_value m k v : Map_get k m = Some v -> Map_set k v m = m.
Proof.
  unfold Map_get.
  induction m as [|[k' v'] m IH]; simpl; [discriminate|].
  destruct (String.eqb k' k) eqn:E.
  - apply String.eqb_eq in E. intros [= ->]. now subst.
  - intros H. now rewrite IH.
Qed.

Lemma Map_keys_set m k v v0 :
  Map_get k m = Some v0 -> Map_keys (Map_set k v m) = Map_keys m.
Proof.
  unfold Map_get, Map_keys.
  induction m as [|[k' v'] m IH]; simpl; [discriminate|].
  destruct (String.eqb k' k) eqn:E; simpl.
  - apply String.eqb_eq in E. now subst.
  - intros H. now rewrite (IH H).
Qed.

Lemma Map_keys_set_In m k v k' :
  In k' (Map_keys (Map_set k v m)) -> k' = k \/ In k' (Map_keys m).
Proof.
  unfold Map_keys.
  induction m as [|[k0 v0] m IH]; simpl.
  - intros [H|[]]. now left.
  - destruct (String.eqb k0 k) eqn:E; simpl.
    + apply String.eqb_eq in E. subst k0. tauto.
    + intros [H|H]; [tauto|]. destruct (IH H); tauto.
Qed.

(** [Map.prototype.set] keeps each key once; every [Map] the handlers build
    from the empty one is therefore well formed. *)
Lemma Map_wf_set m k v : Map_wf m -> Map_wf (Map_set k v m).
Proof.
  unfold Map_wf.
  induction m as [|[k0 v0] m IH]; simpl; intros H.
  - repeat constructor. simpl. tauto.
  - apply NoDup_cons_iff in H. destruct H as [Hn H].
    destruct (String.eqb k0 k) eqn:E.
    + apply String.eqb_eq in E. subst k0. now constructor.
    + simpl. constructor; [|now apply IH].
      intros Hin. apply Map_keys_set_In in Hin. destruct Hin as [->|Hin].
      * rewrite String.eqb_refl in E. discriminate.
      * contradiction.
Qed.

End MapFacts.

(* ------------------------------------------------------------------ *)
(** ** [sendWebhook] *)

Section WebhookFacts.

Context {platform : Platform}.
Variable env : Env.

Lemma sendWebhook_outbox s evento w :
  outbox (snd (sendWebhook env s evento w)) = outbox w ++ dispatch env s evento.
Proof.
  unfold sendWebhook, dispatch, bind, axios_post.
  destruct (js_or (webhookUrl s) None); simpl.
  - destruct (next_post_fails w); reflexivity.
  - now rewrite app_nil_r.
Qed.

Lemma sendWebhook_keeps s evento w :
  solicitudesTyC (snd (sendWebhook env s evento w)) = solicitudesTyC w
  /\ tyc_solicitudes (snd (sendWebhook env s evento w)) = tyc_solicitudes w
  /\ pool_faults (snd (sendWebhook env s evento w)) = pool_faults w.
Proof.
  unfold sendWebhook, bind, axios_post.
  destruct (js_or (webhookUrl s) None); simpl; auto.
  destruct (next_post_fails w); simpl; auto.
Qed.

Lemma dispatch_set_metadata s m evento :
  dispatch env (set_metadata m s) evento = dispatch env s evento.
Proof. reflexivity. Qed.

End WebhookFacts.

(* ------------------------------------------------------------------ *)
(** ** Creation *)

Section CreationFacts.

Context {platform : Platform}.
Variable env : Env.

Lemma creation_success (body : CreateBody) (precliente webhook : string)
    (ahora date_now : Instant) (random_hex : string) (w : World) :
  js_or (b_preclienteId body) None = Some precliente ->
  js_or (b_webhookUrl body) None = Some webhook ->
  valid_date (ahora + ttl_of body * 60 * 1000) = true ->
  next_query_fails w = false ->
  let solicitud :=
    nueva_solicitud body precliente webhook ahora date_now random_hex in
  post_solicitudes env (Some body) ahora date_now random_hex w =
    (created_json env solicitud,
     with_cache (Map_set random_hex solicitud (solicitudesTyC w))
       (with_table
          (tyc_solicitudes w ++
           [insert_values solicitud (createHash_sha256_hex random_hex)])
          (with_faults (tl (pool_faults w)) w))).
Proof.
  intros Hp Hw Hv Hq. unfold post_solicitudes.
  rewrite Hp, Hw, Hv. simpl.
  unfold bind, pool_query. rewrite Hq. reflexivity.
Qed.

Lemma creation_store_failure (body : CreateBody) (precliente webhook : string)
    (ahora date_now : Instant) (random_hex : string) (w : World) :
  js_or (b_preclienteId body) None = Some precliente ->
  js_or (b_webhookUrl body) None = Some webhook ->
  valid_date (ahora + ttl_of body * 60 * 1000) = true ->
  next_query_fails w = true ->
  post_solicitudes env (Some body) ahora date_now random_hex w =
    (error_json 500 "Error guardando la solicitud de TyC en la base de datos",
     with_console
       (console w ++ [LogError "[TyC] Error guardando solicitud en BD:"])
       (with_faults (tl (pool_faults w)) w)).
Proof.
  intros Hp Hw Hv Hq. unfold post_solicitudes.
  rewrite Hp, Hw, Hv. simpl.
  unfold bind, pool_query. rewrite Hq. reflexivity.
Qed.

End CreationFacts.

(* ------------------------------------------------------------------ *)
(** ** The monad operations *)

Lemma Estado_eqb_eq (a b : Estado) : Estado_eqb a b = true <-> a = b.
Proof. destruct a, b; simpl; split; congruence. Qed.

Lemma Estado_eqb_neq (a b : Estado) : Estado_eqb a b = false <-> a <> b.
Proof. destruct a, b; simpl; split; congruence. Qed.

Lemma try_query_ok (q : Sql.table -> Sql.table) (line : string) (w : World) :
  next_query_fails w = false ->
  try_query q line w =
    (tt, with_table (q (tyc_solicitudes w))
           (with_faults (tl (pool_faults w)) w)).
Proof.
  intros H. unfold try_query, bind, pool_query. now rewrite H.
Qed.

Lemma try_query_fault (q : Sql.table -> Sql.table) (line : string)
    (w : World) :
  next_query_fails w = true ->
  try_query q line w =
    (tt, with_console (console w ++ [LogError line])
           (with_faults (tl (pool_faults w)) w)).
Proof.
  intros H. unfold try_query, bind, pool_query. now rewrite H.
Qed.

Lemma try_query_keeps (q : Sql.table -> Sql.table) (line : string)
    (w : World) :
  solicitudesTyC (snd (try_query q line w)) = solicitudesTyC w
  /\ outbox (snd (try_query q line w)) = outbox w.
Proof.
  destruct (next_query_fails w) eqn:H.
  - rewrite try_query_fault by assumption. auto.
  - rewrite try_query_ok by assumption. auto.
Qed.

Ltac run_handler :=
  unfold bind, ret, cache_get, cache_set; simpl.

(* ------------------------------------------------------------------ *)
(** ** The handlers of [src/tycRoutes.js] *)

Section TycRoutesFacts.

Context {platform : Platform}.
Variable env : Env.
Implicit Types (token : string) (s : Solicitud) (w : World).

Lemma T_get_unknown token ahora now_iso w :
  Map_get token (solicitudesTyC w) = None ->
  TycRoutes.get_tyc env token ahora now_iso w = (Html 404 enlace_invalido, w).
Proof.
  intros H. unfold TycRoutes.get_tyc. run_handler. now rewrite H.
Qed.

Lemma T_accept_unknown token req ahora now_iso w :
  Map_get token (solicitudesTyC w) = None ->
  TycRoutes.post_aceptar env token req ahora now_iso w =
    (error_json 404 "Solicitud no encontrada", w).
Proof.
  intros H. unfold TycRoutes.post_aceptar. run_handler. now rewrite H.
Qed.

Lemma T_get_expired token s ahora now_iso w :
  Map_get token (solicitudesTyC w) = Some s ->
  vencida ahora s = true ->
  estado s <> ACEPTADA ->
  TycRoutes.get_tyc env token ahora now_iso w =
    (Html 410 enlace_expirado,
     snd (sendWebhook env (set_estado EXPIRADA s) "TYC_EXPIRADA"
            (with_cache
               (Map_set token (set_estado EXPIRADA s) (solicitudesTyC w)) w))).
Proof.
  intros H Hv He. apply Estado_eqb_neq in He.
  unfold TycRoutes.get_tyc. run_handler. rewrite H, Hv, He. simpl.
  now destruct (sendWebhook _ _ _ _) as [[] w'].
Qed.

Lemma T_accept_expired token s req ahora now_iso w :
  Map_get token (solicitudesTyC w) = Some s ->
  vencida ahora s = true ->
  estado s <> ACEPTADA ->
  TycRoutes.post_aceptar env token req ahora now_iso w =
    (url_expirada,
     snd (sendWebhook env (set_estado EXPIRADA s) "TYC_EXPIRADA"
            (with_cache
               (Map_set token (set_estado EXPIRADA s) (solicitudesTyC w)) w))).
Proof.
  intros H Hv He. apply Estado_eqb_neq in He.
  unfold TycRoutes.post_aceptar. run_handler. rewrite H, Hv, He. simpl.
  now destruct (sendWebhook _ _ _ _) as [[] w'].
Qed.

Lemma T_get_accepted token s ahora now_iso w :
  Map_get token (solicitudesTyC w) = Some s ->
  estado s = ACEPTADA ->
  TycRoutes.get_tyc env token ahora now_iso w =
    (Html 200 (ConsentPage (preclienteId s) (expiresAt s) token None), w).
Proof.
  intros H He.
  unfold TycRoutes.get_tyc. run_handler. rewrite H, He. simpl.
  now rewrite andb_false_r.
Qed.

Lemma T_accept_accepted token s req ahora now_iso w :
  Map_get token (solicitudesTyC w) = Some s ->
  estado s = ACEPTADA ->
  TycRoutes.post_aceptar env token req ahora now_iso w =
    (Json 200
       (JObj [ ("ok", JBool true);
               ("mensaje",
                JStr "Esta solicitud ya había sido aceptada previamente.");
               ("preclienteId", JStr (preclienteId s));
               ("tycSolicitudId", JStr (tycSolicitudId s)) ]), w).
Proof.
  intros H He.
  unfold TycRoutes.post_aceptar. run_handler. rewrite H, He. simpl.
  now rewrite andb_false_r.
Qed.


Lemma T_accept_table token req ahora now_iso w :
  tyc_solicitudes (snd (TycRoutes.post_aceptar env token req ahora now_iso w))
  = tyc_solicitudes w.
Proof.
  unfold TycRoutes.post_aceptar. run_handler.
  destruct (Map_get token (solicitudesTyC w)) as [s|]; [|reflexivity].
  destruct (vencida ahora s && negb (Estado_eqb (estado s) ACEPTADA)).
  - destruct (sendWebhook _ _ _ _) as [[] w'] eqn:E. simpl.
    pose proof (sendWebhook_keeps env (set_estado EXPIRADA s) "TYC_EXPIRADA"
      (with_cache (Map_set token (set_estado EXPIRADA s) (solicitudesTyC w)) w))
      as (_ & Ht & _).
    rewrite E in Ht. exact Ht.
  - destruct (Estado_eqb (estado s) ACEPTADA); [reflexivity|].
    unfold log. simpl.
    destruct (sendWebhook _ _ _ _) as [[] w'] eqn:E. simpl.
    match type of E with sendWebhook _ ?a ?b ?c = _ =>
      pose proof (sendWebhook_keeps env a b c) as (_ & Ht & _) end.
    rewrite E in Ht. exact Ht.
Qed.

End TycRoutesFacts.

(* ------------------------------------------------------------------ *)
(** ** The handlers of [src/internalAuth.js] *)

Section InternalAuthFacts.

Context {platform : Platform}.
Variable env : Env.
Implicit Types (token : string) (s : Solicitud) (w : World).

Lemma select_hit_or_miss token w :
  next_query_fails w = false ->
  pool_query (fun t => (Sql.select_by_token token t, t)) w =
    (Some (Sql.select_by_token token (tyc_solicitudes w)),
     with_faults (tl (pool_faults w)) w).
Proof.
  intros H. unfold pool_query. rewrite H. reflexivity.
Qed.

(** *** Cache miss *)

Lemma I_get_rehydrate token row ahora now_iso db_now w :
  Map_get token (solicitudesTyC w) = None ->
  next_query_fails w = false ->
  Sql.select_by_token token (tyc_solicitudes w) = Some row ->
  InternalAuth.get_tyc env token ahora now_iso db_now w =
  InternalAuth.get_tyc env token ahora now_iso db_now (rehydrated token row w).
Proof.
  intros Hm Hq Hr. unfold InternalAuth.get_tyc at 1. run_handler.
  rewrite Hm. rewrite select_hit_or_miss by assumption. rewrite Hr.
  unfold InternalAuth.get_tyc. run_handler.
  rewrite Map_get_set_same. reflexivity.
Qed.

Lemma I_accept_rehydrate token row req ahora now_iso db_now w :
  Map_get token (solicitudesTyC w) = None ->
  next_query_fails w = false ->
  Sql.select_by_token token (tyc_solicitudes w) = Some row ->
  InternalAuth.post_aceptar env token req ahora now_iso db_now w =
  InternalAuth.post_aceptar env token req ahora now_iso db_now
    (rehydrated token row w).
Proof.
  intros Hm Hq Hr. unfold InternalAuth.post_aceptar at 1. run_handler.
  rewrite Hm. rewrite select_hit_or_miss by assumption. rewrite Hr.
  unfold InternalAuth.post_aceptar. run_handler.
  rewrite Map_get_set_same. reflexivity.
Qed.

Lemma I_get_unknown token ahora now_iso db_now w :
  Map_get token (solicitudesTyC w) = None ->
  next_query_fails w = false ->
  Sql.select_by_token token (tyc_solicitudes w) = None ->
  InternalAuth.get_tyc env token ahora now_iso db_now w =
    (Html 404 enlace_invalido, with_faults (tl (pool_faults w)) w).
Proof.
  intros Hm Hq Hr. unfold InternalAuth.get_tyc. run_handler.
  rewrite Hm. rewrite select_hit_or_miss by assumption. now rewrite Hr.
Qed.

Lemma I_accept_unknown token req ahora now_iso db_now w :
  Map_get token (solicitudesTyC w) = None ->
  next_query_fails w = false ->
  Sql.select_by_token token (tyc_solicitudes w) = None ->
  InternalAuth.post_aceptar env token req ahora now_iso db_now w =
    (error_json 404 "Solicitud no encontrada",
     with_faults (tl (pool_faults w)) w).
Proof.
  intros Hm Hq Hr. unfold InternalAuth.post_aceptar. run_handler.
  rewrite Hm. rewrite select_hit_or_miss by assumption. now rewrite Hr.
Qed.

Lemma I_get_read_fault token ahora now_iso db_now w :
  Map_get token (solicitudesTyC w) = None ->
  next_query_fails w = true ->
  InternalAuth.get_tyc env token ahora now_iso db_now w =
    (Html 500 InternalAuth.error_interno_page,
     with_console
       (console w ++
        [LogError "[TyC] Error consultando BD en GET /tyc/:token:"])
       (with_faults (tl (pool_faults w)) w)).
Proof.
  intros Hm Hq. unfold InternalAuth.get_tyc. run_handler.
  rewrite Hm. unfold pool_query. now rewrite Hq.
Qed.

Lemma I_accept_read_fault token req ahora now_iso db_now w :
  Map_get token (solicitudesTyC w) = None ->
  next_query_fails w = true ->
  InternalAuth.post_aceptar env token req ahora now_iso db_now w =
    (error_json 500 "Error interno",
     with_console
       (console w ++
        [LogError "[TyC] Error en POST /api/tyc/:token/aceptar:"])
       (with_faults (tl (pool_faults w)) w)).
Proof.
  intros Hm Hq. unfold InternalAuth.post_aceptar. run_handler.
  rewrite Hm. unfold pool_query. now rewrite Hq.
Qed.

(** *** Expiry *)

(** The world after the expiry branch has run on a record that was not
    yet [EXPIRADA]. *)
Lemma expirar_fresh token s line w :
  estado s <> EXPIRADA ->
  InternalAuth.expirar env token s line w =
    (tt,
     snd (sendWebhook env (set_estado EXPIRADA s) "TYC_EXPIRADA"
            (snd (try_query (Sql.update_estado token EXPIRADA) line
                    (with_cache
                       (Map_set token (set_estado EXPIRADA s)
                          (solicitudesTyC w)) w))))).
Proof.
  intros He. apply Estado_eqb_neq in He.
  unfold InternalAuth.expirar. rewrite He. run_handler.
  destruct (try_query _ _ _) as [[] w1].
  now destruct (sendWebhook _ _ _ _) as [[] w2].
Qed.

Lemma expirar_again token s line w :
  estado s = EXPIRADA -> InternalAuth.expirar env token s line w = (tt, w).
Proof.
  intros He. unfold InternalAuth.expirar. now rewrite He.
Qed.

Lemma I_get_expire token s ahora now_iso db_now w :
  Map_get token (solicitudesTyC w) = Some s ->
  vencida ahora s = true ->
  estado s <> ACEPTADA ->
  InternalAuth.get_tyc env token ahora now_iso db_now w =
    (Html 410 enlace_expirado,
     snd (InternalAuth.expirar env token s
            "[TyC] Error actualizando estado EXPIRADA en BD:" w)).
Proof.
  intros H Hv He. apply Estado_eqb_neq in He.
  unfold InternalAuth.get_tyc. run_handler. rewrite H, Hv, He. simpl.
  now destruct (InternalAuth.expirar _ _ _ _ _) as [[] w'].
Qed.

Lemma I_accept_expire token s req ahora now_iso db_now w :
  Map_get token (solicitudesTyC w) = Some s ->
  vencida ahora s = true ->
  estado s <> ACEPTADA ->
  InternalAuth.post_aceptar env token req ahora now_iso db_now w =
    (url_expirada,
     snd (InternalAuth.expirar env token s
            "[TyC] Error actualizando EXPIRADA en BD (POST /aceptar):" w)).
Proof.
  intros H Hv He. apply Estado_eqb_neq in He.
  unfold InternalAuth.post_aceptar. run_handler. rewrite H, Hv, He. simpl.
  now destruct (InternalAuth.expirar _ _ _ _ _) as [[] w'].
Qed.

(** *** A record that is not expired, or is accepted *)

Lemma I_get_live token s ahora now_iso db_now w :
  Map_get token (solicitudesTyC w) = Some s ->
  vencida ahora s && negb (Estado_eqb (estado s) ACEPTADA) = false ->
  let s' := if Estado_eqb (estado s) CREADA
            then set_openedAt now_iso (set_estado ABIERTA s) else s in
  InternalAuth.get_tyc env token ahora now_iso db_now w =
    (Html 200
       (ConsentPage (preclienteId s') (expiresAt s') token
          (Some (Estado_eqb (estado s') ACEPTADA))),
     snd (try_query (Sql.update_opened token db_now)
            "[TyC] Error actualizando opened_at/estado en BD:"
            (if Estado_eqb (estado s) CREADA
             then with_cache (Map_set token s' (solicitudesTyC w)) w
             else w))).
Proof.
  intros H Hc. unfold InternalAuth.get_tyc. run_handler. rewrite H, Hc.
  destruct (Estado_eqb (estado s) CREADA); simpl;
    now destruct (try_query _ _ _) as [[] w'].
Qed.

Lemma I_accept_accepted token s req ahora now_iso db_now w :
  Map_get token (solicitudesTyC w) = Some s ->
  estado s = ACEPTADA ->
  InternalAuth.post_aceptar env token req ahora now_iso db_now w =
    (Json 200
       (JObj [ ("ok", JBool true);
               ("mensaje",
                JStr "Esta solicitud ya había sido aceptada previamente.");
               ("preclienteId", JStr (preclienteId s));
               ("tycSolicitudId", JStr (tycSolicitudId s));
               ("acceptedAt", json_of_opt_instant (acceptedAt s)) ]), w).
Proof.
  intros H He.
  unfold InternalAuth.post_aceptar. run_handler. rewrite H, He. simpl.
  now rewrite andb_false_r.
Qed.

(** *** First acceptance *)

Lemma I_accept_first token s req ahora now_iso db_now w :
  Map_get token (solicitudesTyC w) = Some s ->
  vencida ahora s = false ->
  estado s <> ACEPTADA ->
  acceptedAt s = None ->
  next_query_fails w = false ->
  let ip := InternalAuth.getClientIp req in
  let upd := Sql.update_accepted token ip db_now (tyc_solicitudes w) in
  let aceptada :=
    set_accepted (match fst upd with t :: _ => t | [] => now_iso end)
      ip (js_or (user_agent req) None) (set_estado ACEPTADA s) in
  InternalAuth.post_aceptar env token req ahora now_iso db_now w =
    (Json 200
       (JObj [ ("ok", JBool true);
               ("mensaje", JStr "Aceptación registrada");
               ("preclienteId", JStr (preclienteId aceptada));
               ("tycSolicitudId", JStr (tycSolicitudId aceptada));
               ("acceptedAt", json_of_opt_instant (acceptedAt aceptada));
               ("acceptedIp", json_of_opt_string (acceptedIp aceptada)) ]),
     snd (sendWebhook env aceptada "TYC_ACEPTADA"
            (with_console (console w ++ [LogInfo "✅ Solicitud TyC aceptada:"])
               (with_cache (Map_set token aceptada (solicitudesTyC w))
                  (with_table (snd upd)
                     (with_faults (tl (pool_faults w)) w)))))).
Proof.
  intros H Hv He Ha Hq. apply Estado_eqb_neq in He.
  unfold InternalAuth.post_aceptar. run_handler. rewrite H, Hv, He, Ha. simpl.
  unfold pool_query. rewrite Hq.
  unfold Sql.update_accepted, log. simpl.
  now destruct (sendWebhook _ _ _ _) as [[] w'].
Qed.

Lemma I_accept_write_fault token s req ahora now_iso db_now w :
  Map_get token (solicitudesTyC w) = Some s ->
  vencida ahora s = false ->
  estado s <> ACEPTADA ->
  acceptedAt s = None ->
  next_query_fails w = true ->
  InternalAuth.post_aceptar env token req ahora now_iso db_now w =
    (error_json 500 "Error interno",
     with_console
       (console w ++
        [LogError "[TyC] Error en POST /api/tyc/:token/aceptar:"])
       (with_faults (tl (pool_faults w)) w)).
Proof.
  intros H Hv He Ha Hq. apply Estado_eqb_neq in He.
  unfold InternalAuth.post_aceptar. run_handler. rewrite H, Hv, He, Ha. simpl.
  unfold pool_query. now rewrite Hq.
Qed.

End InternalAuthFacts.

(* ------------------------------------------------------------------ *)
(** ** The sweep *)

Section SweepFacts.

Context {platform : Platform}.
Variable env : Env.
Variable ahora : Instant.
Implicit Types (m pre rest : list (string * Solicitud)) (w : World).

Lemma Map_get_app_skip {V : Type} (pre rest : list (string * V)) k :
  ~ In k (Map_keys pre) -> Map_get k (pre ++ rest) = Map_get k rest.
Proof.
  unfold Map_get, Map_keys.
  induction pre as [|[k' v'] pre IH]; simpl; intros Hk; [reflexivity|].
  destruct (String.eqb k' k) eqn:E.
  - apply String.eqb_eq in E. tauto.
  - apply IH. tauto.
Qed.

Lemma Map_set_app_skip {V : Type} (pre rest : list (string * V)) k v :
  ~ In k (Map_keys pre) -> Map_set k v (pre ++ rest) = pre ++ Map_set k v rest.
Proof.
  unfold Map_keys.
  induction pre as [|[k' v'] pre IH]; simpl; intros Hk; [reflexivity|].
  destruct (String.eqb k' k) eqn:E.
  - apply String.eqb_eq in E. tauto.
  - rewrite IH by tauto. reflexivity.
Qed.

Lemma Map_wf_middle {V : Type} (pre rest : list (string * V)) k v :
  Map_wf (pre ++ (k, v) :: rest) -> ~ In k (Map_keys pre).
Proof.
  unfold Map_wf, Map_keys. rewrite map_app. simpl. intros H Hin.
  apply NoDup_remove_2 in H. apply H. apply in_or_app. now left.
Qed.

Lemma Map_wf_shift {V : Type} (pre rest : list (string * V)) k v v' :
  Map_wf (pre ++ (k, v) :: rest) -> Map_wf ((pre ++ [(k, v')]) ++ rest).
Proof.
  unfold Map_wf, Map_keys. rewrite <- app_assoc. simpl.
  now rewrite !map_app.
Qed.

Lemma sweep_count_cons e m :
  sweep_count ahora (e :: m) =
  (if sweepable ahora (snd e) then 1 else 0) + sweep_count ahora m.
Proof.
  unfold sweep_count. simpl.
  destruct (sweepable ahora (snd e)); simpl List.length; lia.
Qed.

Lemma sweep_loop_cons k tokens contador w :
  sweep_loop env ahora (k :: tokens) contador w =
  match Map_get k (solicitudesTyC w) with
  | Some s =>
      if sweepable ahora s then
        sweep_loop env ahora tokens (contador + 1)
          (snd (sendWebhook env (set_estado EXPIRADA s) "TYC_EXPIRADA"
                  (with_cache
                     (Map_set k (set_estado EXPIRADA s) (solicitudesTyC w))
                     w)))
      else sweep_loop env ahora tokens contador w
  | None => sweep_loop env ahora tokens contador w
  end.
Proof.
  cbn [sweep_loop]. unfold bind, cache_get, cache_set.
  destruct (Map_get k (solicitudesTyC w)) as [s|]; [|reflexivity].
  destruct (sweepable ahora s); [|reflexivity].
  now destruct (sendWebhook _ _ _ _) as [[] w'].
Qed.

(** The loop, started on the keys of the part of the [Map] it has not yet
    visited. *)
Lemma sweep_loop_spec rest : forall pre contador w,
  solicitudesTyC w = pre ++ rest ->
  Map_wf (pre ++ rest) ->
  let r := sweep_loop env ahora (Map_keys rest) contador w in
  fst r = contador + sweep_count ahora rest
  /\ solicitudesTyC (snd r) = pre ++ map (sweep_entry ahora) rest
  /\ tyc_solicitudes (snd r) = tyc_solicitudes w
  /\ outbox (snd r) = outbox w ++ sweep_posts env ahora rest
  /\ pool_faults (snd r) = pool_faults w.
Proof.
  induction rest as [|[k s] rest IH]; intros pre contador w Hc Hwf.
  - simpl. unfold sweep_count. simpl.
    rewrite Z.add_0_r, !app_nil_r. rewrite app_nil_r in Hc. auto.
  - pose proof (Map_wf_middle _ _ _ _ Hwf) as Hk.
    cbv zeta. cbn [Map_keys map fst]. fold (Map_keys rest).
    rewrite sweep_loop_cons.
    rewrite Hc, Map_get_app_skip by assumption.
    unfold Map_get. cbn [assoc]. rewrite String.eqb_refl.
    rewrite sweep_count_cons. unfold sweep_posts. cbn [flat_map map snd].
    fold (sweep_posts env ahora rest).
    unfold sweep_entry at 1. cbn [fst snd].
    destruct (sweepable ahora s) eqn:Es.
    + rewrite Map_set_app_skip by assumption.
      cbn [Map_set]. rewrite String.eqb_refl.
      set (s' := set_estado EXPIRADA s).
      set (w1 := with_cache (pre ++ (k, s') :: rest) w).
      pose proof (sendWebhook_outbox env s' "TYC_EXPIRADA" w1) as Ho.
      pose proof (sendWebhook_keeps env s' "TYC_EXPIRADA" w1)
        as (Hc1 & Ht1 & Hf1).
      set (w2 := snd (sendWebhook env s' "TYC_EXPIRADA" w1)) in *.
      specialize (IH (pre ++ [(k, s')]) (contador + 1) w2).
      destruct IH as (I1 & I2 & I3 & I4 & I5).
      * rewrite Hc1. unfold w1. simpl. now rewrite <- app_assoc.
      * eapply Map_wf_shift. exact Hwf.
      * rewrite I1, I2, I3, I4, I5, Ho, Ht1, Hf1.
        rewrite <- !app_assoc. cbn [app]. repeat split; try reflexivity. lia.
    + specialize (IH (pre ++ [(k, s)]) contador w).
      destruct IH as (I1 & I2 & I3 & I4 & I5).
      * rewrite Hc. now rewrite <- app_assoc.
      * eapply Map_wf_shift. exact Hwf.
      * rewrite I1, I2, I3, I4, I5.
        rewrite <- !app_assoc. cbn [app]. repeat split; try reflexivity.
Qed.

(** What one call of the sweep handler does. *)
Lemma check_expired_spec w :
  Map_wf (solicitudesTyC w) ->
  let r := check_expired env ahora w in
  fst r =
    Json 200
      (JObj [ ("ok", JBool true);
              ("expiradas", JNum (sweep_count ahora (solicitudesTyC w))) ])
  /\ solicitudesTyC (snd r) = map (sweep_entry ahora) (solicitudesTyC w)
  /\ tyc_solicitudes (snd r) = tyc_solicitudes w
  /\ outbox (snd r) = outbox w ++ sweep_posts env ahora (solicitudesTyC w)
  /\ pool_faults (snd r) = pool_faults w.
Proof.
  intros Hwf.
  pose proof (sweep_loop_spec (solicitudesTyC w) [] 0 w eq_refl Hwf) as H.
  cbv zeta in H. destruct H as (H1 & H2 & H3 & H4 & H5).
  unfold check_expired, bind, cache_keys, ret. cbv zeta.
  destruct (sweep_loop env ahora (Map_keys (solicitudesTyC w)) 0 w)
    as [contador w'].
  cbn [fst snd] in *. subst contador. rewrite Z.add_0_l.
  repeat split; assumption.
Qed.

Lemma Map_get_sweep m k :
  Map_get k (map (sweep_entry ahora) m) =
  match Map_get k m with
  | Some s => Some (if sweepable ahora s then set_estado EXPIRADA s else s)
  | None => None
  end.
Proof.
  unfold Map_get.
  induction m as [|[k' s'] m IH]; simpl; [reflexivity|].
  destruct (String.eqb k' k); [reflexivity | exact IH].
Qed.

Lemma Map_wf_unique m k s :
  Map_wf m -> Map_get k m = Some s ->
  forall e, In e m -> fst e = k -> snd e = s.
Proof.
  unfold Map_wf, Map_keys, Map_get.
  induction m as [|[k' s'] m IH]; simpl; intros Hwf Hg e Hin Hk; [tauto|].
  apply NoDup_cons_iff in Hwf. destruct Hwf as [Hnot Hwf].
  destruct Hin as [<-|Hin]; simpl in *.
  - subst k'. rewrite String.eqb_refl in Hg. congruence.
  - destruct (String.eqb k' k) eqn:E.
    + apply String.eqb_eq in E. subst k'. exfalso. apply Hnot.
      rewrite <- Hk. now apply in_map.
    + eapply IH; eauto.
Qed.

(** An entry the sweep does not select contributes nothing to its count
    and to its posts. *)
Lemma sweep_without m k s :
  Map_wf m -> Map_get k m = Some s -> sweepable ahora s = false ->
  sweep_count ahora (Map_delete k m) = sweep_count ahora m
  /\ sweep_posts env ahora (Map_delete k m) = sweep_posts env ahora m.
Proof.
  intros Hwf Hg Hs.
  pose proof (Map_wf_unique m k s Hwf Hg) as Hu. clear Hwf Hg.
  induction m as [|e m IH]; [split; reflexivity|].
  destruct IH as [IH1 IH2].
  { intros e' Hin. apply Hu. now right. }
  unfold Map_delete. cbn [filter]. fold (Map_delete k m).
  destruct (String.eqb (fst e) k) eqn:E; cbn [negb].
  - apply String.eqb_eq in E.
    assert (snd e = s) as He by (apply Hu; [now left | exact E]).
    rewrite sweep_count_cons, IH1. unfold sweep_posts at 2. cbn [flat_map].
    fold (sweep_posts env ahora m). rewrite He, Hs, IH2. split; [lia | reflexivity].
  - rewrite !sweep_count_cons, IH1. unfold sweep_posts. cbn [flat_map].
    fold (sweep_posts env ahora m). fold (sweep_posts env ahora (Map_delete k m)).
    now rewrite IH2.
Qed.

Lemma Map_wf_delete {V : Type} (m : list (string * V)) k :
  Map_wf m -> Map_wf (Map_delete k m).
Proof.
  unfold Map_wf, Map_keys, Map_delete.
  induction m as [|[k' v'] m IH]; simpl; intros H; [constructor|].
  apply NoDup_cons_iff in H. destruct H as [Hn H].
  destruct (String.eqb k' k); simpl; [now apply IH|].
  constructor; [|now apply IH].
  intros Hin. apply Hn. apply in_map_iff in Hin.
  destruct Hin as (e & He & Hin). apply filter_In in Hin.
  apply in_map_iff. exists e. tauto.
Qed.

End SweepFacts.

(* ------------------------------------------------------------------ *)
(** ** Webhook notifications *)

(** C6.  A notification for a record with a (non-empty) webhook URL is one
    post to that URL, sent as JSON with a timeout of five seconds.  Its
    payload holds, in this order, the event name, [preclienteId],
    [tycSolicitudId], the current [estado] by its name, [createdAt],
    [expiresAt], [openedAt] or null and [acceptedAt] or null; its
    [X-AMA-Event] header is the event name and its [X-AMA-Signature] header
    the HMAC-SHA256 of the serialized payload under [WEBHOOK_SECRET], or
    under ["default_secret"] when that is unset or empty.  The call leaves
    the [Map] and the table alone and writes one line on the console: that
    the post was sent, or that it failed.  For a record without a webhook
    URL nothing is posted and nothing changes but a warning on the
    console. *)
Theorem sendWebhook_signed_payload {platform : Platform} (env : Env)
    (s : Solicitud) (evento : string) (w : World) :
  (forall webhook, webhookUrl s = Some webhook -> webhook <> "" ->
     exists p,
       let w' := snd (sendWebhook env s evento w) in
       outbox w' = outbox w ++ [p]
       /\ solicitudesTyC w' = solicitudesTyC w
       /\ tyc_solicitudes w' = tyc_solicitudes w
       /\ pool_faults w' = pool_faults w
       /\ axios_faults w' = tl (axios_faults w)
       /\ console w' =
            console w ++
            [match axios_faults w with
             | true :: _ => LogError "❌ Error enviando webhook TyC:"
             | _ =>
                 LogInfo
                   (String.append "🔔 Webhook enviado a n8n ("
                      (String.append evento
                         (String.append ") para preclienteId="
                            (preclienteId s))))
             end]
       /\ url p = webhook
       /\ content_type p = "application/json"
       /\ timeout p = 5000
       /\ x_ama_event p = evento
       /\ data p =
            JObj [ ("evento", JStr evento);
                   ("preclienteId", JStr (preclienteId s));
                   ("tycSolicitudId", JStr (tycSolicitudId s));
                   ("estado",
                    JStr match estado s with
                         | CREADA => "CREADA"
                         | ABIERTA => "ABIERTA"
                         | ACEPTADA => "ACEPTADA"
                         | EXPIRADA => "EXPIRADA"
                         end);
                   ("createdAt", JDate (createdAt s));
                   ("expiresAt", JDate (expiresAt s));
                   ("openedAt",
                    match openedAt s with Some t => JDate t | None => JNull end);
                   ("acceptedAt",
                    match acceptedAt s with Some t => JDate t | None => JNull end) ]
       /\ x_ama_signature p =
            createHmac_sha256_hex
              match WEBHOOK_SECRET env with
              | Some key => if String.eqb key "" then "default_secret" else key
              | None => "default_secret"
              end
              (JSON_stringify (data p)))
  /\ (webhookUrl s = None \/ webhookUrl s = Some "" ->
        sendWebhook env s evento w =
          (tt,
           {| solicitudesTyC := solicitudesTyC w;
              tyc_solicitudes := tyc_solicitudes w;
              outbox := outbox w;
              console :=
                console w ++
                [LogWarn "⚠️ No hay webhookUrl configurado en la solicitud, no se envía nada."];
              pool_faults := pool_faults w;
              axios_faults := axios_faults w |})).
Proof.
  split.
  - intros webhook Hu Hne. exists (webhook_post env webhook s evento).
    assert (js_or (webhookUrl s) None = Some webhook) as Hj.
    { unfold js_or, truthy. rewrite Hu.
      destruct (String.eqb webhook "") eqn:E; [|reflexivity].
      apply String.eqb_eq in E. contradiction. }
    unfold sendWebhook. rewrite Hj.
    unfold bind, axios_post, next_post_fails, log.
    assert (x_ama_signature (webhook_post env webhook s evento) =
            createHmac_sha256_hex
              match WEBHOOK_SECRET env with
              | Some key => if String.eqb key "" then "default_secret" else key
              | None => "default_secret"
              end
              (JSON_stringify (data (webhook_post env webhook s evento))))
      as Hs.
    { unfold webhook_post, webhook_secret, or_default, js_or, truthy. cbn.
      destruct (WEBHOOK_SECRET env) as [key|]; [|reflexivity].
      destruct (String.eqb key ""); reflexivity. }
    destruct (axios_faults w) as [|[] rest]; cbn;
      repeat (split; [reflexivity|]); exact Hs.
  - intros Hu.
    assert (js_or (webhookUrl s) None = None) as Hj
      by (destruct Hu as [Hu|Hu]; rewrite Hu; reflexivity).
    unfold sendWebhook. rewrite Hj. reflexivity.
Qed.

Lemma sendWebhook_signed_payload_witness :
  (exists p,
     let w' :=
       snd (sendWebhook (platform := Examples.tagged_platform) Examples.env1
              Examples.aceptada "TYC_ACEPTADA" Examples.w_aceptada) in
     outbox w' = [p]
     /\ console w' =
          [LogInfo "🔔 Webhook enviado a n8n (TYC_ACEPTADA) para preclienteId=P-1"]
     /\ url p = "https://n8n.example/hook"
     /\ data p =
          JObj [ ("evento", JStr "TYC_ACEPTADA");
                 ("preclienteId", JStr "P-1");
                 ("tycSolicitudId", JStr "TYC-1000");
                 ("estado", JStr "ACEPTADA");
                 ("createdAt", JDate 1000);
                 ("expiresAt", JDate 61000);
                 ("openedAt", JDate 2000);
                 ("acceptedAt", JDate 3000) ]
     /\ x_ama_signature p =
          createHmac_sha256_hex (Platform := Examples.tagged_platform) "k1"
            (JSON_stringify (Platform := Examples.tagged_platform) (data p)))
  /\ (exists p,
        let w' :=
          snd (sendWebhook (platform := Examples.tagged_platform)
                 Examples.env0 Examples.creada "TYC_EXPIRADA"
                 (with_axios_faults [true] Examples.w_creada)) in
        outbox w' = [p]
        /\ console w' = [LogError "❌ Error enviando webhook TyC:"]
        /\ data p =
             JObj [ ("evento", JStr "TYC_EXPIRADA");
                    ("preclienteId", JStr "P-1");
                    ("tycSolicitudId", JStr "TYC-1000");
                    ("estado", JStr "CREADA");
                    ("createdAt", JDate 1000);
                    ("expiresAt", JDate 61000);
                    ("openedAt", JNull);
                    ("acceptedAt", JNull) ]
        /\ x_ama_signature p =
             createHmac_sha256_hex (Platform := Examples.tagged_platform)
               "default_secret"
               (JSON_stringify (Platform := Examples.tagged_platform)
                  (data p)))
  /\ (webhookUrl Examples.sin_webhook = None
      /\ outbox (snd (sendWebhook (platform := Examples.tagged_platform)
                        Examples.env0 Examples.sin_webhook "TYC_EXPIRADA"
                        Examples.empty_world)) = []
      /\ console (snd (sendWebhook (platform := Examples.tagged_platform)
                         Examples.env0 Examples.sin_webhook "TYC_EXPIRADA"
                         Examples.empty_world))
         = [LogWarn "⚠️ No hay webhookUrl configurado en la solicitud, no se envía nada."]).
Proof.
  split; [|split].
  - destruct (sendWebhook_signed_payload (platform := Examples.tagged_platform)
                Examples.env1 Examples.aceptada "TYC_ACEPTADA"
                Examples.w_aceptada) as [H _].
    destruct (H "https://n8n.example/hook" eq_refl ltac:(discriminate))
      as (p & Ho & _ & _ & _ & _ & Hc & Hu & _ & _ & _ & Hd & Hs).
    exists p. repeat split; assumption.
  - destruct (sendWebhook_signed_payload (platform := Examples.tagged_platform)
                Examples.env0 Examples.creada "TYC_EXPIRADA"
                (with_axios_faults [true] Examples.w_creada)) as [H _].
    destruct (H "https://n8n.example/hook" eq_refl ltac:(discriminate))
      as (p & Ho & _ & _ & _ & _ & Hc & _ & _ & _ & _ & Hd & Hs).
    exists p. repeat split; assumption.
  - split; [reflexivity|].
    destruct (sendWebhook_signed_payload (platform := Examples.tagged_platform)
                Examples.env0 Examples.sin_webhook "TYC_EXPIRADA"
                Examples.empty_world) as [_ H].
    rewrite (H (or_introl eq_refl)). split; reflexivity.
Defined.

(** C7, as stated, fails: the notification dispatched for a request whose
    metadata is [{"plan": "basic"}] carries that metadata under no key. *)
Lemma webhook_payload_lacks_metadata :
  ~ (forall p,
       In p (outbox (snd (sendWebhook (platform := Examples.tagged_platform)
                            Examples.env1 Examples.creada "TYC_ACEPTADA"
                            Examples.empty_world))) ->
       exists k, field k (data p) = Some (metadata Examples.creada)).
Proof.
  intros H.
  destruct (H (webhook_post (platform := Examples.tagged_platform)
                 Examples.env1 "https://n8n.example/hook" Examples.creada
                 "TYC_ACEPTADA")) as [k Hk].
  - simpl. now left.
  - simpl in Hk.
    repeat (match type of Hk with
            | (if ?c then _ else _) = _ => destruct c; [discriminate|]
            end).
    discriminate.
Qed.

(** C7, amended.  No notification carries the request's metadata: the
    payload has exactly the eight fields [evento], [preclienteId],
    [tycSolicitudId], [estado], [createdAt], [expiresAt], [openedAt] and
    [acceptedAt], and what [sendWebhook] does for a record is the same
    whatever the record's metadata. *)
Theorem webhook_independent_of_metadata {platform : Platform} (env : Env)
    (s : Solicitud) (m : json) (evento : string) (w : World) :
  sendWebhook env (set_metadata m s) evento w = sendWebhook env s evento w
  /\ forall webhook,
       keys (data (webhook_post env webhook s evento)) =
         [ "evento"; "preclienteId"; "tycSolicitudId"; "estado";
           "createdAt"; "expiresAt"; "openedAt"; "acceptedAt" ].
Proof.
  split; reflexivity.
Qed.

(* ------------------------------------------------------------------ *)
(** ** Creation keeps the raw token *)

(** C10.  A creation request that passes validation and whose insert
    succeeds adds one row to the table; the row holds the raw token in its
    [token] column next to the SHA-256 digest of the token in
    [token_hash], and the answer to the caller carries the raw token. *)
Theorem creation_persists_raw_token {platform : Platform} (env : Env)
    (body : CreateBody) (precliente webhook : string)
    (ahora date_now : Instant) (random_hex : string) (w : World) :
  js_or (b_preclienteId body) None = Some precliente ->
  js_or (b_webhookUrl body) None = Some webhook ->
  valid_date (ahora + ttl_of body * 60 * 1000) = true ->
  next_query_fails w = false ->
  let r := post_solicitudes env (Some body) ahora date_now random_hex w in
  exists row,
    tyc_solicitudes (snd r) = tyc_solicitudes w ++ [row]
    /\ Sql.token row = random_hex
    /\ Sql.token_hash row = createHash_sha256_hex random_hex
    /\ status_of (fst r) = 200
    /\ field "ok" (body_of (fst r)) = Some (JBool true)
    /\ field "token" (body_of (fst r)) = Some (JStr random_hex).
Proof.
  intros Hp Hw Hv Hq r. subst r.
  rewrite (creation_success env body precliente webhook) by assumption.
  eexists. repeat split.
Qed.

Lemma creation_persists_raw_token_witness :
  let r := post_solicitudes (platform := Examples.tagged_platform)
             Examples.env1 (Some Examples.body0) 1000 1000
             "9f86d081884c7d659a2feaa0c55ad015" Examples.empty_world in
  exists row,
    tyc_solicitudes (snd r) = [row]
    /\ Sql.token row = "9f86d081884c7d659a2feaa0c55ad015"
    /\ Sql.token_hash row = "sha256:9f86d081884c7d659a2feaa0c55ad015"
    /\ status_of (fst r) = 200
    /\ field "ok" (body_of (fst r)) = Some (JBool true)
    /\ field "token" (body_of (fst r))
       = Some (JStr "9f86d081884c7d659a2feaa0c55ad015").
Proof.
  exact (creation_persists_raw_token (platform := Examples.tagged_platform)
           Examples.env1 Examples.body0 "P-1" "https://n8n.example/hook"
           1000 1000 "9f86d081884c7d659a2feaa0c55ad015" Examples.empty_world
           eq_refl eq_refl eq_refl eq_refl).
Defined.

(* ------------------------------------------------------------------ *)
(** ** Expiry on a read or an accept attempt *)

Section ExpiryFacts.

Context {platform : Platform}.
Variable env : Env.
Implicit Types (token : string) (s : Solicitud) (w : World) (a : Attempt).

Lemma sendWebhook_console s evento w l :
  In l (console w) -> In l (console (snd (sendWebhook env s evento w))).
Proof.
  unfold sendWebhook, bind, axios_post.
  destruct (js_or (webhookUrl s) None); simpl.
  - destruct (next_post_fails w); simpl; intros H; apply in_or_app; now left.
  - intros H. apply in_or_app. now left.
Qed.


(** The expiry branch when the write of [EXPIRADA] throws: the failure is
    logged and everything else happens all the same. *)
Lemma expirar_unwritten token s line w :
  estado s <> EXPIRADA ->
  next_query_fails w = true ->
  let w' := snd (InternalAuth.expirar env token s line w) in
  solicitudesTyC w' = Map_set token (set_estado EXPIRADA s) (solicitudesTyC w)
  /\ tyc_solicitudes w' = tyc_solicitudes w
  /\ outbox w' = outbox w ++ dispatch env (set_estado EXPIRADA s) "TYC_EXPIRADA"
  /\ pool_faults w' = tl (pool_faults w)
  /\ In (LogError line) (console w').
Proof.
  intros He Hq. cbv zeta. rewrite expirar_fresh by assumption. cbn [snd].
  rewrite try_query_fault by exact Hq. cbn [snd].
  rewrite sendWebhook_outbox.
  match goal with |- context [sendWebhook env ?x ?y ?z] =>
    pose proof (sendWebhook_keeps env x y z) as (Hc & Ht & Hf);
    pose proof (sendWebhook_console x y z (LogError line)) as Hl end.
  rewrite Hc, Ht, Hf. repeat split.
  apply Hl. simpl. apply in_or_app. right. now left.
Qed.

Lemma I_attempt_expire a token s ahora now_iso db_now w :
  Map_get token (solicitudesTyC w) = Some s ->
  vencida ahora s = true ->
  estado s <> ACEPTADA ->
  I_attempt env a token ahora now_iso db_now w =
    (expired_answer a,
     snd (InternalAuth.expirar env token s (expiry_log_line a) w)).
Proof.
  destruct a; simpl.
  - apply I_get_expire.
  - apply I_accept_expire.
Qed.

Lemma I_attempt_rehydrate a token row ahora now_iso db_now w :
  Map_get token (solicitudesTyC w) = None ->
  next_query_fails w = false ->
  Sql.select_by_token token (tyc_solicitudes w) = Some row ->
  I_attempt env a token ahora now_iso db_now w =
  I_attempt env a token ahora now_iso db_now (rehydrated token row w).
Proof.
  destruct a; simpl.
  - apply I_get_rehydrate.
  - apply I_accept_rehydrate.
Qed.

Lemma T_attempt_expire a token s ahora now_iso w :
  Map_get token (solicitudesTyC w) = Some s ->
  vencida ahora s = true ->
  estado s <> ACEPTADA ->
  T_attempt env a token ahora now_iso w =
    (expired_answer a,
     snd (sendWebhook env (set_estado EXPIRADA s) "TYC_EXPIRADA"
            (with_cache
               (Map_set token (set_estado EXPIRADA s) (solicitudesTyC w)) w))).
Proof.
  destruct a; simpl.
  - apply T_get_expired.
  - apply T_accept_expired.
Qed.




End ExpiryFacts.




(* ------------------------------------------------------------------ *)
(** ** What a failing write does to the caller *)

(** C8, as stated, fails: when the write of [EXPIRADA] throws, the caller
    of the read gets the very answer it gets when the write goes through
    (410, the expired page), not a persistence error; the failure is only
    on the console, followed there by the line of the notification that
    was sent all the same, and the row is still [CREADA]. *)
Lemma expiry_write_failure_not_surfaced :
  let w_down := with_faults [true] Examples.w_creada in
  let r := InternalAuth.get_tyc (platform := Examples.tagged_platform)
             Examples.env0 "t1" 70000 70000 70000 w_down in
  fst r = Html 410 enlace_expirado
  /\ fst r = fst (InternalAuth.get_tyc (platform := Examples.tagged_platform)
                    Examples.env0 "t1" 70000 70000 70000 Examples.w_creada)
  /\ status_of (fst r) <> 500
  /\ tyc_solicitudes (snd r) = [Examples.fila_creada]
  /\ console (snd r)
     = [LogError "[TyC] Error actualizando estado EXPIRADA en BD:";
        LogInfo "🔔 Webhook enviado a n8n (TYC_EXPIRADA) para preclienteId=P-1"].
Proof.
  cbv zeta. repeat split. discriminate.
Qed.

Section FailurePolicy.

Context {platform : Platform}.
Variable env : Env.

Lemma opened_write_failure token s ahora now_iso db_now w :
  Map_get token (solicitudesTyC w) = Some s ->
  vencida ahora s && negb (Estado_eqb (estado s) ACEPTADA) = false ->
  next_query_fails w = true ->
  let r := InternalAuth.get_tyc env token ahora now_iso db_now w in
  status_of (fst r) = 200
  /\ tyc_solicitudes (snd r) = tyc_solicitudes w
  /\ outbox (snd r) = outbox w
  /\ In (LogError "[TyC] Error actualizando opened_at/estado en BD:")
       (console (snd r)).
Proof.
  intros Hg Hc Hq. cbv zeta.
  rewrite (I_get_live env token s) by assumption. cbn [fst snd status_of].
  rewrite try_query_fault.
  - destruct (Estado_eqb (estado s) CREADA); cbn; repeat split;
      apply in_or_app; right; now left.
  - destruct (Estado_eqb (estado s) CREADA); exact Hq.
Qed.

End FailurePolicy.

(** C8, amended.  The creation write and the acceptance write fail hard:
    when the query throws the caller gets a 500 error answer, the table is
    left as it was, nothing is dispatched and no record is cached as
    created or accepted.  For a creation, and for an acceptance of a cached
    record, the [Map] is left as it was; for an acceptance on a cache miss,
    where the [SELECT] goes through and the [UPDATE] throws, the [Map] keeps
    the record the handler has just rebuilt from the row, as it was read.
    The write of [EXPIRADA] (on a read or an accept attempt) and the
    opened-at write are best effort: when the query throws the failure is
    logged and the handler goes on, so the caller of an expired link still
    gets the expired answer, with the record marked [EXPIRADA] in the [Map]
    and the notification dispatched, and the reader of a live link still
    gets the page. *)
Theorem persistence_failure_policy {platform : Platform} (env : Env)
    (w : World) :
  (next_query_fails w = true ->
   (forall body precliente webhook ahora date_now random_hex,
      js_or (b_preclienteId body) None = Some precliente ->
      js_or (b_webhookUrl body) None = Some webhook ->
      valid_date (ahora + ttl_of body * 60 * 1000) = true ->
      let r := post_solicitudes env (Some body) ahora date_now random_hex w in
      fst r = error_json 500
                "Error guardando la solicitud de TyC en la base de datos"
      /\ solicitudesTyC (snd r) = solicitudesTyC w
      /\ tyc_solicitudes (snd r) = tyc_solicitudes w
      /\ outbox (snd r) = outbox w)
   /\ (forall token s req ahora now_iso db_now,
         Map_get token (solicitudesTyC w) = Some s ->
         vencida ahora s = false ->
         estado s <> ACEPTADA ->
         acceptedAt s = None ->
         let r :=
           InternalAuth.post_aceptar env token req ahora now_iso db_now w in
         fst r = error_json 500 "Error interno"
         /\ solicitudesTyC (snd r) = solicitudesTyC w
         /\ tyc_solicitudes (snd r) = tyc_solicitudes w
         /\ outbox (snd r) = outbox w)
   /\ (forall a token s ahora now_iso db_now,
         Map_get token (solicitudesTyC w) = Some s ->
         estado s = CREADA \/ estado s = ABIERTA ->
         vencida ahora s = true ->
         let r := I_attempt env a token ahora now_iso db_now w in
         fst r = expired_answer a
         /\ Map_get token (solicitudesTyC (snd r))
            = Some (set_estado EXPIRADA s)
         /\ tyc_solicitudes (snd r) = tyc_solicitudes w
         /\ outbox (snd r)
            = outbox w ++ dispatch env (set_estado EXPIRADA s) "TYC_EXPIRADA"
         /\ In (LogError (expiry_log_line a)) (console (snd r)))
   /\ (forall token s ahora now_iso db_now,
         Map_get token (solicitudesTyC w) = Some s ->
         vencida ahora s && negb (Estado_eqb (estado s) ACEPTADA) = false ->
         let r := InternalAuth.get_tyc env token ahora now_iso db_now w in
         status_of (fst r) = 200
         /\ tyc_solicitudes (snd r) = tyc_solicitudes w
         /\ In (LogError "[TyC] Error actualizando opened_at/estado en BD:")
              (console (snd r))))
  /\ (forall token row later,
        Map_get token (solicitudesTyC w) = None ->
        pool_faults w = false :: true :: later ->
        Sql.select_by_token token (tyc_solicitudes w) = Some row ->
        (forall req ahora now_iso db_now,
           (Sql.expires_at row <? ahora) = false ->
           Sql.estado row <> ACEPTADA ->
           Sql.accepted_at row = None ->
           let r :=
             InternalAuth.post_aceptar env token req ahora now_iso db_now w in
           fst r = error_json 500 "Error interno"
           /\ solicitudesTyC (snd r)
              = Map_set token (InternalAuth.rehydrate row) (solicitudesTyC w)
           /\ (forall s', Map_get token (solicitudesTyC (snd r)) = Some s' ->
                 estado s' = Sql.estado row /\ acceptedAt s' = None)
           /\ tyc_solicitudes (snd r) = tyc_solicitudes w
           /\ outbox (snd r) = outbox w)
        /\ (forall a ahora now_iso db_now,
              Sql.estado row = CREADA \/ Sql.estado row = ABIERTA ->
              (Sql.expires_at row <? ahora) = true ->
              let r := I_attempt env a token ahora now_iso db_now w in
              fst r = expired_answer a
              /\ Map_get token (solicitudesTyC (snd r))
                 = Some (set_estado EXPIRADA (InternalAuth.rehydrate row))
              /\ tyc_solicitudes (snd r) = tyc_solicitudes w
              /\ outbox (snd r)
                 = outbox w ++
                   dispatch env
                     (set_estado EXPIRADA (InternalAuth.rehydrate row))
                     "TYC_EXPIRADA"
              /\ In (LogError (expiry_log_line a)) (console (snd r)))
        /\ (forall ahora now_iso db_now,
              (Sql.expires_at row <? ahora)
              && negb (Estado_eqb (Sql.estado row) ACEPTADA) = false ->
              let r := InternalAuth.get_tyc env token ahora now_iso db_now w in
              status_of (fst r) = 200
              /\ tyc_solicitudes (snd r) = tyc_solicitudes w
              /\ In (LogError "[TyC] Error actualizando opened_at/estado en BD:")
                   (console (snd r)))).
Proof.
  split.
  - intros Hq. split; [|split; [|split]].
    + intros body precliente webhook ahora date_now random_hex Hp Hw Hv.
      cbv zeta.
      rewrite (creation_store_failure env body precliente webhook)
        by assumption.
      repeat split.
    + intros token s req ahora now_iso db_now Hg Hv He Ha. cbv zeta.
      rewrite (I_accept_write_fault env token s) by assumption.
      repeat split.
    + intros a token s ahora now_iso db_now Hg He Hv. cbv zeta.
      assert (estado s <> ACEPTADA) as Hna by (destruct He; congruence).
      assert (estado s <> EXPIRADA) as Hne by (destruct He; congruence).
      rewrite (I_attempt_expire env a token s) by assumption. cbn [fst snd].
      destruct (expirar_unwritten env token s (expiry_log_line a) w Hne Hq)
        as (Hc & Ht & Ho & _ & Hl).
      rewrite Hc. repeat split; try assumption. apply Map_get_set_same.
    + intros token s ahora now_iso db_now Hg Hc.
      destruct (opened_write_failure env token s ahora now_iso db_now w Hg Hc Hq)
        as (H1 & H2 & _ & H4).
      repeat split; assumption.
  - intros token row later Hm Hf Hr.
    assert (next_query_fails w = false) as Hq
      by (unfold next_query_fails; now rewrite Hf).
    assert (Map_get token (solicitudesTyC (rehydrated token row w))
            = Some (InternalAuth.rehydrate row)) as Hg
      by (unfold rehydrated; cbn [solicitudesTyC with_cache];
          apply Map_get_set_same).
    assert (next_query_fails (rehydrated token row w) = true) as Hq'
      by (unfold rehydrated, next_query_fails;
          cbn [pool_faults with_cache with_faults]; now rewrite Hf).
    split; [|split].
    + intros req ahora now_iso db_now Hv He Ha. cbv zeta.
      rewrite (I_accept_rehydrate env token row) by assumption.
      rewrite (I_accept_write_fault env token (InternalAuth.rehydrate row))
        by assumption.
      cbn [fst snd]. unfold rehydrated.
      cbn [solicitudesTyC tyc_solicitudes outbox with_console with_faults
           with_cache].
      repeat split.
      * rewrite Map_get_set_same in H. now inversion H.
      * rewrite Map_get_set_same in H. inversion H. exact Ha.
    + intros a ahora now_iso db_now He Hv. cbv zeta.
      assert (estado (InternalAuth.rehydrate row) <> ACEPTADA) as Hna
        by (cbn [estado InternalAuth.rehydrate]; destruct He; congruence).
      assert (estado (InternalAuth.rehydrate row) <> EXPIRADA) as Hne
        by (cbn [estado InternalAuth.rehydrate]; destruct He; congruence).
      rewrite (I_attempt_rehydrate env a token row) by assumption.
      rewrite (I_attempt_expire env a token (InternalAuth.rehydrate row))
        by assumption.
      cbn [fst snd].
      destruct (expirar_unwritten env token (InternalAuth.rehydrate row)
                  (expiry_log_line a) (rehydrated token row w) Hne Hq')
        as (Hc & Ht & Ho & _ & Hl).
      rewrite Hc. repeat split; try assumption. apply Map_get_set_same.
    + intros ahora now_iso db_now Hc.
      rewrite (I_get_rehydrate env token row) by assumption.
      destruct (opened_write_failure env token (InternalAuth.rehydrate row)
                  ahora now_iso db_now (rehydrated token row w) Hg Hc Hq')
        as (H1 & H2 & _ & H4).
      repeat split; assumption.
Qed.

Lemma persistence_failure_policy_witness :
  let w_down := with_faults [true] Examples.w_creada in
  let w_miss := with_faults [false; true] Examples.w_restarted in
  let r_miss :=
    InternalAuth.post_aceptar (platform := Examples.tagged_platform)
      Examples.env0 "t1" Examples.browser 5000 5000 5000 w_miss in
  next_query_fails w_down = true
  /\ fst (post_solicitudes (platform := Examples.tagged_platform)
            Examples.env0 (Some Examples.body0) 1000 1000 "t2" w_down)
     = error_json 500
         "Error guardando la solicitud de TyC en la base de datos"
  /\ fst (InternalAuth.post_aceptar (platform := Examples.tagged_platform)
            Examples.env0 "t1" Examples.browser 5000 5000 5000 w_down)
     = error_json 500 "Error interno"
  /\ fst (InternalAuth.post_aceptar (platform := Examples.tagged_platform)
            Examples.env0 "t1" Examples.browser 70000 70000 70000 w_down)
     = url_expirada
  /\ status_of
       (fst (InternalAuth.get_tyc (platform := Examples.tagged_platform)
               Examples.env0 "t1" 5000 5000 5000 w_down)) = 200
  /\ (Map_get "t1" (solicitudesTyC w_miss) = None
      /\ pool_faults w_miss = [false; true]
      /\ fst r_miss = error_json 500 "Error interno"
      /\ solicitudesTyC (snd r_miss) = [("t1", Examples.creada)]
      /\ tyc_solicitudes (snd r_miss) = [Examples.fila_creada]
      /\ outbox (snd r_miss) = []).
Proof.
  cbv zeta.
  destruct (persistence_failure_policy (platform := Examples.tagged_platform)
              Examples.env0 (with_faults [true] Examples.w_creada))
    as (Hdown & _).
  destruct (Hdown eq_refl) as (Hcreate & Haccept & Hexpire & Hopen).
  destruct (persistence_failure_policy (platform := Examples.tagged_platform)
              Examples.env0 (with_faults [false; true] Examples.w_restarted))
    as (_ & Hmiss).
  split; [reflexivity|]. split; [|split; [|split; [|split]]].
  - exact (proj1 (Hcreate Examples.body0 "P-1" "https://n8n.example/hook"
                    1000 1000 "t2" eq_refl eq_refl eq_refl)).
  - refine (proj1 (Haccept "t1" Examples.creada Examples.browser 5000 5000 5000
                     eq_refl eq_refl _ eq_refl)).
    discriminate.
  - exact (proj1 (Hexpire (Accept Examples.browser) "t1" Examples.creada
                    70000 70000 70000 eq_refl (or_introl eq_refl) eq_refl)).
  - exact (proj1 (Hopen "t1" Examples.creada 5000 5000 5000 eq_refl eq_refl)).
  - split; [reflexivity|]. split; [reflexivity|].
    assert (Sql.estado Examples.fila_creada <> ACEPTADA) as Hne
      by discriminate.
    destruct (Hmiss "t1" Examples.fila_creada [] eq_refl eq_refl eq_refl)
      as (Haccept' & _).
    destruct (Haccept' Examples.browser 5000 5000 5000 eq_refl Hne eq_refl)
      as (H1 & H2 & _ & H4 & H5).
    repeat split; assumption.
Defined.

(* ------------------------------------------------------------------ *)
(** ** [ACEPTADA] is terminal *)

Lemma update_opened_keeps_accepted (token : string) (now : Instant)
    (t : Sql.table) :
  stored_estado token ACEPTADA t ->
  stored_estado token ACEPTADA (Sql.update_opened token now t).
Proof.
  unfold stored_estado, Sql.update_opened. intros H r Hin Ht.
  apply in_map_iff in Hin. destruct Hin as (r0 & <- & Hin).
  destruct (String.eqb (Sql.token r0) token) eqn:E.
  - apply String.eqb_eq in E. cbn [Sql.estado Sql.opened].
    now rewrite (H r0 Hin E).
  - now apply H.
Qed.

Lemma try_query_table (q : Sql.table -> Sql.table) (line : string)
    (w : World) :
  tyc_solicitudes (snd (try_query q line w))
  = if next_query_fails w then tyc_solicitudes w else q (tyc_solicitudes w).
Proof.
  destruct (next_query_fails w) eqn:H.
  - now rewrite try_query_fault.
  - now rewrite try_query_ok.
Qed.

(** C9.  A cached record that is [ACEPTADA] stays as it is under every
    operation, at any time, before or after its [expiresAt]: a read renders
    the page and an accept answers [ok: true], both without touching the
    record and without dispatching anything (in both copies of the
    handlers; the read of [src/internalAuth.js] sends its opened-at update,
    which leaves an [ACEPTADA] row [ACEPTADA]); the sweep leaves the record
    as it is, and its count and its notifications are those of the [Map]
    without that record. *)
Theorem accepted_is_terminal {platform : Platform} (env : Env)
    (token : string) (s : Solicitud) (w : World) :
  Map_get token (solicitudesTyC w) = Some s ->
  estado s = ACEPTADA ->
  (forall ahora now_iso,
     TycRoutes.get_tyc env token ahora now_iso w
     = (Html 200 (ConsentPage (preclienteId s) (expiresAt s) token None), w))
  /\ (forall req ahora now_iso,
        let r := TycRoutes.post_aceptar env token req ahora now_iso w in
        status_of (fst r) = 200
        /\ field "ok" (body_of (fst r)) = Some (JBool true)
        /\ snd r = w)
  /\ (forall ahora now_iso db_now,
        let r := InternalAuth.get_tyc env token ahora now_iso db_now w in
        fst r = Html 200
                  (ConsentPage (preclienteId s) (expiresAt s) token (Some true))
        /\ solicitudesTyC (snd r) = solicitudesTyC w
        /\ outbox (snd r) = outbox w
        /\ (stored_estado token ACEPTADA (tyc_solicitudes w) ->
            stored_estado token ACEPTADA (tyc_solicitudes (snd r))))
  /\ (forall req ahora now_iso db_now,
        let r := InternalAuth.post_aceptar env token req ahora now_iso db_now w in
        status_of (fst r) = 200
        /\ field "ok" (body_of (fst r)) = Some (JBool true)
        /\ snd r = w)
  /\ (forall ahora,
        Map_wf (solicitudesTyC w) ->
        let r := check_expired env ahora w in
        let others := Map_delete token (solicitudesTyC w) in
        Map_get token (solicitudesTyC (snd r)) = Some s
        /\ fst r = Json 200 (JObj [ ("ok", JBool true);
                                    ("expiradas", JNum (sweep_count ahora others)) ])
        /\ outbox (snd r) = outbox w ++ sweep_posts env ahora others).
Proof.
  intros Hg He. split; [|split; [|split; [|split]]].
  - intros ahora now_iso. now apply T_get_accepted.
  - intros req ahora now_iso. cbv zeta.
    rewrite (T_accept_accepted env token s) by assumption. repeat split.
  - intros ahora now_iso db_now. cbv zeta.
    assert (vencida ahora s && negb (Estado_eqb (estado s) ACEPTADA) = false)
      as Hc by (rewrite He; apply andb_false_r).
    rewrite (I_get_live env token s) by assumption. rewrite He. cbn [Estado_eqb fst snd].
    match goal with |- context [try_query ?q ?l ?x] =>
      destruct (try_query_keeps q l x) as [Hk Ho] end.
    rewrite Hk, Ho, He, try_query_table. repeat split.
    intros Hst. destruct (next_query_fails w); [exact Hst|].
    now apply update_opened_keeps_accepted.
  - intros req ahora now_iso db_now. cbv zeta.
    rewrite (I_accept_accepted env token s) by assumption. repeat split.
  - intros ahora Hwf. cbv zeta.
    assert (sweepable ahora s = false) as Hs
      by (unfold sweepable; now rewrite He).
    destruct (check_expired_spec env ahora w Hwf) as (H1 & H2 & _ & H4 & _).
    destruct (sweep_without env ahora _ token s Hwf Hg Hs) as [Hn Hp].
    rewrite H1, H2, H4, Hn, Hp, Map_get_sweep, Hg, Hs. repeat split.
Qed.

Lemma accepted_is_terminal_witness :
  (Map_get "t1" (solicitudesTyC Examples.w_aceptada) = Some Examples.aceptada
   /\ estado Examples.aceptada = ACEPTADA
   /\ vencida 70000 Examples.aceptada = true)
  /\ status_of
       (fst (TycRoutes.get_tyc (platform := Examples.tagged_platform)
               Examples.env0 "t1" 70000 70000 Examples.w_aceptada)) = 200
  /\ snd (InternalAuth.post_aceptar (platform := Examples.tagged_platform)
            Examples.env0 "t1" Examples.browser 70000 70000 70000
            Examples.w_aceptada) = Examples.w_aceptada
  /\ fst (check_expired (platform := Examples.tagged_platform)
            Examples.env0 70000 Examples.w_aceptada)
     = Json 200 (JObj [("ok", JBool true); ("expiradas", JNum 0)]).
Proof.
  split; [repeat split|].
  destruct (accepted_is_terminal (platform := Examples.tagged_platform)
              Examples.env0 "t1" Examples.aceptada Examples.w_aceptada
              eq_refl eq_refl) as (Hr & _ & _ & Ha & Hs).
  split; [|split].
  - rewrite Hr. reflexivity.
  - exact (proj2 (proj2 (Ha Examples.browser 70000 70000 70000))).
  - refine (proj1 (proj2 (Hs 70000 _))).
    repeat constructor. simpl. tauto.
Defined.

(* ------------------------------------------------------------------ *)
(** ** A second accept *)

(** C2, as stated, fails on [src/tycRoutes.js]: the answer to an accept
    call on a record accepted at time 3000 is a success that carries no
    [acceptedAt]. *)
Lemma T_repeat_accept_without_acceptedAt :
  let r := TycRoutes.post_aceptar (platform := Examples.tagged_platform)
             Examples.env0 "t1" Examples.browser 5000 5000
             Examples.w_aceptada in
  Map_get "t1" (solicitudesTyC Examples.w_aceptada) = Some Examples.aceptada
  /\ estado Examples.aceptada = ACEPTADA
  /\ acceptedAt Examples.aceptada = Some 3000
  /\ status_of (fst r) = 200
  /\ field "ok" (body_of (fst r)) = Some (JBool true)
  /\ field "acceptedAt" (body_of (fst r)) = None.
Proof.
  cbv zeta. repeat split.
Qed.

Section RepeatAccept.

Context {platform : Platform}.
Variable env : Env.

Lemma I_accept_stored_accepted token row req ahora now_iso db_now w :
  Map_get token (solicitudesTyC w) = None ->
  next_query_fails w = false ->
  Sql.select_by_token token (tyc_solicitudes w) = Some row ->
  Sql.estado row = ACEPTADA ->
  let r := InternalAuth.post_aceptar env token req ahora now_iso db_now w in
  status_of (fst r) = 200
  /\ field "ok" (body_of (fst r)) = Some (JBool true)
  /\ field "acceptedAt" (body_of (fst r))
     = Some (json_of_opt_instant (Sql.accepted_at row))
  /\ snd r = rehydrated token row w.
Proof.
  intros Hm Hq Hr He. cbv zeta.
  rewrite (I_accept_rehydrate env token row) by assumption.
  rewrite (I_accept_accepted env token (InternalAuth.rehydrate row)).
  - repeat split.
  - unfold rehydrated. cbn [solicitudesTyC with_cache].
    apply Map_get_set_same.
  - exact He.
Qed.

(** Two accept calls in a row through [src/internalAuth.js]. *)
Lemma I_accept_twice token s req req' ahora now_iso db_now
    ahora' now_iso' db_now' w :
  Map_get token (solicitudesTyC w) = Some s ->
  vencida ahora s = false ->
  estado s <> ACEPTADA ->
  acceptedAt s = None ->
  next_query_fails w = false ->
  let first := InternalAuth.post_aceptar env token req ahora now_iso db_now w in
  let second :=
    InternalAuth.post_aceptar env token req' ahora' now_iso' db_now'
      (snd first) in
  status_of (fst first) = 200
  /\ status_of (fst second) = 200
  /\ field "acceptedAt" (body_of (fst second))
     = field "acceptedAt" (body_of (fst first))
  /\ snd second = snd first
  /\ outbox (snd first)
     = outbox w ++
       dispatch env
         (set_accepted
            (match fst (Sql.update_accepted token
                          (InternalAuth.getClientIp req) db_now
                          (tyc_solicitudes w)) with
             | t :: _ => t
             | [] => now_iso
             end)
            (InternalAuth.getClientIp req) (js_or (user_agent req) None)
            (set_estado ACEPTADA s))
         "TYC_ACEPTADA".
Proof.
  intros Hg Hv He Ha Hq. cbv zeta.
  rewrite (I_accept_first env token s) by assumption. cbn [fst snd].
  match goal with |- context [sendWebhook env ?x ?y ?z] =>
    pose proof (sendWebhook_keeps env x y z) as (Hc & _ & _);
    pose proof (sendWebhook_outbox env x y z) as Ho;
    set (w1 := snd (sendWebhook env x y z)) in *;
    set (aceptada := x) in *
  end.
  rewrite (I_accept_accepted env token aceptada).
  - repeat split. exact Ho.
  - rewrite Hc. cbn [solicitudesTyC with_console with_cache].
    apply Map_get_set_same.
  - reflexivity.
Qed.

End RepeatAccept.

(** C2, amended.  An accept call on a record that is already [ACEPTADA]
    answers with a success, dispatches nothing and leaves the record, with
    its original [acceptedAt], as it is.  Through
    [src/internalAuth.js] the answer carries that original [acceptedAt],
    whether the record was in the [Map] or had to be read from the table;
    the answer of [src/tycRoutes.js] has no [acceptedAt] field. *)
Theorem repeat_accept_is_idempotent {platform : Platform} (env : Env)
    (token : string) (req : AcceptRequest) (ahora now_iso db_now : Instant)
    (w : World) :
  (forall s,
     Map_get token (solicitudesTyC w) = Some s ->
     estado s = ACEPTADA ->
     (let r := InternalAuth.post_aceptar env token req ahora now_iso db_now w in
      status_of (fst r) = 200
      /\ field "ok" (body_of (fst r)) = Some (JBool true)
      /\ field "acceptedAt" (body_of (fst r))
         = Some (json_of_opt_instant (acceptedAt s))
      /\ snd r = w)
     /\ (let r := TycRoutes.post_aceptar env token req ahora now_iso w in
         status_of (fst r) = 200
         /\ field "ok" (body_of (fst r)) = Some (JBool true)
         /\ field "acceptedAt" (body_of (fst r)) = None
         /\ snd r = w))
  /\ (forall row,
        Map_get token (solicitudesTyC w) = None ->
        next_query_fails w = false ->
        Sql.select_by_token token (tyc_solicitudes w) = Some row ->
        Sql.estado row = ACEPTADA ->
        let r := InternalAuth.post_aceptar env token req ahora now_iso db_now w in
        status_of (fst r) = 200
        /\ field "ok" (body_of (fst r)) = Some (JBool true)
        /\ field "acceptedAt" (body_of (fst r))
           = Some (json_of_opt_instant (Sql.accepted_at row))
        /\ outbox (snd r) = outbox w
        /\ tyc_solicitudes (snd r) = tyc_solicitudes w).
Proof.
  split.
  - intros s Hg He. split; cbv zeta.
    + rewrite (I_accept_accepted env token s) by assumption. repeat split.
    + rewrite (T_accept_accepted env token s) by assumption. repeat split.
  - intros row Hm Hq Hr He.
    destruct (I_accept_stored_accepted env token row req ahora now_iso db_now
                w Hm Hq Hr He) as (H1 & H2 & H3 & H4).
    cbv zeta. rewrite H4. repeat split; assumption.
Qed.

Lemma repeat_accept_is_idempotent_witness :
  (Map_get "t1" (solicitudesTyC Examples.w_aceptada) = Some Examples.aceptada
   /\ estado Examples.aceptada = ACEPTADA)
  /\ field "acceptedAt"
       (body_of
          (fst (InternalAuth.post_aceptar
                  (platform := Examples.tagged_platform) Examples.env0 "t1"
                  Examples.browser 5000 5000 5000 Examples.w_aceptada)))
     = Some (JDate 3000)
  /\ (Sql.select_by_token "t1"
        (tyc_solicitudes (with_cache [] Examples.w_aceptada))
      = Some Examples.fila_aceptada
      /\ field "acceptedAt"
           (body_of
              (fst (InternalAuth.post_aceptar
                      (platform := Examples.tagged_platform) Examples.env0
                      "t1" Examples.browser 5000 5000 5000
                      (with_cache [] Examples.w_aceptada))))
         = Some (JDate 3000)).
Proof.
  split; [split; reflexivity|].
  split.
  - destruct (repeat_accept_is_idempotent
                (platform := Examples.tagged_platform) Examples.env0 "t1"
                Examples.browser 5000 5000 5000 Examples.w_aceptada)
      as [H _].
    destruct (H Examples.aceptada eq_refl eq_refl) as [(_ & _ & Hat & _) _].
    exact Hat.
  - split; [reflexivity|].
    destruct (repeat_accept_is_idempotent
                (platform := Examples.tagged_platform) Examples.env0 "t1"
                Examples.browser 5000 5000 5000
                (with_cache [] Examples.w_aceptada))
      as [_ H].
    destruct (H Examples.fila_aceptada eq_refl eq_refl eq_refl eq_refl)
      as (_ & _ & Hat & _).
    exact Hat.
Defined.

(* ------------------------------------------------------------------ *)
(** ** The acceptance write *)

(** C3, as stated, fails on [src/tycRoutes.js]: a first acceptance answers
    ["Aceptación registrada"] and marks the record [ACEPTADA] in the [Map],
    but nothing is persisted: the row of the table is still [CREADA] with no
    [accepted_at]. *)
Lemma T_acceptance_not_persisted :
  let r := TycRoutes.post_aceptar (platform := Examples.tagged_platform)
             Examples.env0 "t1" Examples.browser 5000 5000
             Examples.w_creada in
  field "mensaje" (body_of (fst r)) = Some (JStr "Aceptación registrada")
  /\ option_map estado (Map_get "t1" (solicitudesTyC (snd r))) = Some ACEPTADA
  /\ tyc_solicitudes (snd r) = [Examples.fila_creada]
  /\ Sql.accepted_at Examples.fila_creada = None
  /\ ~ stored_estado "t1" ACEPTADA (tyc_solicitudes (snd r)).
Proof.
  cbv zeta. repeat split.
  intros H. specialize (H Examples.fila_creada (or_introl eq_refl) eq_refl).
  discriminate H.
Qed.

Section AcceptanceWrite.

Context {platform : Platform}.
Variable env : Env.

Lemma returning_head (tok : string) (ip : option string)
    (db_now now_iso : Instant) (t : Sql.table) :
  match fst (Sql.update_accepted tok ip db_now t) with
  | first :: _ => first
  | [] => now_iso
  end
  = if existsb (Sql.accept_matches tok) t then db_now else now_iso.
Proof.
  unfold Sql.update_accepted. cbn [fst].
  induction t as [|r t IH]; [reflexivity|].
  cbn [filter existsb].
  destruct (Sql.accept_matches tok r); [reflexivity | exact IH].
Qed.

Lemma I_accept_first_write token s req ahora now_iso db_now w :
  Map_get token (solicitudesTyC w) = Some s ->
  vencida ahora s = false ->
  estado s <> ACEPTADA ->
  acceptedAt s = None ->
  next_query_fails w = false ->
  let ip := InternalAuth.getClientIp req in
  let r := InternalAuth.post_aceptar env token req ahora now_iso db_now w in
  let aceptada :=
    set_accepted
      (if existsb (Sql.accept_matches token) (tyc_solicitudes w)
       then db_now else now_iso)
      ip (js_or (user_agent req) None) (set_estado ACEPTADA s) in
  status_of (fst r) = 200
  /\ tyc_solicitudes (snd r)
     = map (fun row => if Sql.accept_matches token row
                       then Sql.accepted db_now ip row else row)
         (tyc_solicitudes w)
  /\ Map_get token (solicitudesTyC (snd r)) = Some aceptada
  /\ outbox (snd r) = outbox w ++ dispatch env aceptada "TYC_ACEPTADA".
Proof.
  intros Hg Hv He Ha Hq. cbv zeta.
  rewrite (I_accept_first env token s) by assumption. cbn [fst snd].
  rewrite returning_head.
  match goal with |- context [sendWebhook env ?x ?y ?z] =>
    pose proof (sendWebhook_keeps env x y z) as (Hc & Ht & _);
    pose proof (sendWebhook_outbox env x y z) as Ho
  end.
  rewrite Hc, Ht, Ho. cbn [solicitudesTyC tyc_solicitudes outbox
                            with_console with_cache with_table].
  repeat split. apply Map_get_set_same.
Qed.

End AcceptanceWrite.

(** C3, amended.  Through [src/internalAuth.js], a first acceptance sends
    one update that sets [estado = ACEPTADA], [accepted_at = NOW()] and
    [accepted_ip] to the caller address on the rows of that token whose
    [accepted_at] is null, and on no other row; the [Map] is updated after
    the update has returned, and not at all when the update throws (the
    caller then gets a 500).  For a record that is already [ACEPTADA] no
    update is sent.  The accept handler of [src/tycRoutes.js] never writes
    the table. *)
Theorem first_acceptance_write {platform : Platform} (env : Env)
    (token : string) (req : AcceptRequest) (ahora now_iso db_now : Instant)
    (w : World) :
  let ip := InternalAuth.getClientIp req in
  let r := InternalAuth.post_aceptar env token req ahora now_iso db_now w in
  (forall s,
     Map_get token (solicitudesTyC w) = Some s ->
     vencida ahora s = false ->
     estado s <> ACEPTADA ->
     acceptedAt s = None ->
     (next_query_fails w = false ->
        status_of (fst r) = 200
        /\ tyc_solicitudes (snd r)
           = map (fun row => if Sql.accept_matches token row
                             then Sql.accepted db_now ip row else row)
               (tyc_solicitudes w)
        /\ Map_get token (solicitudesTyC (snd r))
           = Some (set_accepted
                     (if existsb (Sql.accept_matches token) (tyc_solicitudes w)
                      then db_now else now_iso)
                     ip (js_or (user_agent req) None)
                     (set_estado ACEPTADA s)))
     /\ (next_query_fails w = true ->
           status_of (fst r) = 500
           /\ tyc_solicitudes (snd r) = tyc_solicitudes w
           /\ solicitudesTyC (snd r) = solicitudesTyC w))
  /\ (forall row,
        Sql.estado (Sql.accepted db_now ip row) = ACEPTADA
        /\ Sql.accepted_at (Sql.accepted db_now ip row) = Some db_now
        /\ Sql.accepted_ip (Sql.accepted db_now ip row) = ip
        /\ (Sql.accept_matches token row = true <->
            Sql.token row = token /\ Sql.accepted_at row = None))
  /\ (forall s,
        Map_get token (solicitudesTyC w) = Some s ->
        estado s = ACEPTADA ->
        snd r = w)
  /\ tyc_solicitudes
       (snd (TycRoutes.post_aceptar env token req ahora now_iso w))
     = tyc_solicitudes w.
Proof.
  cbv zeta. split; [|split; [|split]].
  - intros s Hg Hv He Ha. split; intros Hq.
    + destruct (I_accept_first_write env token s req ahora now_iso db_now w
                  Hg Hv He Ha Hq) as (H1 & H2 & H3 & _).
      repeat split; assumption.
    + rewrite (I_accept_write_fault env token s) by assumption.
      repeat split.
  - intros row. split; [reflexivity|]. split; [reflexivity|].
    split; [reflexivity|]. unfold Sql.accept_matches. split.
    + intros Hm. apply andb_prop in Hm. destruct Hm as [Ht Hn].
      split; [now apply String.eqb_eq|].
      destruct (Sql.accepted_at row); [discriminate | reflexivity].
    + intros [Ht Hn]. rewrite Hn. apply andb_true_intro.
      split; [now apply String.eqb_eq | reflexivity].
  - intros s Hg He.
    now rewrite (I_accept_accepted env token s) by assumption.
  - apply T_accept_table.
Qed.

Lemma first_acceptance_write_witness :
  let r := InternalAuth.post_aceptar (platform := Examples.tagged_platform)
             Examples.env0 "t1" Examples.browser 5000 5000 5100
             Examples.w_creada in
  (Map_get "t1" (solicitudesTyC Examples.w_creada) = Some Examples.creada
   /\ vencida 5000 Examples.creada = false
   /\ estado Examples.creada <> ACEPTADA
   /\ acceptedAt Examples.creada = None
   /\ next_query_fails Examples.w_creada = false)
  /\ status_of (fst r) = 200
  /\ tyc_solicitudes (snd r)
     = [Sql.accepted 5100 (Some "203.0.113.9") Examples.fila_creada]
  /\ option_map acceptedAt (Map_get "t1" (solicitudesTyC (snd r)))
     = Some (Some 5100)
  /\ (next_query_fails (with_faults [true] Examples.w_creada) = true
      /\ solicitudesTyC
           (snd (InternalAuth.post_aceptar
                   (platform := Examples.tagged_platform) Examples.env0 "t1"
                   Examples.browser 5000 5000 5100
                   (with_faults [true] Examples.w_creada)))
         = [("t1", Examples.creada)])
  /\ (estado Examples.aceptada = ACEPTADA
      /\ snd (InternalAuth.post_aceptar
                (platform := Examples.tagged_platform) Examples.env0 "t1"
                Examples.browser 5000 5000 5100 Examples.w_aceptada)
         = Examples.w_aceptada).
Proof.
  cbv zeta. split; [repeat split; discriminate|].
  assert (estado Examples.creada <> ACEPTADA) as Hne by discriminate.
  destruct (first_acceptance_write (platform := Examples.tagged_platform)
              Examples.env0 "t1" Examples.browser 5000 5000 5100
              Examples.w_creada) as (H & _).
  destruct (H Examples.creada eq_refl eq_refl Hne eq_refl) as [Hok _].
  destruct (Hok eq_refl) as (H1 & H2 & H3).
  split; [exact H1|]. split; [exact H2|].
  split; [rewrite H3; reflexivity|]. split.
  - split; [reflexivity|].
    destruct (first_acceptance_write (platform := Examples.tagged_platform)
                Examples.env0 "t1" Examples.browser 5000 5000 5100
                (with_faults [true] Examples.w_creada)) as (Hf & _).
    destruct (Hf Examples.creada eq_refl eq_refl Hne eq_refl) as [_ Hdown].
    exact (proj2 (proj2 (Hdown eq_refl))).
  - split; [reflexivity|].
    destruct (first_acceptance_write (platform := Examples.tagged_platform)
                Examples.env0 "t1" Examples.browser 5000 5000 5100
                Examples.w_aceptada) as (_ & _ & Ha & _).
    exact (Ha Examples.aceptada eq_refl eq_refl).
Defined.

(* ------------------------------------------------------------------ *)
(** ** Looking a token up *)


Section Lookup.

Context {platform : Platform}.
Variable env : Env.

Lemma I_attempt_unknown a token ahora now_iso db_now w :
  Map_get token (solicitudesTyC w) = None ->
  next_query_fails w = false ->
  Sql.select_by_token token (tyc_solicitudes w) = None ->
  I_attempt env a token ahora now_iso db_now w =
    (not_found_answer a, with_faults (tl (pool_faults w)) w).
Proof.
  destruct a; simpl.
  - apply I_get_unknown.
  - apply I_accept_unknown.
Qed.



Lemma T_attempt_unknown a token ahora now_iso w :
  Map_get token (solicitudesTyC w) = None ->
  T_attempt env a token ahora now_iso w = (not_found_answer a, w).
Proof.
  destruct a; simpl.
  - apply T_get_unknown.
  - apply T_accept_unknown.
Qed.

End Lookup.



(* ------------------------------------------------------------------ *)
(** ** The sweep and the table *)

(** C5.  The sweep, run on a stale [CREADA] record: it counts the record,
    marks it [EXPIRADA] in the [Map] and dispatches one ["TYC_EXPIRADA"]
    notification, but the transition is not persisted: the row of the
    table is still [CREADA]. *)
Theorem sweep_does_not_persist :
  let r := check_expired (platform := Examples.tagged_platform)
             Examples.env0 70000 Examples.w_creada in
  fst r = Json 200 (JObj [("ok", JBool true); ("expiradas", JNum 1)])
  /\ Map_get "t1" (solicitudesTyC (snd r))
     = Some (set_estado EXPIRADA Examples.creada)
  /\ map x_ama_event (outbox (snd r)) = ["TYC_EXPIRADA"]
  /\ tyc_solicitudes (snd r) = [Examples.fila_creada]
  /\ ~ stored_estado "t1" EXPIRADA (tyc_solicitudes (snd r)).
Proof.
  cbv zeta. repeat split.
  intros H. specialize (H Examples.fila_creada (or_introl eq_refl) eq_refl).
  discriminate H.
Qed.

(** The sweep never sends a query, whatever the [Map] holds, while the read
    and the accept handler of [src/internalAuth.js] do write [EXPIRADA] to
    the table when they expire a record. *)
Lemma sweep_keeps_table {platform : Platform} (env : Env) (ahora : Instant)
    (w : World) :
  Map_wf (solicitudesTyC w) ->
  tyc_solicitudes (snd (check_expired env ahora w)) = tyc_solicitudes w
  /\ pool_faults (snd (check_expired env ahora w)) = pool_faults w.
Proof.
  intros Hwf.
  destruct (check_expired_spec env ahora w Hwf) as (_ & _ & Ht & _ & Hf).
  now split.
Qed.

(** What is left unwritten comes back: after a restart the swept request is
    read from its [CREADA] row and expires a second time, with a second
    notification. *)
Lemma swept_request_expires_again_after_restart :
  let swept := snd (check_expired (platform := Examples.tagged_platform)
                      Examples.env0 70000 Examples.w_creada) in
  let restarted := with_cache [] swept in
  let r := InternalAuth.get_tyc (platform := Examples.tagged_platform)
             Examples.env0 "t1" 80000 80000 80000 restarted in
  map x_ama_event (outbox swept) = ["TYC_EXPIRADA"]
  /\ fst r = Html 410 enlace_expirado
  /\ map x_ama_event (outbox (snd r)) = ["TYC_EXPIRADA"; "TYC_EXPIRADA"].
Proof.
  cbv zeta. repeat split.
Qed.

(** The scenario of two stale [CREADA] records and an [ACEPTADA] one. *)
Lemma sweep_two_stale_one_accepted :
  let w := with_cache
             [ ("t1", Examples.creada); ("t2", Examples.aceptada);
               ("t3", Examples.creada) ] Examples.empty_world in
  let r := check_expired (platform := Examples.tagged_platform)
             Examples.env0 70000 w in
  fst r = Json 200 (JObj [("ok", JBool true); ("expiradas", JNum 2)])
  /\ Map_get "t2" (solicitudesTyC (snd r)) = Some Examples.aceptada
  /\ map x_ama_event (outbox (snd r)) = ["TYC_EXPIRADA"; "TYC_EXPIRADA"].
Proof.
  cbv zeta. repeat split.
Qed.

(** In [src/tycRoutes.js] every read or accept attempt on an expired link
    dispatches again. *)
Lemma T_expired_link_dispatches_on_every_attempt :
  let first := TycRoutes.get_tyc (platform := Examples.tagged_platform)
                 Examples.env0 "t1" 70000 70000 Examples.w_creada in
  let second := TycRoutes.get_tyc (platform := Examples.tagged_platform)
                  Examples.env0 "t1" 80000 80000 (snd first) in
  fst second = Html 410 enlace_expirado
  /\ map x_ama_event (outbox (snd first)) = ["TYC_EXPIRADA"]
  /\ map x_ama_event (outbox (snd second)) = ["TYC_EXPIRADA"; "TYC_EXPIRADA"].
Proof.
  cbv zeta. repeat split.
Qed.

(* ------------------------------------------------------------------ *)
(** ** A [Map] entry that lags behind the table

    When two requests for one token interleave at an [await], or when more
    than one process serves the table, a [Map] can still hold a request as
    [ABIERTA] after the row has been accepted.  The statements above are
    about sequential runs of one process and do not cover such an entry;
    these runs record what the handlers of [src/internalAuth.js] do with
    it. *)

(** The acceptance update matches no row, and the handler goes on as for a
    first acceptance: it answers with a fresh [acceptedAt] and dispatches
    ["TYC_ACEPTADA"] again; the row keeps its [accepted_at]. *)
Lemma I_accept_on_lagging_entry :
  let w := with_cache [("t1", Examples.abierta)] Examples.w_aceptada in
  let r := InternalAuth.post_aceptar (platform := Examples.tagged_platform)
             Examples.env0 "t1" Examples.browser 5000 5050 5100 w in
  Sql.accepted_at Examples.fila_aceptada = Some 3000
  /\ tyc_solicitudes (snd r) = [Examples.fila_aceptada]
  /\ field "acceptedAt" (body_of (fst r)) = Some (JDate 5050)
  /\ map x_ama_event (outbox (snd r)) = ["TYC_ACEPTADA"].
Proof.
  cbv zeta. repeat split.
Qed.

(** The write of [EXPIRADA] is not conditional: it also rewrites a row that
    is [ACEPTADA]. *)
Lemma I_expiry_on_lagging_entry :
  let w := with_cache [("t1", Examples.abierta)] Examples.w_aceptada in
  let r := InternalAuth.get_tyc (platform := Examples.tagged_platform)
             Examples.env0 "t1" 70000 70000 70000 w in
  Sql.estado Examples.fila_aceptada = ACEPTADA
  /\ fst r = Html 410 enlace_expirado
  /\ map Sql.estado (tyc_solicitudes (snd r)) = [EXPIRADA].
Proof.
  cbv zeta. repeat split.
Qed.

(* ------------------------------------------------------------------ *)
(** ** The internal-secret gate *)

(** X1.  [requireInternalSecret] calls [next()] exactly when
    [INTERNAL_API_SECRET] is configured (and not empty) and the
    [X-Internal-Secret] header equals it.  Otherwise it answers 500 when the
    secret is not configured, whatever the header, and 401 when it is.  It
    touches neither the [Map], the table nor the outbox. *)
Theorem requireInternalSecret_passes_iff (env : Env)
    (x_internal_secret : option string) (w : World) :
  let r := requireInternalSecret env x_internal_secret w in
  (fst r = None <->
   exists secret, INTERNAL_API_SECRET env = Some secret
                  /\ secret <> "" /\ x_internal_secret = Some secret)
  /\ (js_or (INTERNAL_API_SECRET env) None = None ->
      option_map status_of (fst r) = Some 500)
  /\ (js_or (INTERNAL_API_SECRET env) None <> None ->
      fst r <> None -> option_map status_of (fst r) = Some 401)
  /\ solicitudesTyC (snd r) = solicitudesTyC w
  /\ tyc_solicitudes (snd r) = tyc_solicitudes w
  /\ outbox (snd r) = outbox w.
Proof.
  cbv zeta. unfold requireInternalSecret, js_or, truthy.
  destruct (INTERNAL_API_SECRET env) as [k|]; cbn.
  - destruct (String.eqb k "") eqn:Ek; cbn.
    + apply String.eqb_eq in Ek. repeat split; try discriminate.
      * intros (k' & [= <-] & Hne & _). contradiction.
      * intros H. now contradiction H.
    + apply String.eqb_neq in Ek.
      destruct x_internal_secret as [h|]; cbn.
      * destruct (String.eqb h "") eqn:Eh; cbn.
        -- apply String.eqb_eq in Eh. subst h. repeat split; try discriminate.
           intros (k' & [= <-] & Hne & [= Hk]). now subst k.
        -- destruct (String.eqb h k) eqn:Ehk; cbn.
           ++ apply String.eqb_eq in Ehk. subst h. repeat split; try discriminate.
              ** intros _. exists k. auto.
              ** intros _ H. now contradiction H.
           ++ apply String.eqb_neq in Ehk. repeat split; try discriminate.
              intros (k' & [= <-] & _ & [= Hk]). contradiction.
      * repeat split; try discriminate.
        intros (k' & _ & _ & Hk). discriminate.
  - repeat split; try discriminate.
    + intros (k' & Hk & _). discriminate.
    + intros H. now contradiction H.
Qed.

Lemma requireInternalSecret_passes_iff_witness :
  fst (requireInternalSecret Examples.env0 (Some "s3cr3t")
         Examples.empty_world) = None
  /\ option_map status_of
       (fst (requireInternalSecret Examples.env0 (Some "guess")
               Examples.empty_world)) = Some 401.
Proof.
  split.
  - apply (proj1 (requireInternalSecret_passes_iff Examples.env0
                    (Some "s3cr3t") Examples.empty_world)).
    exists "s3cr3t". repeat split. discriminate.
  - apply (proj2 (requireInternalSecret_passes_iff Examples.env0
                    (Some "guess") Examples.empty_world)); discriminate.
Defined.

(** X2.  The sweep route: with the configured secret in the header it is
    the sweep; refused by the gate, it answers 401 or 500 and expires
    nothing: the [Map], the table and the outbox are as before. *)
Theorem post_check_expired_gated {platform : Platform} (env : Env)
    (x_internal_secret : option string) (ahora : Instant) (w : World) :
  (forall secret,
     INTERNAL_API_SECRET env = Some secret -> secret <> "" ->
     x_internal_secret = Some secret ->
     post_check_expired env x_internal_secret ahora w
     = check_expired env ahora w)
  /\ (fst (requireInternalSecret env x_internal_secret w) <> None ->
      let r := post_check_expired env x_internal_secret ahora w in
      (status_of (fst r) = 401 \/ status_of (fst r) = 500)
      /\ solicitudesTyC (snd r) = solicitudesTyC w
      /\ tyc_solicitudes (snd r) = tyc_solicitudes w
      /\ outbox (snd r) = outbox w).
Proof.
  split.
  - intros secret Hs Hne ->.
    unfold post_check_expired, bind, requireInternalSecret, js_or, truthy.
    rewrite Hs. apply String.eqb_neq in Hne. rewrite Hne. cbn.
    now rewrite String.eqb_refl.
  - unfold post_check_expired, bind, requireInternalSecret, js_or, truthy.
    destruct (INTERNAL_API_SECRET env) as [k|]; cbn.
    + destruct (String.eqb k ""); cbn; [intros _; repeat split; now right|].
      destruct x_internal_secret as [h|]; cbn;
        [|intros _; repeat split; now left].
      destruct (String.eqb h ""); cbn; [intros _; repeat split; now left|].
      destruct (String.eqb h k); cbn; [|intros _; repeat split; now left].
      intros H. now contradiction H.
    + intros _. repeat split. now right.
Qed.

Lemma post_check_expired_gated_witness :
  post_check_expired (platform := Examples.tagged_platform) Examples.env0
    (Some "s3cr3t") 70000 Examples.w_creada
  = check_expired (platform := Examples.tagged_platform) Examples.env0
      70000 Examples.w_creada
  /\ solicitudesTyC
       (snd (post_check_expired (platform := Examples.tagged_platform)
               Examples.env0 None 70000 Examples.w_creada))
     = solicitudesTyC Examples.w_creada.
Proof.
  destruct (post_check_expired_gated (platform := Examples.tagged_platform)
              Examples.env0 (Some "s3cr3t") 70000 Examples.w_creada)
    as [Hpass _].
  destruct (post_check_expired_gated (platform := Examples.tagged_platform)
              Examples.env0 None 70000 Examples.w_creada) as [_ Hrefuse].
  split.
  - apply (Hpass "s3cr3t"); [reflexivity | discriminate | reflexivity].
  - apply Hrefuse. discriminate.
Defined.

(* ------------------------------------------------------------------ *)
(** ** Creation: validation, expiry and the way back from the table *)

(** X3.  A creation request with no body, or whose [preclienteId] or
    [webhookUrl] is missing or empty, is answered 400 before anything is
    written: the world is as before.  [preclienteId] is checked first. *)
Theorem creation_rejects_missing_fields {platform : Platform} (env : Env)
    (body : CreateBody) (ahora date_now : Instant) (random_hex : string)
    (w : World) :
  post_solicitudes env None ahora date_now random_hex w
  = (error_json 400 "preclienteId es obligatorio", w)
  /\ (js_or (b_preclienteId body) None = None ->
      post_solicitudes env (Some body) ahora date_now random_hex w
      = (error_json 400 "preclienteId es obligatorio", w))
  /\ (js_or (b_preclienteId body) None <> None ->
      js_or (b_webhookUrl body) None = None ->
      post_solicitudes env (Some body) ahora date_now random_hex w
      = (error_json 400
           "webhookUrl es obligatorio (a dónde avisaremos a n8n)", w)).
Proof.
  split; [reflexivity|]. split.
  - intros Hp. unfold post_solicitudes. now rewrite Hp.
  - intros Hp Hw. unfold post_solicitudes.
    destruct (js_or (b_preclienteId body) None); [|now contradiction Hp].
    now rewrite Hw.
Qed.

Lemma creation_rejects_missing_fields_witness :
  let no_hook :=
    {| b_preclienteId := Some "P-1"; b_canal := None; b_ttlMinutos := None;
       b_webhookUrl := Some ""; b_metadata := JNull |} in
  let no_client :=
    {| b_preclienteId := Some ""; b_canal := None; b_ttlMinutos := None;
       b_webhookUrl := None; b_metadata := JNull |} in
  snd (post_solicitudes (platform := Examples.tagged_platform) Examples.env0
         (Some no_hook) 1000 1000 "t9" Examples.w_creada) = Examples.w_creada
  /\ fst (post_solicitudes (platform := Examples.tagged_platform)
            Examples.env0 (Some no_client) 1000 1000 "t9" Examples.w_creada)
     = error_json 400 "preclienteId es obligatorio".
Proof.
  cbv zeta. split.
  - match goal with |- snd (post_solicitudes _ (Some ?b) _ _ _ _) = _ =>
      destruct (creation_rejects_missing_fields
                  (platform := Examples.tagged_platform) Examples.env0 b
                  1000 1000 "t9" Examples.w_creada) as (_ & _ & H)
    end.
    rewrite H; [reflexivity | discriminate | reflexivity].
  - match goal with |- fst (post_solicitudes _ (Some ?b) _ _ _ _) = _ =>
      destruct (creation_rejects_missing_fields
                  (platform := Examples.tagged_platform) Examples.env0 b
                  1000 1000 "t9" Examples.w_creada) as (_ & H & _)
    end.
    rewrite H; reflexivity.
Defined.

(** X4.  A request that creation accepts, sent with a [ttlMinutos] that is
    a whole number or with none, is cached under its token as [CREADA], not
    opened and not accepted, created at the handler's clock reading and
    expiring [ttlMinutos] minutes later, where a [ttlMinutos] that is
    missing, zero or negative counts as 60.  It is not stale at creation
    time, and the answer carries that [expiresAt]. *)
Theorem created_request_lifetime {platform : Platform} (env : Env)
    (body : CreateBody) (precliente webhook : string)
    (ahora date_now : Instant) (random_hex : string) (w : World) :
  js_or (b_preclienteId body) None = Some precliente ->
  js_or (b_webhookUrl body) None = Some webhook ->
  valid_date (ahora + ttl_of body * 60 * 1000) = true ->
  next_query_fails w = false ->
  let r := post_solicitudes env (Some body) ahora date_now random_hex w in
  exists s,
    Map_get random_hex (solicitudesTyC (snd r)) = Some s
    /\ estado s = CREADA /\ openedAt s = None /\ acceptedAt s = None
    /\ createdAt s = ahora
    /\ expiresAt s
       = ahora + 60000 * (match b_ttlMinutos body with
                          | Some n => if 0 <? n then n else 60
                          | None => 60
                          end)
    /\ vencida ahora s = false
    /\ field "expiresAt" (body_of (fst r)) = Some (JDate (expiresAt s)).
Proof.
  intros Hp Hw Hv Hq r. subst r.
  rewrite (creation_success env body precliente webhook) by assumption.
  eexists. cbn [snd solicitudesTyC with_cache]. split; [apply Map_get_set_same|].
  cbn [estado openedAt acceptedAt createdAt expiresAt nueva_solicitud].
  assert (1 <= ttl_of body) as Ht.
  { unfold ttl_of. destruct (b_ttlMinutos body) as [n|]; [|lia].
    destruct (0 <? n) eqn:E; [apply Z.ltb_lt in E|]; lia. }
  unfold vencida. cbn [expiresAt nueva_solicitud].
  repeat split; try reflexivity.
  - unfold ttl_of. lia.
  - apply Z.ltb_ge. lia.
Qed.

Lemma created_request_lifetime_witness :
  let negative_ttl :=
    {| b_preclienteId := Some "P-1"; b_canal := None;
       b_ttlMinutos := Some (-5);
       b_webhookUrl := Some "https://n8n.example/hook";
       b_metadata := JNull |} in
  exists s,
    Map_get "t9"
      (solicitudesTyC
         (snd (post_solicitudes (platform := Examples.tagged_platform)
                 Examples.env0 (Some negative_ttl) 1000 1000 "t9"
                 Examples.empty_world))) = Some s
    /\ expiresAt s = 3601000
    /\ vencida 1000 s = false.
Proof.
  cbv zeta.
  match goal with |- context [post_solicitudes _ (Some ?b) _ _ _ _] =>
    destruct (created_request_lifetime
                (platform := Examples.tagged_platform) Examples.env0 b
                "P-1" "https://n8n.example/hook" 1000 1000 "t9"
                Examples.empty_world eq_refl eq_refl eq_refl eq_refl)
      as (s & Hs & _ & _ & _ & _ & He & Hv & _)
  end.
  exists s. split; [exact Hs | split; [exact He | exact Hv]].
Defined.

(** X5.  A [ttlMinutos] so large that the expiry falls outside the range of
    a [Date] makes [toISOString] throw: the request is answered 500 by the
    outer [catch], no query is sent and nothing is cached. *)
Theorem creation_rejects_unrepresentable_expiry {platform : Platform}
    (env : Env) (body : CreateBody) (ahora date_now : Instant)
    (random_hex : string) (w : World) :
  js_or (b_preclienteId body) None <> None ->
  js_or (b_webhookUrl body) None <> None ->
  MAX_TIME < ahora + ttl_of body * 60 * 1000 ->
  let r := post_solicitudes env (Some body) ahora date_now random_hex w in
  fst r = error_json 500 "Error inesperado creando la solicitud de TyC"
  /\ solicitudesTyC (snd r) = solicitudesTyC w
  /\ tyc_solicitudes (snd r) = tyc_solicitudes w
  /\ pool_faults (snd r) = pool_faults w
  /\ outbox (snd r) = outbox w.
Proof.
  intros Hp Hw Hbig. cbv zeta. unfold post_solicitudes.
  destruct (js_or (b_preclienteId body) None); [|now contradiction Hp].
  destruct (js_or (b_webhookUrl body) None); [|now contradiction Hw].
  assert (valid_date (ahora + ttl_of body * 60 * 1000) = false) as Hv.
  { unfold valid_date. apply Z.leb_gt. lia. }
  rewrite Hv. repeat split.
Qed.

Lemma creation_rejects_unrepresentable_expiry_witness :
  let forever :=
    {| b_preclienteId := Some "P-1"; b_canal := None;
       b_ttlMinutos := Some 1000000000000;
       b_webhookUrl := Some "https://n8n.example/hook";
       b_metadata := JNull |} in
  status_of
    (fst (post_solicitudes (platform := Examples.tagged_platform)
            Examples.env0 (Some forever) 1000 1000 "t9"
            Examples.empty_world)) = 500.
Proof.
  cbv zeta.
  match goal with |- context [post_solicitudes _ (Some ?b) _ _ _ _] =>
    destruct (creation_rejects_unrepresentable_expiry
                (platform := Examples.tagged_platform) Examples.env0 b
                1000 1000 "t9" Examples.empty_world) as [H _]
  end.
  - discriminate.
  - discriminate.
  - reflexivity.
  - now rewrite H.
Defined.

Lemma or_empty_object_idem (j : json) :
  or_empty_object (or_empty_object j) = or_empty_object j.
Proof.
  unfold or_empty_object. destruct (json_truthy j) eqn:E; [now rewrite E|].
  reflexivity.
Qed.

Lemma rehydrate_insert_values (body : CreateBody)
    (precliente webhook : string) (ahora date_now : Instant)
    (random_hex tokenHash : string) :
  InternalAuth.rehydrate
    (insert_values
       (nueva_solicitud body precliente webhook ahora date_now random_hex)
       tokenHash)
  = nueva_solicitud body precliente webhook ahora date_now random_hex.
Proof.
  unfold InternalAuth.rehydrate, insert_values, nueva_solicitud. cbn.
  now rewrite or_empty_object_idem.
Qed.

(** X6.  The row creation inserts turns back, on a cache miss, into the
    very record creation had put in the [Map]: rebuilding a record from
    its creation row loses nothing. *)
Theorem creation_row_rehydrates (body : CreateBody)
    (precliente webhook : string) (ahora date_now : Instant)
    (random_hex tokenHash : string) :
  InternalAuth.rehydrate
    (insert_values
       (nueva_solicitud body precliente webhook ahora date_now random_hex)
       tokenHash)
  = nueva_solicitud body precliente webhook ahora date_now random_hex.
Proof.
  apply rehydrate_insert_values.
Qed.

(* ------------------------------------------------------------------ *)
(** ** Opening a link *)

Section OpeningFacts.

Context {platform : Platform}.
Variable env : Env.
Implicit Types (token : string) (s : Solicitud) (w : World).

Lemma T_get_live token s ahora now_iso w :
  Map_get token (solicitudesTyC w) = Some s ->
  vencida ahora s && negb (Estado_eqb (estado s) ACEPTADA) = false ->
  let s' := if Estado_eqb (estado s) CREADA
            then set_openedAt now_iso (set_estado ABIERTA s) else s in
  TycRoutes.get_tyc env token ahora now_iso w =
    (Html 200 (ConsentPage (preclienteId s') (expiresAt s') token None),
     if Estado_eqb (estado s) CREADA
     then with_cache (Map_set token s' (solicitudesTyC w)) w
     else w).
Proof.
  intros H Hc. unfold TycRoutes.get_tyc. run_handler. rewrite H, Hc.
  destruct (Estado_eqb (estado s) CREADA); reflexivity.
Qed.

Lemma T_accept_first token s req ahora now_iso w :
  Map_get token (solicitudesTyC w) = Some s ->
  vencida ahora s = false ->
  estado s <> ACEPTADA ->
  let aceptada :=
    set_accepted now_iso
      (js_or (x_forwarded_for req) (js_or (remoteAddress req) None))
      (js_or (user_agent req) None) (set_estado ACEPTADA s) in
  TycRoutes.post_aceptar env token req ahora now_iso w =
    (Json 200
       (JObj [ ("ok", JBool true);
               ("mensaje", JStr "Aceptación registrada");
               ("preclienteId", JStr (preclienteId s));
               ("tycSolicitudId", JStr (tycSolicitudId s)) ]),
     snd (sendWebhook env aceptada "TYC_ACEPTADA"
            (with_console (console w ++ [LogInfo "✅ Solicitud TyC aceptada:"])
               (with_cache (Map_set token aceptada (solicitudesTyC w)) w)))).
Proof.
  intros H Hv He. apply Estado_eqb_neq in He.
  unfold TycRoutes.post_aceptar. run_handler. rewrite H, Hv, He. simpl.
  unfold log. simpl.
  now destruct (sendWebhook _ _ _ _) as [[] w'].
Qed.

Lemma live_when_not_past ahora s :
  ahora <= expiresAt s ->
  vencida ahora s && negb (Estado_eqb (estado s) ACEPTADA) = false.
Proof.
  intros H. unfold vencida.
  replace (expiresAt s <? ahora) with false; [reflexivity|].
  symmetry. apply Z.ltb_ge. exact H.
Qed.

Lemma update_opened_idem token now now' (t : Sql.table) :
  Sql.update_opened token now' (Sql.update_opened token now t)
  = Sql.update_opened token now t.
Proof.
  unfold Sql.update_opened. rewrite map_map. apply map_ext.
  intros [id pre tok hash can hook meta est cre exp ope acc ip].
  cbn [Sql.token].
  destruct (String.eqb tok token) eqn:E.
  - unfold Sql.opened. cbn. rewrite E.
    destruct est, ope; reflexivity.
  - cbn [Sql.token]. now rewrite E.
Qed.

Lemma select_after_insert token row (t : Sql.table) :
  Sql.select_by_token token t = None ->
  Sql.token row = token ->
  Sql.select_by_token token (Sql.insert row t) = Some row.
Proof.
  unfold Sql.select_by_token, Sql.insert. intros Hn Ht.
  induction t as [|r t IH]; simpl in *.
  - rewrite Ht, String.eqb_refl. reflexivity.
  - destruct (String.eqb (Sql.token r) token); [discriminate | now apply IH].
Qed.

Lemma update_opened_after_insert token now row (t : Sql.table) :
  Sql.select_by_token token t = None ->
  Sql.token row = token ->
  Sql.update_opened token now (Sql.insert row t) = t ++ [Sql.opened now row].
Proof.
  unfold Sql.select_by_token, Sql.insert, Sql.update_opened.
  intros Hn Ht. rewrite map_app. cbn [map]. rewrite Ht, String.eqb_refl.
  f_equal.
  induction t as [|r t IH]; simpl in *; [reflexivity|].
  destruct (String.eqb (Sql.token r) token); [discriminate|].
  now rewrite IH.
Qed.

End OpeningFacts.

(** X7.  A request that creation accepts can be read straight away through
    [src/tycRoutes.js] with the token of the answer, at any time up to its
    [expiresAt]: the read renders the page and marks the record [ABIERTA]
    with [openedAt] set to the time of the read. *)
Theorem created_request_opens {platform : Platform} (env : Env)
    (body : CreateBody) (precliente webhook : string)
    (ahora date_now : Instant) (random_hex : string) (w : World)
    (ahora' now_iso : Instant) :
  js_or (b_preclienteId body) None = Some precliente ->
  js_or (b_webhookUrl body) None = Some webhook ->
  valid_date (ahora + ttl_of body * 60 * 1000) = true ->
  next_query_fails w = false ->
  ahora' <= ahora + ttl_of body * 60 * 1000 ->
  let created := post_solicitudes env (Some body) ahora date_now random_hex w in
  let r := TycRoutes.get_tyc env random_hex ahora' now_iso (snd created) in
  field "token" (body_of (fst created)) = Some (JStr random_hex)
  /\ fst r = Html 200
               (ConsentPage precliente (ahora + ttl_of body * 60 * 1000)
                  random_hex None)
  /\ exists s,
       Map_get random_hex (solicitudesTyC (snd r)) = Some s
       /\ estado s = ABIERTA /\ openedAt s = Some now_iso
       /\ acceptedAt s = None.
Proof.
  intros Hp Hw Hv Hq Hle. cbv zeta.
  rewrite (creation_success env body precliente webhook) by assumption.
  cbn [fst snd].
  set (s := nueva_solicitud body precliente webhook ahora date_now random_hex).
  rewrite (T_get_live env random_hex s).
  - split; [reflexivity|]. split; [reflexivity|].
    cbn [estado s nueva_solicitud Estado_eqb snd solicitudesTyC with_cache].
    eexists. split; [apply Map_get_set_same|]. repeat split.
  - cbn [solicitudesTyC with_cache]. apply Map_get_set_same.
  - apply live_when_not_past. exact Hle.
Qed.

Lemma created_request_opens_witness :
  let created := post_solicitudes (platform := Examples.tagged_platform)
                   Examples.env0 (Some Examples.body0) 1000 1000 "t9"
                   Examples.empty_world in
  status_of
    (fst (TycRoutes.get_tyc (platform := Examples.tagged_platform)
            Examples.env0 "t9" 61000 61000 (snd created))) = 200.
Proof.
  cbv zeta.
  destruct (created_request_opens (platform := Examples.tagged_platform)
              Examples.env0 Examples.body0 "P-1" "https://n8n.example/hook"
              1000 1000 "t9" Examples.empty_world 61000 61000
              eq_refl eq_refl eq_refl eq_refl) as (_ & H & _).
  - cbv. discriminate.
  - now rewrite H.
Defined.

(** X8.  A created request survives a restart when it is read through
    [src/internalAuth.js]: with the [Map] empty, the table healthy and no
    older row under the same token, a read up to [expiresAt] finds the
    creation row, renders the page, puts the record back in the [Map] as
    [ABIERTA] and marks the row opened. *)
Theorem created_request_survives_restart {platform : Platform} (env : Env)
    (body : CreateBody) (precliente webhook : string)
    (ahora date_now : Instant) (random_hex : string) (w : World)
    (ahora' now_iso db_now : Instant) :
  js_or (b_preclienteId body) None = Some precliente ->
  js_or (b_webhookUrl body) None = Some webhook ->
  valid_date (ahora + ttl_of body * 60 * 1000) = true ->
  pool_faults w = [] ->
  Sql.select_by_token random_hex (tyc_solicitudes w) = None ->
  ahora' <= ahora + ttl_of body * 60 * 1000 ->
  let s := nueva_solicitud body precliente webhook ahora date_now random_hex in
  let created := post_solicitudes env (Some body) ahora date_now random_hex w in
  let restarted := with_cache [] (snd created) in
  let r := InternalAuth.get_tyc env random_hex ahora' now_iso db_now restarted in
  fst r = Html 200
            (ConsentPage precliente (expiresAt s) random_hex (Some false))
  /\ solicitudesTyC (snd r)
     = [(random_hex, set_openedAt now_iso (set_estado ABIERTA s))]
  /\ tyc_solicitudes (snd r)
     = tyc_solicitudes w ++
       [Sql.opened db_now
          (insert_values s (createHash_sha256_hex random_hex))]
  /\ outbox (snd r) = outbox w.
Proof.
  intros Hp Hw Hv Hf Hfresh Hle. cbv zeta.
  assert (next_query_fails w = false) as Hq
    by (unfold next_query_fails; now rewrite Hf).
  rewrite (creation_success env body precliente webhook) by assumption.
  cbn [snd].
  set (s := nueva_solicitud body precliente webhook ahora date_now random_hex).
  set (row := insert_values s (createHash_sha256_hex random_hex)).
  set (w0 := with_cache [] _).
  assert (next_query_fails w0 = false) as Hq0
    by (unfold next_query_fails, w0; cbn; now rewrite Hf).
  assert (Sql.select_by_token random_hex (tyc_solicitudes w0) = Some row) as Hr.
  { unfold w0. cbn [tyc_solicitudes with_cache with_table].
    apply (select_after_insert random_hex row); [exact Hfresh | reflexivity]. }
  assert (InternalAuth.rehydrate row = s) as Hre
    by apply rehydrate_insert_values.
  rewrite (I_get_rehydrate env random_hex row) by (try assumption; reflexivity).
  unfold rehydrated. rewrite Hre.
  rewrite (I_get_live env random_hex s).
  - cbn [estado s nueva_solicitud Estado_eqb fst snd].
    rewrite try_query_ok.
    + cbn. rewrite String.eqb_refl.
      split; [reflexivity|]. split; [reflexivity|]. split; [|reflexivity].
      apply (update_opened_after_insert random_hex db_now row);
        [exact Hfresh | reflexivity].
    + unfold next_query_fails. cbn. now rewrite Hf.
  - cbn. now rewrite String.eqb_refl.
  - apply live_when_not_past. exact Hle.
Qed.

Lemma created_request_survives_restart_witness :
  let created := post_solicitudes (platform := Examples.tagged_platform)
                   Examples.env0 (Some Examples.body0) 1000 1000 "t9"
                   Examples.w_creada in
  let r := InternalAuth.get_tyc (platform := Examples.tagged_platform)
             Examples.env0 "t9" 5000 5000 5100
             (with_cache [] (snd created)) in
  status_of (fst r) = 200
  /\ map Sql.opened_at (tyc_solicitudes (snd r)) = [None; Some 5100].
Proof.
  cbv zeta.
  destruct (created_request_survives_restart
              (platform := Examples.tagged_platform) Examples.env0
              Examples.body0 "P-1" "https://n8n.example/hook" 1000 1000 "t9"
              Examples.w_creada 5000 5000 5100
              eq_refl eq_refl eq_refl eq_refl eq_refl)
    as (H1 & _ & H3 & _).
  - cbv. discriminate.
  - rewrite H1, H3. split; reflexivity.
Defined.

(** X9.  The expiry test is strict ([expira < ahora]): a link that is
    [CREADA] or [ABIERTA] still works at the very instant [expiresAt] and is
    expired one millisecond later, for the read, the accept and the sweep
    alike. *)
Theorem link_valid_through_expiresAt {platform : Platform} (env : Env)
    (a : Attempt) (token : string) (s : Solicitud)
    (now_iso db_now : Instant) (w : World) :
  Map_get token (solicitudesTyC w) = Some s ->
  estado s = CREADA \/ estado s = ABIERTA ->
  status_of (fst (T_attempt env a token (expiresAt s) now_iso w)) = 200
  /\ fst (T_attempt env a token (expiresAt s + 1) now_iso w)
     = expired_answer a
  /\ status_of
       (fst (I_attempt env Read token (expiresAt s) now_iso db_now w)) = 200
  /\ fst (I_attempt env a token (expiresAt s + 1) now_iso db_now w)
     = expired_answer a
  /\ sweepable (expiresAt s) s = false
  /\ sweepable (expiresAt s + 1) s = true.
Proof.
  intros Hg He.
  assert (estado s <> ACEPTADA) as Hna by (destruct He; congruence).
  assert (vencida (expiresAt s) s = false) as Hlive
    by (unfold vencida; apply Z.ltb_irrefl).
  assert (vencida (expiresAt s + 1) s = true) as Hpast
    by (unfold vencida; apply Z.ltb_lt; lia).
  assert (vencida (expiresAt s) s
          && negb (Estado_eqb (estado s) ACEPTADA) = false) as Hc
    by (now rewrite Hlive).
  split; [|split; [|split; [|split; [|split]]]].
  - destruct a as [|req]; cbn [T_attempt].
    + now rewrite (T_get_live env token s).
    + now rewrite (T_accept_first env token s).
  - now rewrite (T_attempt_expire env a token s).
  - cbn [I_attempt]. now rewrite (I_get_live env token s).
  - now rewrite (I_attempt_expire env a token s).
  - unfold sweepable. rewrite Hlive. apply andb_false_r.
  - unfold sweepable. rewrite Hpast.
    destruct He as [-> | ->]; reflexivity.
Qed.

Lemma link_valid_through_expiresAt_witness :
  status_of
    (fst (T_attempt (platform := Examples.tagged_platform) Examples.env0
            (Accept Examples.browser) "t1" 61000 61000 Examples.w_creada))
  = 200
  /\ status_of
       (fst (I_attempt (platform := Examples.tagged_platform) Examples.env0
               (Accept Examples.browser) "t1" 61001 61001 61001
               Examples.w_creada)) = 410.
Proof.
  destruct (link_valid_through_expiresAt
              (platform := Examples.tagged_platform) Examples.env0
              (Accept Examples.browser) "t1" Examples.creada 61000 61000
              Examples.w_creada eq_refl (or_introl eq_refl))
    as (H1 & _).
  destruct (link_valid_through_expiresAt
              (platform := Examples.tagged_platform) Examples.env0
              (Accept Examples.browser) "t1" Examples.creada 61001 61001
              Examples.w_creada eq_refl (or_introl eq_refl))
    as (_ & _ & _ & H4 & _).
  split; [exact H1|]. cbn [expiresAt Examples.creada] in H4.
  change (61000 + 1) with 61001 in H4. now rewrite H4.
Defined.



(** X11.  Through [src/internalAuth.js] the first read of a live [CREADA]
    record marks it [ABIERTA] in the [Map] and, the table being reachable,
    sends the opened-at update: every row of the token gets an [opened_at]
    if it had none and goes from [CREADA] to [ABIERTA].  A later read while
    the link is live leaves the [Map] and the table as the first read left
    them, whether or not its own update goes through. *)
Theorem I_first_read_opens_once {platform : Platform} (env : Env)
    (token : string) (s : Solicitud)
    (ahora now_iso db_now ahora' now_iso' db_now' : Instant) (w : World) :
  Map_get token (solicitudesTyC w) = Some s ->
  estado s = CREADA ->
  ahora <= expiresAt s ->
  ahora' <= expiresAt s ->
  next_query_fails w = false ->
  let first := InternalAuth.get_tyc env token ahora now_iso db_now w in
  let second :=
    InternalAuth.get_tyc env token ahora' now_iso' db_now' (snd first) in
  Map_get token (solicitudesTyC (snd first))
  = Some (set_openedAt now_iso (set_estado ABIERTA s))
  /\ tyc_solicitudes (snd first)
     = Sql.update_opened token db_now (tyc_solicitudes w)
  /\ (forall r, In r (tyc_solicitudes (snd first)) -> Sql.token r = token ->
        Sql.opened_at r <> None /\ Sql.estado r <> CREADA)
  /\ fst second = fst first
  /\ solicitudesTyC (snd second) = solicitudesTyC (snd first)
  /\ tyc_solicitudes (snd second) = tyc_solicitudes (snd first)
  /\ outbox (snd second) = outbox w.
Proof.
  intros Hg He Hle Hle' Hq. cbv zeta.
  rewrite (I_get_live env token s)
    by (try assumption; now apply live_when_not_past).
  rewrite He. cbn [Estado_eqb fst snd].
  set (s1 := set_openedAt now_iso (set_estado ABIERTA s)).
  rewrite try_query_ok by exact Hq. cbn [snd].
  set (w1 := with_table _ _).
  assert (Map_get token (solicitudesTyC w1) = Some s1) as Hg1
    by (unfold w1; cbn; apply Map_get_set_same).
  rewrite (I_get_live env token s1)
    by (try assumption; now apply live_when_not_past).
  cbn [estado s1 set_openedAt set_estado Estado_eqb fst snd].
  rewrite try_query_table.
  match goal with |- context [try_query ?q ?l ?x] =>
    destruct (try_query_keeps q l x) as [Hk Ho] end.
  rewrite Hk, Ho.
  split; [exact Hg1|]. split; [reflexivity|]. split; [|split; [reflexivity|]].
  - unfold w1. cbn [tyc_solicitudes with_table with_cache with_faults].
    unfold Sql.update_opened. intros r Hin Ht.
    apply in_map_iff in Hin. destruct Hin as (r0 & <- & _).
    destruct (String.eqb (Sql.token r0) token) eqn:E.
    + unfold Sql.opened. cbn.
      split; [destruct (Sql.opened_at r0); discriminate|].
      destruct (Sql.estado r0); discriminate.
    + apply String.eqb_neq in E. contradiction.
  - split; [reflexivity|]. split; [|reflexivity].
    destruct (next_query_fails w1); [reflexivity|].
    unfold w1. cbn [tyc_solicitudes with_table with_cache with_faults].
    apply update_opened_idem.
Qed.

Lemma I_first_read_opens_once_witness :
  let first := InternalAuth.get_tyc (platform := Examples.tagged_platform)
                 Examples.env0 "t1" 2000 2000 2100 Examples.w_creada in
  let second := InternalAuth.get_tyc (platform := Examples.tagged_platform)
                  Examples.env0 "t1" 9000 9000 9100 (snd first) in
  map Sql.opened_at (tyc_solicitudes (snd second)) = [Some 2100]
  /\ map Sql.estado (tyc_solicitudes (snd second)) = [ABIERTA].
Proof.
  cbv zeta.
  destruct (I_first_read_opens_once (platform := Examples.tagged_platform)
              Examples.env0 "t1" Examples.creada 2000 2000 2100 9000 9000 9100
              Examples.w_creada eq_refl eq_refl)
    as (_ & H2 & _ & _ & _ & H6 & _).
  - cbv. discriminate.
  - cbv. discriminate.
  - reflexivity.
  - rewrite H6, H2. split; reflexivity.
Defined.

(* ------------------------------------------------------------------ *)
(** ** What an attempt leaves alone *)

Section FrameFacts.

Context {platform : Platform}.
Variable env : Env.
Implicit Types (token : string) (s : Solicitud) (w : World) (a : Attempt).

Lemma same_request_refl s : same_request s s.
Proof. repeat split. Qed.

Lemma row_advances_refl (r : Sql.row) : row_advances r r.
Proof. repeat split; auto. Qed.

Lemma Forall2_map_same {A : Type} (P : A -> A -> Prop) (f : A -> A)
    (l : list A) :
  (forall x, P x (f x)) -> Forall2 P l (map f l).
Proof.
  intros H. induction l; simpl; constructor; auto.
Qed.

Lemma row_step_refl token (t : Sql.table) : Forall2 (row_step token) t t.
Proof.
  rewrite <- (map_id t) at 2. apply Forall2_map_same.
  intros r. split; [apply row_advances_refl | reflexivity].
Qed.

Lemma row_step_update_estado token e (t : Sql.table) :
  Forall2 (row_step token) t (Sql.update_estado token e t).
Proof.
  apply Forall2_map_same. intros r.
  destruct (String.eqb (Sql.token r) token) eqn:E.
  - split; [repeat split; auto|].
    apply String.eqb_eq in E. congruence.
  - split; [apply row_advances_refl | reflexivity].
Qed.

Lemma row_step_update_opened token now (t : Sql.table) :
  Forall2 (row_step token) t (Sql.update_opened token now t).
Proof.
  apply Forall2_map_same. intros r.
  destruct (String.eqb (Sql.token r) token) eqn:E.
  - split.
    + repeat split; auto. intros t0 Ht. cbn. now rewrite Ht.
    + apply String.eqb_eq in E. congruence.
  - split; [apply row_advances_refl | reflexivity].
Qed.

Lemma row_step_update_accepted token ip now (t : Sql.table) :
  Forall2 (row_step token) t (snd (Sql.update_accepted token ip now t)).
Proof.
  unfold Sql.update_accepted. cbn [snd].
  apply Forall2_map_same. intros r.
  destruct (Sql.accept_matches token r) eqn:E.
  - unfold Sql.accept_matches in E. apply andb_prop in E.
    destruct E as [Et En]. apply String.eqb_eq in Et.
    split; [|congruence].
    repeat split; auto. intros t0 Ht. rewrite Ht in En. discriminate.
  - split; [apply row_advances_refl | reflexivity].
Qed.

Lemma row_step_try_query token (q : Sql.table -> Sql.table) line w :
  (forall t, Forall2 (row_step token) t (q t)) ->
  Forall2 (row_step token) (tyc_solicitudes w)
    (tyc_solicitudes (snd (try_query q line w))).
Proof.
  intros H. rewrite try_query_table.
  destruct (next_query_fails w); [apply row_step_refl | apply H].
Qed.

Lemma I_accept_already token s req ahora now_iso db_now w :
  Map_get token (solicitudesTyC w) = Some s ->
  vencida ahora s && negb (Estado_eqb (estado s) ACEPTADA) = false ->
  acceptedAt s <> None ->
  snd (InternalAuth.post_aceptar env token req ahora now_iso db_now w) = w.
Proof.
  intros Hg Hc Ha. unfold InternalAuth.post_aceptar. run_handler.
  rewrite Hg, Hc.
  destruct (acceptedAt s); [|now contradiction Ha].
  now rewrite orb_true_r.
Qed.

(** With the record in the [Map], an attempt through
    [src/internalAuth.js] rewrites at most that entry of the [Map] and
    advances the rows of the table. *)
Lemma I_hit_frame a token s ahora now_iso db_now w :
  Map_get token (solicitudesTyC w) = Some s ->
  let w' := snd (I_attempt env a token ahora now_iso db_now w) in
  Forall2 (row_step token) (tyc_solicitudes w) (tyc_solicitudes w')
  /\ exists s',
       solicitudesTyC w' = Map_set token s' (solicitudesTyC w)
       /\ same_request s s'
       /\ (forall t, acceptedAt s = Some t -> acceptedAt s' = Some t).
Proof.
  intros Hg. cbv zeta.
  assert (solicitudesTyC w = Map_set token s (solicitudesTyC w)) as Hsame
    by (symmetry; now apply Map_set_same_value).
  destruct (vencida ahora s && negb (Estado_eqb (estado s) ACEPTADA)) eqn:Hc.
  - apply andb_prop in Hc. destruct Hc as [Hv He].
    apply negb_true_iff, Estado_eqb_neq in He.
    rewrite (I_attempt_expire env a token s) by assumption. cbn [snd].
    destruct (Estado_eqb (estado s) EXPIRADA) eqn:Ee.
    + apply Estado_eqb_eq in Ee. rewrite expirar_again by assumption.
      cbn [snd]. split; [apply row_step_refl|].
      exists s. split; [exact Hsame|]. split; [apply same_request_refl | intros; congruence].
    + apply Estado_eqb_neq in Ee. rewrite expirar_fresh by assumption.
      cbn [snd].
      match goal with |- context [sendWebhook env ?x ?y ?z] =>
        destruct (sendWebhook_keeps env x y z) as (Hk & Ht & _) end.
      rewrite Hk, Ht.
      match goal with |- context [try_query ?q ?l ?x] =>
        destruct (try_query_keeps q l x) as [Hk' _];
        pose proof (row_step_try_query token q l x
                      (row_step_update_estado token EXPIRADA)) as Hrows
      end.
      rewrite Hk'. split; [exact Hrows|].
      exists (set_estado EXPIRADA s). repeat split. auto.
  - destruct a as [|req]; cbn [I_attempt].
    + rewrite (I_get_live env token s) by assumption. cbn [snd].
      match goal with |- context [try_query ?q ?l ?x] =>
        destruct (try_query_keeps q l x) as [Hk' _];
        pose proof (row_step_try_query token q l x
                      (row_step_update_opened token db_now)) as Hrows
      end.
      rewrite Hk'.
      destruct (Estado_eqb (estado s) CREADA).
      * split; [exact Hrows|].
        exists (set_openedAt now_iso (set_estado ABIERTA s)).
        repeat split. auto.
      * split; [exact Hrows|].
        exists s. split; [exact Hsame|].
        split; [apply same_request_refl | intros; congruence].
    + destruct (acceptedAt s) as [t0|] eqn:Ha.
      { rewrite (I_accept_already token s) by (try assumption; congruence).
        split; [apply row_step_refl|].
        exists s. split; [exact Hsame|].
        split; [apply same_request_refl | intros; congruence]. }
      destruct (Estado_eqb (estado s) ACEPTADA) eqn:Ea.
      { apply Estado_eqb_eq in Ea.
        rewrite (I_accept_accepted env token s) by assumption. cbn [snd].
        split; [apply row_step_refl|].
        exists s. split; [exact Hsame|].
        split; [apply same_request_refl | intros; congruence]. }
      assert (vencida ahora s = false) as Hv
        by (now rewrite andb_true_r in Hc).
      apply Estado_eqb_neq in Ea.
      destruct (next_query_fails w) eqn:Hq.
      * rewrite (I_accept_write_fault env token s) by assumption. cbn [snd].
        split; [apply row_step_refl|].
        exists s. split; [exact Hsame|].
        split; [apply same_request_refl | discriminate].
      * rewrite (I_accept_first env token s) by assumption. cbn [snd].
        match goal with |- context [sendWebhook env ?x ?y ?z] =>
          destruct (sendWebhook_keeps env x y z) as (Hk & Ht & _) end.
        rewrite Hk, Ht.
        cbn [tyc_solicitudes solicitudesTyC with_console with_cache with_table].
        split; [apply row_step_update_accepted|].
        eexists. split; [reflexivity|]. split; [repeat split | discriminate].
Qed.

(** The same for [src/tycRoutes.js], whose attempts leave the table as it
    is. *)
Lemma T_hit_frame a token s ahora now_iso w :
  Map_get token (solicitudesTyC w) = Some s ->
  let w' := snd (T_attempt env a token ahora now_iso w) in
  exists s',
    solicitudesTyC w' = Map_set token s' (solicitudesTyC w)
    /\ same_request s s'.
Proof.
  intros Hg. cbv zeta.
  assert (solicitudesTyC w = Map_set token s (solicitudesTyC w)) as Hsame
    by (symmetry; now apply Map_set_same_value).
  destruct (vencida ahora s && negb (Estado_eqb (estado s) ACEPTADA)) eqn:Hc.
  - apply andb_prop in Hc. destruct Hc as [Hv He].
    apply negb_true_iff, Estado_eqb_neq in He.
    rewrite (T_attempt_expire env a token s) by assumption. cbn [snd].
    match goal with |- context [sendWebhook env ?x ?y ?z] =>
      destruct (sendWebhook_keeps env x y z) as (Hk & _ & _) end.
    rewrite Hk. exists (set_estado EXPIRADA s). repeat split.
  - destruct a as [|req]; cbn [T_attempt].
    + rewrite (T_get_live env token s) by assumption. cbn [snd].
      destruct (Estado_eqb (estado s) CREADA).
      * eexists. split; [reflexivity | repeat split].
      * exists s. split; [exact Hsame | apply same_request_refl].
    + destruct (Estado_eqb (estado s) ACEPTADA) eqn:Ea.
      { apply Estado_eqb_eq in Ea.
        rewrite (T_accept_accepted env token s) by assumption.
        exists s. split; [exact Hsame | apply same_request_refl]. }
      assert (vencida ahora s = false) as Hv
        by (now rewrite andb_true_r in Hc).
      apply Estado_eqb_neq in Ea.
      rewrite (T_accept_first env token s) by assumption. cbn [snd].
      match goal with |- context [sendWebhook env ?x ?y ?z] =>
        destruct (sendWebhook_keeps env x y z) as (Hk & _ & _) end.
      rewrite Hk. eexists. split; [reflexivity | repeat split].
Qed.

(** A miss through [src/internalAuth.js]: either the world keeps its [Map]
    and its table, or the attempt goes on from the rehydrated world. *)
Lemma I_miss_cases a token ahora now_iso db_now w :
  Map_get token (solicitudesTyC w) = None ->
  let w' := snd (I_attempt env a token ahora now_iso db_now w) in
  (solicitudesTyC w' = solicitudesTyC w
   /\ tyc_solicitudes w' = tyc_solicitudes w)
  \/ exists row,
       Sql.select_by_token token (tyc_solicitudes w) = Some row
       /\ w' = snd (I_attempt env a token ahora now_iso db_now
                      (rehydrated token row w)).
Proof.
  intros Hm. cbv zeta.
  destruct (next_query_fails w) eqn:Hq.
  - left. destruct a; cbn [I_attempt].
    + now rewrite I_get_read_fault.
    + now rewrite I_accept_read_fault.
  - destruct (Sql.select_by_token token (tyc_solicitudes w)) as [row|] eqn:Hr.
    + right. exists row. split; [reflexivity|].
      now rewrite (I_attempt_rehydrate env a token row).
    + left. now rewrite I_attempt_unknown.
Qed.

End FrameFacts.

(** X12.  Whatever the state of the [Map] and of the table, a read or an
    accept attempt on a token through [src/internalAuth.js] keeps every row
    of the table in place and leaves the rows of every other token
    untouched.  On the rows of that token it keeps [tyc_solicitud_id],
    [precliente_id], [token], [token_hash], [canal], [webhook_url],
    [metadata], [created_at] and [expires_at], and never overwrites or
    clears an [opened_at] or an [accepted_at] that is already set; [estado]
    and [accepted_ip] are the columns it may change. *)
Theorem I_attempt_advances_rows {platform : Platform} (env : Env)
    (a : Attempt) (token : string) (ahora now_iso db_now : Instant)
    (w : World) :
  Forall2 (row_step token) (tyc_solicitudes w)
    (tyc_solicitudes (snd (I_attempt env a token ahora now_iso db_now w))).
Proof.
  destruct (Map_get token (solicitudesTyC w)) as [s|] eqn:Hg.
  - exact (proj1 (I_hit_frame env a token s ahora now_iso db_now w Hg)).
  - destruct (I_miss_cases env a token ahora now_iso db_now w Hg)
      as [[_ Ht] | (row & Hr & Hw)].
    + rewrite Ht. apply row_step_refl.
    + rewrite Hw.
      assert (Map_get token (solicitudesTyC (rehydrated token row w))
              = Some (InternalAuth.rehydrate row)) as Hg'
        by (unfold rehydrated; cbn; apply Map_get_set_same).
      exact (proj1 (I_hit_frame env a token _ ahora now_iso db_now _ Hg')).
Qed.

(** X13.  An attempt on one token, through either copy of the handlers,
    leaves the cached record of every other token exactly as it was. *)
Theorem attempt_leaves_other_tokens {platform : Platform} (env : Env)
    (a : Attempt) (token other : string) (ahora now_iso db_now : Instant)
    (w : World) :
  other <> token ->
  Map_get other
    (solicitudesTyC (snd (T_attempt env a token ahora now_iso w)))
  = Map_get other (solicitudesTyC w)
  /\ Map_get other
       (solicitudesTyC (snd (I_attempt env a token ahora now_iso db_now w)))
     = Map_get other (solicitudesTyC w).
Proof.
  intros Hne. split.
  - destruct (Map_get token (solicitudesTyC w)) as [s|] eqn:Hg.
    + destruct (T_hit_frame env a token s ahora now_iso w Hg) as (s' & Hc & _).
      rewrite Hc. now apply Map_get_set_other.
    + now rewrite T_attempt_unknown.
  - destruct (Map_get token (solicitudesTyC w)) as [s|] eqn:Hg.
    + destruct (I_hit_frame env a token s ahora now_iso db_now w Hg)
        as (_ & s' & Hc & _).
      rewrite Hc. now apply Map_get_set_other.
    + destruct (I_miss_cases env a token ahora now_iso db_now w Hg)
        as [[Hc _] | (row & Hr & Hw)].
      * now rewrite Hc.
      * rewrite Hw.
        assert (Map_get token (solicitudesTyC (rehydrated token row w))
                = Some (InternalAuth.rehydrate row)) as Hg'
          by (unfold rehydrated; cbn; apply Map_get_set_same).
        destruct (I_hit_frame env a token _ ahora now_iso db_now _ Hg')
          as (_ & s' & Hc & _).
        rewrite Hc. rewrite Map_get_set_other by assumption.
        unfold rehydrated. cbn. now apply Map_get_set_other.
Qed.

Lemma attempt_leaves_other_tokens_witness :
  let w := with_cache [("t1", Examples.creada); ("t2", Examples.abierta)]
             Examples.w_creada in
  Map_get "t2"
    (solicitudesTyC
       (snd (I_attempt (platform := Examples.tagged_platform) Examples.env0
               (Accept Examples.browser) "t1" 5000 5000 5100 w)))
  = Some Examples.abierta.
Proof.
  cbv zeta.
  match goal with |- Map_get _ (solicitudesTyC (snd (I_attempt _ _ _ _ _ _ ?w))) = _ =>
    destruct (attempt_leaves_other_tokens
                (platform := Examples.tagged_platform) Examples.env0
                (Accept Examples.browser) "t1" "t2" 5000 5000 5100 w)
      as [_ H]
  end.
  - discriminate.
  - rewrite H. reflexivity.
Defined.

(** X14.  A cached record is never dropped and never becomes another
    request: after a read or an accept attempt on its token, through either
    copy of the handlers, the [Map] still holds a record under that token
    with the same [tycSolicitudId], [preclienteId], [canal], [token],
    [createdAt], [expiresAt], [webhookUrl] and [metadata].  Through
    [src/internalAuth.js] an [acceptedAt] that is set is never overwritten,
    whatever the state of the record. *)
Theorem attempt_keeps_request {platform : Platform} (env : Env)
    (a : Attempt) (token : string) (s : Solicitud)
    (ahora now_iso db_now : Instant) (w : World) :
  Map_get token (solicitudesTyC w) = Some s ->
  (exists s',
     Map_get token
       (solicitudesTyC (snd (T_attempt env a token ahora now_iso w)))
     = Some s'
     /\ same_request s s')
  /\ (exists s',
        Map_get token
          (solicitudesTyC
             (snd (I_attempt env a token ahora now_iso db_now w)))
        = Some s'
        /\ same_request s s'
        /\ (forall t, acceptedAt s = Some t -> acceptedAt s' = Some t)).
Proof.
  intros Hg. split.
  - destruct (T_hit_frame env a token s ahora now_iso w Hg) as (s' & Hc & Hs).
    exists s'. rewrite Hc. split; [apply Map_get_set_same | exact Hs].
  - destruct (I_hit_frame env a token s ahora now_iso db_now w Hg)
      as (_ & s' & Hc & Hs & Ha).
    exists s'. rewrite Hc. split; [apply Map_get_set_same|]. now split.
Qed.

Lemma attempt_keeps_request_witness :
  Map_get "t1" (solicitudesTyC Examples.w_aceptada) = Some Examples.aceptada
  /\ exists s',
       Map_get "t1"
         (solicitudesTyC
            (snd (I_attempt (platform := Examples.tagged_platform)
                    Examples.env0 (Accept Examples.browser) "t1" 70000 70000
                    70000 Examples.w_aceptada))) = Some s'
       /\ acceptedAt s' = Some 3000.
Proof.
  split; [reflexivity|].
  destruct (attempt_keeps_request (platform := Examples.tagged_platform)
              Examples.env0 (Accept Examples.browser) "t1" Examples.aceptada
              70000 70000 70000 Examples.w_aceptada eq_refl)
    as (_ & s' & Hs & _ & Ha).
  exists s'. split; [exact Hs | exact (Ha 3000 eq_refl)].
Defined.

(* ------------------------------------------------------------------ *)
(** ** Sweeping again, and what the sweep posts *)

Section SweepAgain.

Context {platform : Platform}.
Variable env : Env.
Implicit Types (m : list (string * Solicitud)) (w : World).

Lemma sweepable_expired ahora s :
  sweepable ahora (set_estado EXPIRADA s) = false.
Proof. reflexivity. Qed.

Lemma sweepable_later ahora ahora' s :
  ahora <= ahora' -> sweepable ahora s = true -> sweepable ahora' s = true.
Proof.
  unfold sweepable, vencida. intros Hle H.
  apply andb_prop in H. destruct H as [He Hv].
  rewrite He. apply Z.ltb_lt in Hv. apply Z.ltb_lt. lia.
Qed.

Lemma sweep_entry_again ahora ahora' e :
  ahora <= ahora' ->
  sweep_entry ahora' (sweep_entry ahora e) = sweep_entry ahora' e.
Proof.
  intros Hle. destruct e as [k s]. unfold sweep_entry. cbn [fst snd].
  destruct (sweepable ahora s) eqn:E; [|reflexivity].
  rewrite sweepable_expired.
  now rewrite (sweepable_later ahora ahora' s Hle E).
Qed.

Lemma sweep_count_again ahora ahora' m :
  ahora <= ahora' ->
  sweep_count ahora' (map (sweep_entry ahora) m)
  = sweep_count ahora' m - sweep_count ahora m.
Proof.
  intros Hle. induction m as [|[k s] m IH]; [reflexivity|].
  cbn [map]. rewrite !sweep_count_cons, IH.
  unfold sweep_entry at 1. cbn [fst snd].
  destruct (sweepable ahora s) eqn:E.
  - rewrite sweepable_expired, (sweepable_later ahora ahora' s Hle E). lia.
  - destruct (sweepable ahora' s); lia.
Qed.

Lemma sweep_posts_again ahora m :
  sweep_posts env ahora (map (sweep_entry ahora) m) = [].
Proof.
  induction m as [|[k s] m IH]; [reflexivity|].
  cbn [map]. unfold sweep_posts. cbn [flat_map].
  fold (sweep_posts env ahora (map (sweep_entry ahora) m)). rewrite IH.
  unfold sweep_entry. cbn [fst snd].
  destruct (sweepable ahora s) eqn:E.
  - now rewrite sweepable_expired.
  - now rewrite E.
Qed.

Lemma Map_keys_sweep ahora m :
  Map_keys (map (sweep_entry ahora) m) = Map_keys m.
Proof.
  unfold Map_keys. rewrite map_map. apply map_ext. now intros [k s].
Qed.

Lemma sweep_count_nonneg ahora m : 0 <= sweep_count ahora m.
Proof. unfold sweep_count. lia. Qed.

Lemma dispatch_expiry_notice s :
  Forall expiry_notice (dispatch env (set_estado EXPIRADA s) "TYC_EXPIRADA").
Proof.
  unfold dispatch.
  destruct (js_or (webhookUrl (set_estado EXPIRADA s)) None);
    repeat constructor.
Qed.

Lemma dispatch_length s evento :
  (List.length (dispatch env s evento) <= 1)%nat
  /\ (js_or (webhookUrl s) None <> None ->
      List.length (dispatch env s evento) = 1%nat).
Proof.
  unfold dispatch. destruct (js_or (webhookUrl s) None); cbn.
  - split; [lia | reflexivity].
  - split; [lia | intros H; now contradiction H].
Qed.

Lemma sweep_posts_spec ahora m :
  Forall expiry_notice (sweep_posts env ahora m)
  /\ Z.of_nat (List.length (sweep_posts env ahora m)) <= sweep_count ahora m
  /\ ((forall e, In e m -> js_or (webhookUrl (snd e)) None <> None) ->
      Z.of_nat (List.length (sweep_posts env ahora m)) = sweep_count ahora m).
Proof.
  induction m as [|[k s] m (IH1 & IH2 & IH3)].
  - repeat split; [constructor | reflexivity].
  - unfold sweep_posts. cbn [flat_map]. fold (sweep_posts env ahora m).
    rewrite sweep_count_cons, length_app, Nat2Z.inj_add. cbn [snd].
    destruct (sweepable ahora s) eqn:E.
    + destruct (dispatch_length (set_estado EXPIRADA s) "TYC_EXPIRADA")
        as [Hle Heq].
      split; [|split].
      * apply Forall_app. split; [apply dispatch_expiry_notice | exact IH1].
      * lia.
      * intros Hall.
        rewrite Heq by (apply (Hall (k, s)); now left).
        rewrite IH3 by (intros e He; apply Hall; now right). lia.
    + split; [|split].
      * exact IH1.
      * cbn [List.length]. lia.
      * intros Hall. cbn [List.length].
        rewrite IH3 by (intros e He; apply Hall; now right). lia.
Qed.

End SweepAgain.

(** X15.  No record is expired twice by the sweep: two sweeps in a row,
    the second no earlier than the first, together count as many records as
    one sweep at the later time and leave the [Map] as that one sweep
    would; a second sweep at the same time counts 0, posts nothing and
    changes nothing in the [Map]. *)
Theorem sweep_again {platform : Platform} (env : Env)
    (ahora ahora' : Instant) (w : World) :
  Map_wf (solicitudesTyC w) ->
  ahora <= ahora' ->
  let first := check_expired env ahora w in
  let second := check_expired env ahora' (snd first) in
  let once := check_expired env ahora' w in
  expiradas_of (fst first) + expiradas_of (fst second)
  = expiradas_of (fst once)
  /\ 0 <= expiradas_of (fst second)
  /\ solicitudesTyC (snd second) = solicitudesTyC (snd once)
  /\ (ahora' = ahora ->
      expiradas_of (fst second) = 0
      /\ outbox (snd second) = outbox (snd first)
      /\ solicitudesTyC (snd second) = solicitudesTyC (snd first)).
Proof.
  intros Hwf Hle. cbv zeta.
  destruct (check_expired_spec env ahora w Hwf) as (A1 & A2 & _ & A4 & _).
  destruct (check_expired_spec env ahora' w Hwf) as (B1 & B2 & _).
  assert (Map_wf (solicitudesTyC (snd (check_expired env ahora w)))) as Hwf1.
  { rewrite A2. unfold Map_wf. now rewrite Map_keys_sweep. }
  destruct (check_expired_spec env ahora' _ Hwf1) as (C1 & C2 & _ & C4 & _).
  assert (expiradas_of (fst (check_expired env ahora w))
          = sweep_count ahora (solicitudesTyC w)) as E1
    by (rewrite A1; reflexivity).
  assert (expiradas_of (fst (check_expired env ahora' w))
          = sweep_count ahora' (solicitudesTyC w)) as E2
    by (rewrite B1; reflexivity).
  assert (expiradas_of
            (fst (check_expired env ahora' (snd (check_expired env ahora w))))
          = sweep_count ahora' (solicitudesTyC w)
            - sweep_count ahora (solicitudesTyC w)) as E3.
  { rewrite C1, A2. rewrite <- (sweep_count_again ahora ahora') by assumption.
    reflexivity. }
  rewrite E1, E2, E3, C2, B2, A2.
  split; [lia|]. split.
  - rewrite <- (sweep_count_again ahora ahora') by assumption.
    apply sweep_count_nonneg.
  - split.
    + rewrite map_map. apply map_ext. intros e. now apply sweep_entry_again.
    + intros ->. split; [lia|]. split.
      * rewrite C4, A2, sweep_posts_again. apply app_nil_r.
      * rewrite map_map. apply map_ext. intros e.
        apply sweep_entry_again. lia.
Qed.

Lemma sweep_again_witness :
  let first := check_expired (platform := Examples.tagged_platform)
                 Examples.env0 70000 Examples.w_creada in
  let second := check_expired (platform := Examples.tagged_platform)
                  Examples.env0 70000 (snd first) in
  expiradas_of (fst first) = 1
  /\ expiradas_of (fst second) = 0
  /\ outbox (snd second) = outbox (snd first).
Proof.
  cbv zeta.
  destruct (sweep_again (platform := Examples.tagged_platform) Examples.env0
              70000 70000 Examples.w_creada) as (_ & _ & _ & H).
  - repeat constructor. simpl. tauto.
  - lia.
  - destruct (H eq_refl) as (H0 & Ho & _).
    split; [reflexivity|]. split; [exact H0 | exact Ho].
Defined.

(** X16.  Everything the sweep posts is an expiry notice (event
    ["TYC_EXPIRADA"], payload [estado] ["EXPIRADA"]), added after what the
    outbox held; there are never more posts than the count in the answer,
    and exactly as many when every cached record has a webhook URL. *)
Theorem sweep_posts_expiry_notices {platform : Platform} (env : Env)
    (ahora : Instant) (w : World) :
  Map_wf (solicitudesTyC w) ->
  let r := check_expired env ahora w in
  exists posts,
    outbox (snd r) = outbox w ++ posts
    /\ Forall expiry_notice posts
    /\ Z.of_nat (List.length posts) <= expiradas_of (fst r)
    /\ ((forall e, In e (solicitudesTyC w) ->
                   js_or (webhookUrl (snd e)) None <> None) ->
        Z.of_nat (List.length posts) = expiradas_of (fst r)).
Proof.
  intros Hwf. cbv zeta.
  destruct (check_expired_spec env ahora w Hwf) as (A1 & _ & _ & A4 & _).
  destruct (sweep_posts_spec env ahora (solicitudesTyC w)) as (P1 & P2 & P3).
  assert (expiradas_of (fst (check_expired env ahora w))
          = sweep_count ahora (solicitudesTyC w)) as E1
    by (rewrite A1; reflexivity).
  exists (sweep_posts env ahora (solicitudesTyC w)).
  rewrite E1. repeat split; assumption.
Qed.

Lemma sweep_posts_expiry_notices_witness :
  let w := with_cache
             [ ("t1", Examples.creada); ("t2", Examples.sin_webhook);
               ("t3", Examples.aceptada) ] Examples.empty_world in
  let r := check_expired (platform := Examples.tagged_platform)
             Examples.env0 70000 w in
  expiradas_of (fst r) = 2
  /\ exists posts, outbox (snd r) = posts /\ Forall expiry_notice posts
                   /\ List.length posts = 1%nat.
Proof.
  cbv zeta. split; [reflexivity|].
  match goal with |- context [check_expired _ _ ?w] =>
    destruct (sweep_posts_expiry_notices
                (platform := Examples.tagged_platform) Examples.env0 70000 w)
      as (posts & Ho & Hn & _)
  end.
  - repeat constructor; simpl; intuition discriminate.
  - exists posts. split; [exact Ho|]. split; [exact Hn|].
    cbn in Ho. rewrite <- Ho. reflexivity.
Defined.

(* ------------------------------------------------------------------ *)
(** ** Accepting a link *)

(** X17.  Through [src/internalAuth.js], the first acceptance of a live
    record that has a webhook URL, with the table reachable, posts exactly
    one notice to that URL: event ["TYC_ACEPTADA"], payload [estado]
    ["ACEPTADA"], and the same [acceptedAt], [tycSolicitudId] and
    [preclienteId] as the answer given to the caller. *)
Theorem I_acceptance_notice_matches_answer {platform : Platform} (env : Env)
    (token : string) (s : Solicitud) (req : AcceptRequest)
    (ahora now_iso db_now : Instant) (w : World) (webhook : string) :
  Map_get token (solicitudesTyC w) = Some s ->
  ahora <= expiresAt s ->
  estado s <> ACEPTADA ->
  acceptedAt s = None ->
  next_query_fails w = false ->
  js_or (webhookUrl s) None = Some webhook ->
  let r := InternalAuth.post_aceptar env token req ahora now_iso db_now w in
  exists p,
    outbox (snd r) = outbox w ++ [p]
    /\ url p = webhook
    /\ x_ama_event p = "TYC_ACEPTADA"
    /\ field "estado" (data p) = Some (JStr "ACEPTADA")
    /\ field "acceptedAt" (data p) = field "acceptedAt" (body_of (fst r))
    /\ field "acceptedAt" (data p) <> Some JNull
    /\ field "tycSolicitudId" (data p)
       = field "tycSolicitudId" (body_of (fst r))
    /\ field "preclienteId" (data p)
       = field "preclienteId" (body_of (fst r)).
Proof.
  intros Hg Hle He Ha Hq Hu. cbv zeta.
  assert (vencida ahora s = false) as Hv
    by (unfold vencida; apply Z.ltb_ge; exact Hle).
  rewrite (I_accept_first env token s) by assumption. cbn [fst snd].
  rewrite sendWebhook_outbox. unfold dispatch.
  cbn [webhookUrl set_accepted set_estado]. rewrite Hu.
  eexists. split; [reflexivity|]. cbn. repeat split. discriminate.
Qed.

Lemma I_acceptance_notice_matches_answer_witness :
  let r := InternalAuth.post_aceptar (platform := Examples.tagged_platform)
             Examples.env0 "t1" Examples.browser 5000 5000 5100
             Examples.w_creada in
  exists p,
    outbox (snd r) = [p]
    /\ field "acceptedAt" (data p) = Some (JDate 5100)
    /\ field "acceptedAt" (body_of (fst r)) = Some (JDate 5100).
Proof.
  cbv zeta.
  destruct (I_acceptance_notice_matches_answer
              (platform := Examples.tagged_platform) Examples.env0 "t1"
              Examples.creada Examples.browser 5000 5000 5100
              Examples.w_creada "https://n8n.example/hook" eq_refl)
    as (p & Ho & _ & _ & _ & Hat & _); try reflexivity.
  - cbv. discriminate.
  - discriminate.
  - exists p. split; [exact Ho|]. rewrite Hat. split; reflexivity.
Defined.

(** X18.  Through [src/tycRoutes.js], accepting a live record that is
    [CREADA] or [ABIERTA] (no read is needed first) marks it [ACEPTADA]
    with [acceptedAt] set to the time of the call and [openedAt] as it was,
    and posts exactly one ["TYC_ACEPTADA"] notice carrying that
    [acceptedAt] to the record's webhook URL; any later accept call, even
    after [expiresAt], answers 200 and changes and posts nothing. *)
Theorem T_acceptance_once {platform : Platform} (env : Env)
    (token : string) (s : Solicitud) (req req' : AcceptRequest)
    (ahora now_iso ahora' now_iso' : Instant) (w : World)
    (webhook : string) :
  Map_get token (solicitudesTyC w) = Some s ->
  estado s = CREADA \/ estado s = ABIERTA ->
  ahora <= expiresAt s ->
  js_or (webhookUrl s) None = Some webhook ->
  let first := TycRoutes.post_aceptar env token req ahora now_iso w in
  let second :=
    TycRoutes.post_aceptar env token req' ahora' now_iso' (snd first) in
  status_of (fst first) = 200
  /\ (exists s',
        Map_get token (solicitudesTyC (snd first)) = Some s'
        /\ estado s' = ACEPTADA
        /\ acceptedAt s' = Some now_iso
        /\ openedAt s' = openedAt s)
  /\ (exists p,
        outbox (snd first) = outbox w ++ [p]
        /\ url p = webhook
        /\ x_ama_event p = "TYC_ACEPTADA"
        /\ field "estado" (data p) = Some (JStr "ACEPTADA")
        /\ field "acceptedAt" (data p) = Some (JDate now_iso))
  /\ status_of (fst second) = 200
  /\ snd second = snd first.
Proof.
  intros Hg He Hle Hu. cbv zeta.
  assert (estado s <> ACEPTADA) as Hna by (destruct He; congruence).
  assert (vencida ahora s = false) as Hv
    by (unfold vencida; apply Z.ltb_ge; exact Hle).
  rewrite (T_accept_first env token s) by assumption. cbn [fst snd].
  match goal with |- context [sendWebhook env ?x ?y ?z] =>
    destruct (sendWebhook_keeps env x y z) as (Hk & _ & _);
    pose proof (sendWebhook_outbox env x y z) as Ho;
    assert (Map_get token (solicitudesTyC (snd (sendWebhook env x y z)))
            = Some x) as Hg1
      by (rewrite Hk; cbn; apply Map_get_set_same);
    generalize dependent (snd (sendWebhook env x y z));
    set (aceptada := x)
  end.
  intros w1 Hk Ho Hg1.
  split; [reflexivity|]. split; [|split].
  - exists aceptada. split; [exact Hg1 | repeat split].
  - rewrite Ho. unfold dispatch.
    cbn [webhookUrl aceptada set_accepted set_estado]. rewrite Hu.
    eexists. split; [reflexivity|]. cbn. repeat split.
  - rewrite (T_accept_accepted env token aceptada) by (try assumption; reflexivity).
    split; reflexivity.
Qed.

Lemma T_acceptance_once_witness :
  let first := TycRoutes.post_aceptar (platform := Examples.tagged_platform)
                 Examples.env0 "t1" Examples.browser 5000 5000
                 Examples.w_creada in
  let second := TycRoutes.post_aceptar (platform := Examples.tagged_platform)
                  Examples.env0 "t1" Examples.browser 70000 70000
                  (snd first) in
  status_of (fst second) = 200 /\ snd second = snd first.
Proof.
  cbv zeta.
  destruct (T_acceptance_once (platform := Examples.tagged_platform)
              Examples.env0 "t1" Examples.creada Examples.browser
              Examples.browser 5000 5000 70000 70000 Examples.w_creada
              "https://n8n.example/hook" eq_refl (or_introl eq_refl))
    as (_ & _ & _ & H4 & H5); try reflexivity.
  - cbv. discriminate.
  - split; [exact H4 | exact H5].
Defined.

(* ------------------------------------------------------------------ *)
(** ** The caller address *)

Section ClientIp.






End ClientIp.



(* ------------------------------------------------------------------ *)
(** ** The state only moves forward *)

Section Forward.

Context {platform : Platform}.
Variable env : Env.
Implicit Types (token : string) (s : Solicitud) (w : World) (a : Attempt).

Lemma rank_le_done (e : Estado) : estado_rank e <= 2.
Proof. destruct e; cbn; lia. Qed.

Lemma T_hit_rank a token s ahora now_iso w :
  Map_get token (solicitudesTyC w) = Some s ->
  exists s',
    Map_get token (solicitudesTyC (snd (T_attempt env a token ahora now_iso w)))
    = Some s'
    /\ estado_rank (estado s) <= estado_rank (estado s').
Proof.
  intros Hg.
  destruct (vencida ahora s && negb (Estado_eqb (estado s) ACEPTADA)) eqn:Hc.
  - apply andb_prop in Hc. destruct Hc as [Hv He].
    apply negb_true_iff, Estado_eqb_neq in He.
    rewrite (T_attempt_expire env a token s) by assumption. cbn [snd].
    match goal with |- context [sendWebhook env ?x ?y ?z] =>
      destruct (sendWebhook_keeps env x y z) as (Hk & _ & _) end.
    rewrite Hk. exists (set_estado EXPIRADA s).
    split; [apply Map_get_set_same | apply rank_le_done].
  - destruct a as [|req]; cbn [T_attempt].
    + rewrite (T_get_live env token s) by assumption. cbn [snd].
      destruct (Estado_eqb (estado s) CREADA) eqn:Ec.
      * apply Estado_eqb_eq in Ec. eexists.
        split; [apply Map_get_set_same|]. rewrite Ec. cbn. lia.
      * exists s. split; [exact Hg | lia].
    + destruct (Estado_eqb (estado s) ACEPTADA) eqn:Ea.
      { apply Estado_eqb_eq in Ea.
        rewrite (T_accept_accepted env token s) by assumption.
        exists s. split; [exact Hg | lia]. }
      assert (vencida ahora s = false) as Hv
        by (now rewrite andb_true_r in Hc).
      apply Estado_eqb_neq in Ea.
      rewrite (T_accept_first env token s) by assumption. cbn [snd].
      match goal with |- context [sendWebhook env ?x ?y ?z] =>
        destruct (sendWebhook_keeps env x y z) as (Hk & _ & _) end.
      rewrite Hk. eexists.
      split; [apply Map_get_set_same | apply rank_le_done].
Qed.

Lemma I_hit_rank a token s ahora now_iso db_now w :
  Map_get token (solicitudesTyC w) = Some s ->
  exists s',
    Map_get token
      (solicitudesTyC (snd (I_attempt env a token ahora now_iso db_now w)))
    = Some s'
    /\ estado_rank (estado s) <= estado_rank (estado s').
Proof.
  intros Hg.
  destruct (vencida ahora s && negb (Estado_eqb (estado s) ACEPTADA)) eqn:Hc.
  - apply andb_prop in Hc. destruct Hc as [Hv He].
    apply negb_true_iff, Estado_eqb_neq in He.
    rewrite (I_attempt_expire env a token s) by assumption. cbn [snd].
    destruct (Estado_eqb (estado s) EXPIRADA) eqn:Ee.
    + apply Estado_eqb_eq in Ee. rewrite expirar_again by assumption.
      exists s. split; [exact Hg | lia].
    + apply Estado_eqb_neq in Ee. rewrite expirar_fresh by assumption.
      cbn [snd].
      match goal with |- context [sendWebhook env ?x ?y ?z] =>
        destruct (sendWebhook_keeps env x y z) as (Hk & _ & _) end.
      rewrite Hk.
      match goal with |- context [try_query ?q ?l ?x] =>
        destruct (try_query_keeps q l x) as [Hk' _] end.
      rewrite Hk'. exists (set_estado EXPIRADA s).
      split; [apply Map_get_set_same | apply rank_le_done].
  - destruct a as [|req]; cbn [I_attempt].
    + rewrite (I_get_live env token s) by assumption. cbn [snd].
      match goal with |- context [try_query ?q ?l ?x] =>
        destruct (try_query_keeps q l x) as [Hk' _] end.
      rewrite Hk'.
      destruct (Estado_eqb (estado s) CREADA) eqn:Ec.
      * apply Estado_eqb_eq in Ec. eexists.
        split; [apply Map_get_set_same|]. rewrite Ec. cbn. lia.
      * exists s. split; [exact Hg | lia].
    + destruct (acceptedAt s) as [t0|] eqn:Ha.
      { rewrite (I_accept_already env token s) by (try assumption; congruence).
        exists s. split; [exact Hg | lia]. }
      destruct (Estado_eqb (estado s) ACEPTADA) eqn:Ea.
      { apply Estado_eqb_eq in Ea.
        rewrite (I_accept_accepted env token s) by assumption.
        exists s. split; [exact Hg | lia]. }
      assert (vencida ahora s = false) as Hv
        by (now rewrite andb_true_r in Hc).
      apply Estado_eqb_neq in Ea.
      destruct (next_query_fails w) eqn:Hq.
      * rewrite (I_accept_write_fault env token s) by assumption.
        exists s. split; [exact Hg | lia].
      * rewrite (I_accept_first env token s) by assumption. cbn [snd].
        match goal with |- context [sendWebhook env ?x ?y ?z] =>
          destruct (sendWebhook_keeps env x y z) as (Hk & _ & _) end.
        rewrite Hk. eexists.
        split; [apply Map_get_set_same | apply rank_le_done].
Qed.

End Forward.

(** X20.  The state of a cached record only moves forward: after a read or
    an accept attempt on its token (either copy of the handlers) or after
    a sweep, a record that was [ABIERTA] is not [CREADA] again, and one that
    was [ACEPTADA] or [EXPIRADA] is neither [CREADA] nor [ABIERTA]. *)
Theorem estado_moves_forward {platform : Platform} (env : Env)
    (a : Attempt) (token : string) (s : Solicitud)
    (ahora now_iso db_now : Instant) (w : World) :
  Map_get token (solicitudesTyC w) = Some s ->
  (exists s',
     Map_get token
       (solicitudesTyC (snd (T_attempt env a token ahora now_iso w)))
     = Some s'
     /\ estado_rank (estado s) <= estado_rank (estado s'))
  /\ (exists s',
        Map_get token
          (solicitudesTyC
             (snd (I_attempt env a token ahora now_iso db_now w)))
        = Some s'
        /\ estado_rank (estado s) <= estado_rank (estado s'))
  /\ (Map_wf (solicitudesTyC w) ->
      exists s',
        Map_get token (solicitudesTyC (snd (check_expired env ahora w)))
        = Some s'
        /\ estado_rank (estado s) <= estado_rank (estado s')).
Proof.
  intros Hg. split; [|split].
  - now apply T_hit_rank.
  - now apply I_hit_rank.
  - intros Hwf.
    destruct (check_expired_spec env ahora w Hwf) as (_ & H2 & _).
    rewrite H2, Map_get_sweep, Hg.
    destruct (sweepable ahora s).
    + eexists. split; [reflexivity | apply rank_le_done].
    + exists s. split; [reflexivity | lia].
Qed.

Lemma estado_moves_forward_witness :
  Map_get "t1" (solicitudesTyC Examples.w_creada) = Some Examples.creada
  /\ exists s',
       Map_get "t1"
         (solicitudesTyC
            (snd (T_attempt (platform := Examples.tagged_platform)
                    Examples.env0 Read "t1" 5000 5000 Examples.w_creada)))
       = Some s'
       /\ 0 <= estado_rank (estado s').
Proof.
  split; [reflexivity|].
  destruct (estado_moves_forward (platform := Examples.tagged_platform)
              Examples.env0 Read "t1" Examples.creada 5000 5000 5000
              Examples.w_creada eq_refl) as ((s' & Hs & Hr) & _).
  exists s'. split; [exact Hs | exact Hr].
Defined.

(** X21.  When a read or an accept attempt expires a record that has a
    webhook URL, what it posts (through either copy of the handlers) is one
    expiry notice to that URL, naming the request by its [tycSolicitudId]
    and [preclienteId] and carrying its [expiresAt]; through
    [src/internalAuth.js] this holds whether or not the write of [EXPIRADA]
    goes through. *)
Theorem attempt_posts_expiry_notice {platform : Platform} (env : Env)
    (a : Attempt) (token : string) (s : Solicitud)
    (ahora now_iso db_now : Instant) (w : World) (webhook : string) :
  Map_get token (solicitudesTyC w) = Some s ->
  estado s = CREADA \/ estado s = ABIERTA ->
  expiresAt s < ahora ->
  js_or (webhookUrl s) None = Some webhook ->
  exists p,
    outbox (snd (T_attempt env a token ahora now_iso w)) = outbox w ++ [p]
    /\ outbox (snd (I_attempt env a token ahora now_iso db_now w))
       = outbox w ++ [p]
    /\ expiry_notice p
    /\ url p = webhook
    /\ field "tycSolicitudId" (data p) = Some (JStr (tycSolicitudId s))
    /\ field "preclienteId" (data p) = Some (JStr (preclienteId s))
    /\ field "expiresAt" (data p) = Some (JDate (expiresAt s)).
Proof.
  intros Hg He Hlt Hu.
  assert (estado s <> ACEPTADA) as Hna by (destruct He; congruence).
  assert (estado s <> EXPIRADA) as Hne by (destruct He; congruence).
  assert (vencida ahora s = true) as Hv
    by (unfold vencida; now apply Z.ltb_lt).
  exists (webhook_post env webhook (set_estado EXPIRADA s) "TYC_EXPIRADA").
  assert (dispatch env (set_estado EXPIRADA s) "TYC_EXPIRADA"
          = [webhook_post env webhook (set_estado EXPIRADA s) "TYC_EXPIRADA"])
    as Hd.
  { unfold dispatch. cbn [webhookUrl set_estado]. now rewrite Hu. }
  split; [|split].
  - rewrite (T_attempt_expire env a token s) by assumption. cbn [snd].
    now rewrite sendWebhook_outbox, Hd.
  - rewrite (I_attempt_expire env a token s) by assumption. cbn [snd].
    rewrite expirar_fresh by assumption. cbn [snd].
    rewrite sendWebhook_outbox, Hd.
    match goal with |- context [try_query ?q ?l ?x] =>
      destruct (try_query_keeps q l x) as [_ Ho] end.
    now rewrite Ho.
  - repeat split.
Qed.

Lemma attempt_posts_expiry_notice_witness :
  exists p,
    outbox (snd (T_attempt (platform := Examples.tagged_platform)
                   Examples.env0 (Accept Examples.browser) "t1" 70000 70000
                   Examples.w_creada)) = [p]
    /\ expiry_notice p
    /\ url p = "https://n8n.example/hook".
Proof.
  destruct (attempt_posts_expiry_notice
              (platform := Examples.tagged_platform) Examples.env0
              (Accept Examples.browser) "t1" Examples.creada 70000 70000 70000
              Examples.w_creada "https://n8n.example/hook" eq_refl
              (or_introl eq_refl) eq_refl eq_refl)
    as (p & Ho & _ & Hn & Hurl & _).
  exists p. split; [exact Ho|]. split; [exact Hn | exact Hurl].
Defined.
